(** * A shallow embedding of the research-agent pipeline (muthash/agents)

    The development follows the Python modules under [2_openai/muthama]:
    [local/planner_agent.py], [local/search_agent.py],
    [local/writer_agent.py], [local/email_agent.py],
    [local/manager_agent.py], [local/agents.py] and, for the LLM-backed
    variant, [llm_local/agents.py] and [llm_local/planner_agent.py].

    Conventions.
    - A Python [str] is a list of characters; a character is a code point
      below 256 (Rocq's [ascii]), and the classification tables below
      (whitespace, lower-casing, regex word characters) are Python's tables
      for exactly these code points.
    - Python's unbounded [int] is [Z]; [len] results are [nat].
    - A [float] priority is the rational number it denotes.
    - A call that can raise returns a [result]. *)

From Stdlib Require Import Ascii String List ZArith QArith Qround Lia Lqa Permutation.
From stdpp Require Import base tactics option list strings gmap pretty sorting.

Set Default Proof Using "Type".
Set Warnings "-register-all".

Abbreviation str := (list ascii).

Notation "'py' s" := (list_ascii_of_string s%string)
  (at level 5, s at level 0, format "'py' s").

(** ** Python string primitives *)

Module PyStr.

Definition code (c : ascii) : N := N_of_ascii c.

Definition in_range (lo hi : N) (c : ascii) : bool :=
  ((lo <=? code c) && (code c <=? hi))%N.

(** [str.isspace] on one character; [str.strip()], [str.split()] and the
    regex class [\s] all use this table. *)
Definition is_space (c : ascii) : bool :=
  in_range 9 13 c || in_range 28 32 c || (code c =? 133)%N || (code c =? 160)%N.

(** [str.lower] on one character. *)
Definition lower_char (c : ascii) : ascii :=
  if in_range 65 90 c || (in_range 192 222 c && negb (code c =? 215)%N)
  then ascii_of_N (code c + 32) else c.

Definition lower (s : str) : str := map lower_char s.

(** The regex class [\w], which decides the word boundary [\b]. *)
Definition is_word (c : ascii) : bool :=
  in_range 48 57 c || in_range 65 90 c || (code c =? 95)%N || in_range 97 122 c
  || (code c =? 170)%N || in_range 178 179 c || (code c =? 181)%N
  || in_range 185 186 c || in_range 188 190 c || in_range 192 214 c
  || in_range 216 246 c || in_range 248 255 c.

Definition eqc (a b : ascii) : bool := Ascii.eqb a b.

(** Membership of a character in a string, as in [c in chars]. *)
Definition mem (c : ascii) (chars : str) : bool := existsb (eqc c) chars.

Fixpoint lstrip (f : ascii -> bool) (s : str) : str :=
  match s with
  | [] => []
  | c :: s' => if f c then lstrip f s' else s
  end.

Fixpoint rstrip (f : ascii -> bool) (s : str) : str :=
  match s with
  | [] => []
  | c :: s' =>
      match rstrip f s' with
      | [] => if f c then [] else [c]
      | r => c :: r
      end
  end.

(** [s.strip()] is [strip_with is_space s]; [s.strip(chars)] is
    [strip_with (fun c => mem c chars) s]. *)
Definition strip_with (f : ascii -> bool) (s : str) : str := rstrip f (lstrip f s).

Definition strip (s : str) : str := strip_with is_space s.

Definition strip_chars (chars : str) (s : str) : str :=
  strip_with (fun c => mem c chars) s.

Definition push_word (cur : str) (ws : list str) : list str :=
  match cur with [] => ws | _ => cur :: ws end.

(** The scan behind [s.split()]: the pair is the word being read at the
    front of [s] and the words after it. *)
Fixpoint split_aux (s : str) : str * list str :=
  match s with
  | [] => ([], [])
  | c :: s' =>
      let '(cur, ws) := split_aux s' in
      if is_space c then ([], push_word cur ws) else (c :: cur, ws)
  end.

(** [s.split()]: the maximal runs of non-whitespace characters. *)
Definition split_ws (s : str) : list str :=
  let '(cur, ws) := split_aux s in push_word cur ws.

(** [s.count(c)] for a one-character needle. *)
Definition count_char (c : ascii) (s : str) : nat :=
  length (filter (fun x => eqc c x = true) s).

Fixpoint starts_with (p s : str) : bool :=
  match p, s with
  | [], _ => true
  | _ :: _, [] => false
  | a :: p', b :: s' => eqc a b && starts_with p' s'
  end.

(** [w in s] for strings. *)
Fixpoint contains (w s : str) : bool :=
  starts_with w s ||
  match s with
  | [] => false
  | _ :: s' => contains w s'
  end.

(** [s.replace(a, b)] for one-character [a] and [b]. *)
Definition replace_char (a b : ascii) (s : str) : str :=
  map (fun c => if eqc c a then b else c) s.

(** [re.sub(r'\s+', ' ', s)]: [in_run] tells that the previous character
    was whitespace, so the run has already been replaced. *)
Fixpoint collapse_aux (in_run : bool) (s : str) : str :=
  match s with
  | [] => []
  | c :: s' =>
      if is_space c
      then (if in_run then collapse_aux true s' else " "%char :: collapse_aux true s')
      else c :: collapse_aux false s'
  end.

Definition collapse_ws (s : str) : str := collapse_aux false s.

(** [sep.join(parts)]. *)
Fixpoint join (sep : str) (parts : list str) : str :=
  match parts with
  | [] => []
  | [p] => p
  | p :: rest => p ++ sep ++ join sep rest
  end.

(** Decimal text of a natural number, as an f-string prints an [int]. *)
Definition of_nat (n : nat) : str := list_ascii_of_string (pretty n).

End PyStr.

(** ** [local/planner_agent.py]: the search-count heuristic *)

Module Planner.
Import PyStr.

Definition MIN_SEARCHES : Z := 1.
Definition MAX_SEARCHES : Z := 6.

Definition QUESTION_WORDS : list str :=
  [py"what"; py"how"; py"why"; py"when"; py"where"; py"which"; py"who";
   py"whom"; py"does"; py"is"; py"are"; py"can"; py"could"; py"should";
   py"would"].

(** [len(re.findall(r'[?,;:-]', q))]. *)
Definition is_punct (c : ascii) : bool := mem c py"?,;:-".

Definition punctuation_count (q : str) : nat :=
  length (filter (fun c => is_punct c = true) q).

Definition next_is_word (s : str) : bool :=
  match s with
  | [] => false
  | c :: _ => is_word c
  end.

(** [len(re.findall(r'\band\b', s))]. [prev_word] tells that the character
    before the current position is a word character. A match needs exactly
    a non-word character (or an end of the string) on each side, so two
    matches never overlap and counting the matching positions is counting
    the matches. *)
Fixpoint count_and (prev_word : bool) (s : str) : nat :=
  match s with
  | [] => 0
  | c :: s' =>
      (if negb prev_word && starts_with py"and" s && negb (next_is_word (drop 3 s))
       then 1 else 0)
      + count_and (is_word c) s'
  end.

Definition determine_search_count (query : str) (min_searches max_searches : Z) : Z :=
  if bool_decide (query = []) || bool_decide (strip query = [])
  then min_searches
  else
    let q := strip query in
    let word_count := length (split_ws q) in
    let punctuation_count := punctuation_count q in
    let has_question_word := existsb (fun w => contains w (lower q)) QUESTION_WORDS in
    let topic_hint :=
      count_char ","%char q + count_char "/"%char q + count_and false (lower q) in
    let base := 1%Z in
    let base := if 8 <=? word_count then (base + 1)%Z else base in
    let base := if 1 <=? punctuation_count then (base + 1)%Z else base in
    let base := if has_question_word then (base + 1)%Z else base in
    let base := if 1 <=? topic_hint then (base + 1)%Z else base in
    Z.max min_searches (Z.min max_searches base).

(** *** Data classes *)

Record WebSearchItem := mkItem {
  query : str;
  reason : option str;
  priority : Q;
  rank : option Z;
  tags : option (list str)
}.

Definition DEFAULT_PRIORITY : Q := 1 # 2.

(** [WebSearchItem(query=q, reason=r)], with the defaults of the class. *)
Definition new_item (q : str) (r : option str) : WebSearchItem :=
  mkItem q r DEFAULT_PRIORITY None None.

Record WebSearchPlan := mkPlan { searches : list WebSearchItem }.

(** *** [validate_and_refine_searches] *)

(** [round(x, 3)]: the nearest multiple of 1/1000, a tie going to the even
    one. *)
Definition round3 (x : Q) : Q :=
  let n := (x * 1000)%Q in
  let f := Qfloor n in
  let up :=
    match Qcompare (n - inject_Z f) (1 # 2) with
    | Lt => false
    | Gt => true
    | Eq => Z.odd f
    end in
  Qred (Qmake (if up then f + 1 else f)%Z 1000).

Definition normalize_query (s : str) : str :=
  strip_chars py" .;,:" (collapse_ws (strip s)).

Definition sort_key (x : WebSearchItem) : Q := (- priority x)%Q.

Definition key_lt (a b : WebSearchItem) : bool :=
  negb (Qle_bool (sort_key b) (sort_key a)).

(** [list.sort(key=...)] is stable; it is modelled by a stable insertion
    sort, the items being inserted from the last to the first. *)
Fixpoint insert_sorted (x : WebSearchItem) (l : list WebSearchItem) : list WebSearchItem :=
  match l with
  | [] => [x]
  | y :: l' => if key_lt y x then y :: insert_sorted x l' else x :: l
  end.

Fixpoint sort_by_key (l : list WebSearchItem) : list WebSearchItem :=
  match l with
  | [] => []
  | x :: l' => insert_sorted x (sort_by_key l')
  end.

(** [l[:n]], a negative [n] counting from the end. *)
Definition slice_to {A} (l : list A) (n : Z) : list A :=
  if (0 <=? n)%Z then take (Z.to_nat n) l
  else take (length l - Z.to_nat (- n)) l.

(** The loop of [validate_and_refine_searches]; the result is [refined] in
    the order of the [append] calls. *)
Fixpoint refine_loop (seen : gset str) (items : list WebSearchItem) : list WebSearchItem :=
  match items with
  | [] => []
  | it :: rest =>
      let q := strip (query it) in
      let q_norm := strip_chars py" .;,:" (collapse_ws q) in
      let key := lower q_norm in
      if length q_norm <? 3 then refine_loop seen rest
      else if bool_decide (key ∈ seen) then refine_loop seen rest
      else mkItem q_norm (reason it) (round3 (priority it)) None None
             :: refine_loop ({[ key ]} ∪ seen) rest
  end.

Definition validate_and_refine_searches (items : list WebSearchItem) (max_items : Z)
  : list WebSearchItem :=
  let refined := refine_loop ∅ items in
  let refined := sort_by_key refined in
  slice_to refined max_items.

(** *** [_planner_handler] *)

Definition ci_eq (p c : ascii) : bool := eqc (lower_char p) (lower_char c).

(** A literal of the pattern matched at the front of [s], ignoring case
    ([flags=re.I]). *)
Fixpoint ci_starts_with (p s : str) : bool :=
  match p, s with
  | [], _ => true
  | _ :: _, [] => false
  | a :: p', b :: s' => ci_eq a b && ci_starts_with p' s'
  end.

(** The alternatives of [r',|about|for| on | regarding | about '], in the
    order the regex engine tries them at one position. *)
Definition SPLIT_ALTS : list str :=
  [py","; py"about"; py"for"; py" on "; py" regarding "; py" about "].

Definition first_match (alts : list str) (s : str) : option str :=
  find (fun a => ci_starts_with a s) alts.

(** [re.split] for an alternation of non-empty literals. [skip] counts the
    characters of the current match still to be consumed, [cur] holds the
    piece being read, reversed. *)
Fixpoint re_split_go (alts : list str) (skip : nat) (cur : str) (s : str) : list str :=
  match s with
  | [] => [rev cur]
  | c :: s' =>
      match skip with
      | S k => re_split_go alts k cur s'
      | O =>
          match first_match alts s with
          | Some a => rev cur :: re_split_go alts (length a - 1) [] s'
          | None => re_split_go alts 0 (c :: cur) s'
          end
      end
  end.

Definition re_split (alts : list str) (s : str) : list str := re_split_go alts 0 [] s.

Definition is_empty (s : str) : bool := match s with [] => true | _ => false end.

(** [[p.strip() for p in parts if p.strip()]]. *)
Definition topic_parts (query : str) : list str :=
  map strip (filter (fun p => is_empty (strip p) = false) (re_split SPLIT_ALTS query)).

Definition expand_topic (p : str) : list WebSearchItem :=
  [ new_item (p ++ py" overview") (Some py"General overview");
    new_item (p ++ py" tutorial") (Some py"How-to / hands-on");
    new_item (p ++ py" recent developments") (Some py"Latest updates") ].

Definition keyword_items (query : str) : list WebSearchItem :=
  map (fun w => new_item w (Some py"Keyword")) (take 6 (split_ws query)).

Definition build_candidates (query : str) : list WebSearchItem :=
  let candidates := flat_map expand_topic (topic_parts query) in
  match candidates with
  | [] => keyword_items query
  | _ => candidates
  end.

(** The assignment [c.rank = r]. *)
Definition set_rank (r : option Z) (c : WebSearchItem) : WebSearchItem :=
  mkItem (query c) (reason c) (priority c) r (tags c).

(** [for i, c in enumerate(candidates, start=1): c.rank = i]. *)
Fixpoint assign_ranks (i : Z) (l : list WebSearchItem) : list WebSearchItem :=
  match l with
  | [] => []
  | c :: l' => set_rank (Some i) c :: assign_ranks (i + 1) l'
  end.

(** The handler on a string payload ([query = payload]). *)
Definition _planner_handler (query : str) : WebSearchPlan :=
  let n := determine_search_count query MIN_SEARCHES MAX_SEARCHES in
  let candidates := build_candidates query in
  let candidates := validate_and_refine_searches candidates n in
  mkPlan (assign_ranks 1 candidates).

End Planner.

(** ** The search-count rule as the specification words it

    Four signals are read off the raw query: at least eight words, a
    delimiter among [? , ; : -], a question word, and a list or conjunction
    marker (a comma, a slash, or the word "and"). The count is one plus the
    number of signals present, clamped to [[1,6]]. The set of question words
    is a parameter. A question word counts as present when it occurs in the
    lower-cased query. *)

Module PlannerSpec.
Import PyStr Planner.

(** The question words the specification lists. *)
Definition SPEC_QUESTION_WORDS : list str :=
  [py"what"; py"how"; py"why"; py"when"; py"where"; py"which"; py"who";
   py"does"; py"is"; py"are"; py"can"; py"should"; py"would"].

Definition clamp (lo hi x : Z) : Z := Z.max lo (Z.min hi x).

Definition long_query (q : str) : bool := 8 <=? length (split_ws q).

Definition has_delimiter (q : str) : bool := existsb is_punct q.

Definition has_question_word (words : list str) (q : str) : bool :=
  existsb (fun w => contains w (lower q)) words.

Definition has_word_and (q : str) : bool := 1 <=? count_and false (lower q).

Definition has_list_marker (q : str) : bool :=
  mem ","%char q || mem "/"%char q || has_word_and q.

Definition signal_count (words : list str) (q : str) : Z :=
  clamp 1 6
    (1 + Z.b2z (long_query q) + Z.b2z (has_delimiter q)
       + Z.b2z (has_question_word words q) + Z.b2z (has_list_marker q)).

(** What the signals mean, stated without reference to a scan. *)
Definition occurs_in (w s : str) : Prop := exists pre post, s = pre ++ w ++ post.

Definition ends_with_word (pre : str) : bool :=
  match last pre with
  | Some c => is_word c
  | None => false
  end.

Definition occurs_as_word (w s : str) : Prop :=
  exists pre post,
    s = pre ++ w ++ post /\ ends_with_word pre = false /\ next_is_word post = false.

(** The words of the ranking rule: down the list the priority never rises,
    the rank is the one-based position, and items of equal priority stand in
    the order they had in [before]. *)
Definition descending (l : list WebSearchItem) : Prop :=
  forall i j a b,
    l !! i = Some a -> l !! j = Some b -> i < j -> (priority b <= priority a)%Q.

Definition ranked (l : list WebSearchItem) : Prop :=
  forall i a, l !! i = Some a -> rank a = Some (Z.of_nat (i + 1)).

Definition same_priority (p : Q) (x : WebSearchItem) : bool :=
  Qeq_bool (priority x) p.

(** The items of priority [p], in the order of the list, ranks put aside. *)
Definition of_priority (p : Q) (l : list WebSearchItem) : list WebSearchItem :=
  map (set_rank None) (filter (fun x => same_priority p x = true) l).

Definition keeps_order (before after : list WebSearchItem) : Prop :=
  forall p, of_priority p after `prefix_of` of_priority p before.

(** The text two items must not share. *)
Definition dedup_key (x : WebSearchItem) : str := lower (normalize_query (query x)).

End PlannerSpec.

(** ** Python values

    The values the handlers exchange: plain data (what [json.loads]
    returns) and instances of the data classes. A [dict] keeps its keys,
    which are strings here, in insertion order. [WebSearchItem],
    [WebSearchPlan] and [SearchResultItem] instances are only built by the
    handlers' own constructor calls and carry fields of the declared types;
    a [ReportData] can also be built from an arbitrary mapping
    (the call of [ReportData] on the unpacked mapping), so its fields hold arbitrary values. *)

Module Py.
Import PyStr.

Inductive PyFloat :=
| FNum (q : Q)
| FNaN
| FPosInf
| FNegInf.

Record SearchResultItem := mkResult {
  result_query : str;
  snippet : str;
  url : str
}.

Inductive Value :=
| VNone
| VBool (b : bool)
| VInt (n : Z)
| VFloat (f : PyFloat)
| VStr (s : str)
| VList (l : list Value)
| VDict (d : list (str * Value))
| VItem (it : Planner.WebSearchItem)
| VPlan (p : Planner.WebSearchPlan)
| VResult (r : SearchResultItem)
| VReport (title markdown_report metadata : Value).

(** Exceptions: the class and the message. *)
Inductive exn_class := RuntimeError | AttributeError | TypeError | ValueError | KeyError.

Record exn := mkExn { exn_kind : exn_class; exn_msg : str }.

Inductive result (A : Type) :=
| Ok (a : A)
| Raise (e : exn).
Arguments Ok {A} a.
Arguments Raise {A} e.

Definition bind {A B} (m : result A) (k : A -> result B) : result B :=
  match m with
  | Ok a => k a
  | Raise e => Raise e
  end.

#[global] Instance result_ret : MRet result := fun A a => Ok a.
#[global] Instance result_bind : MBind result := fun A B k m => bind m k.

(** [type(v).__name__]. *)
Definition type_name (v : Value) : str :=
  match v with
  | VNone => py"NoneType"
  | VBool _ => py"bool"
  | VInt _ => py"int"
  | VFloat _ => py"float"
  | VStr _ => py"str"
  | VList _ => py"list"
  | VDict _ => py"dict"
  | VItem _ => py"WebSearchItem"
  | VPlan _ => py"WebSearchPlan"
  | VResult _ => py"SearchResultItem"
  | VReport _ _ _ => py"ReportData"
  end.

Definition str_eqb (a b : str) : bool := bool_decide (a = b).

(** [d.get(k)] as an option, and [d[k] = v]. *)
Fixpoint dict_get (k : str) (d : list (str * Value)) : option Value :=
  match d with
  | [] => None
  | (k', v) :: d' => if str_eqb k k' then Some v else dict_get k d'
  end.

Fixpoint dict_set (k : str) (v : Value) (d : list (str * Value)) : list (str * Value) :=
  match d with
  | [] => [(k, v)]
  | (k', v') :: d' => if str_eqb k k' then (k, v) :: d' else (k', v') :: dict_set k v d'
  end.

Definition no_attribute (v : Value) (name : str) : exn :=
  mkExn AttributeError
    (py"'" ++ type_name v ++ py"' object has no attribute '" ++ name ++ py"'").

(** [len(v)]. *)
Definition py_len (v : Value) : result Z :=
  match v with
  | VStr s => Ok (Z.of_nat (length s))
  | VList l => Ok (Z.of_nat (length l))
  | VDict d => Ok (Z.of_nat (length d))
  | _ => Raise (mkExn TypeError (py"object of type '" ++ type_name v ++ py"' has no len()"))
  end.

(** [v[:n]] for a natural [n]. *)
Definition py_slice_to (n : nat) (v : Value) : result Value :=
  match v with
  | VStr s => Ok (VStr (take n s))
  | VList l => Ok (VList (take n l))
  | VDict _ => Raise (mkExn TypeError py"unhashable type: 'slice'")
  | _ => Raise (mkExn TypeError (py"'" ++ type_name v ++ py"' object is not subscriptable"))
  end.

(** Decimal text of an integer. *)
Definition of_Z (n : Z) : str :=
  match n with
  | Z0 => py"0"
  | Zpos p => of_nat (Pos.to_nat p)
  | Zneg p => "-"%char :: of_nat (Pos.to_nat p)
  end.

(** *** [repr] and [str] *)

Definition hex_digit (n : N) : ascii :=
  if (n <? 10)%N then ascii_of_N (48 + n) else ascii_of_N (87 + n).

Definition repr_char (quote c : ascii) : str :=
  if eqc c quote || eqc c "\" then ["\"%char; c]
  else if (code c =? 9)%N then py"\t"
  else if (code c =? 10)%N then py"\n"
  else if (code c =? 13)%N then py"\r"
  else if (code c <? 32)%N || (code c =? 127)%N || in_range 128 160 c || (code c =? 173)%N
  then py"\x" ++ [hex_digit (code c / 16); hex_digit (code c mod 16)]
  else [c].

(** [repr(s)] for a string: single quotes, unless the text holds a single
    quote and no double quote. *)
Definition repr_str (s : str) : str :=
  let quote := if mem "'" s && negb (mem "034" s) then "034"%char else "'"%char in
  quote :: flat_map (repr_char quote) s ++ [quote].

Definition repr_option {A} (f : A -> str) (o : option A) : str :=
  match o with
  | Some a => f a
  | None => py"None"
  end.

Definition repr_list (parts : list str) : str := py"[" ++ join py", " parts ++ py"]".

Section Repr.
(** [repr] of a float: the shortest decimal that reads back as the same
    binary float, which the rational model of floats cannot give. *)
Variable repr_float : PyFloat -> str.

Definition repr_item (it : Planner.WebSearchItem) : str :=
  py"WebSearchItem(query=" ++ repr_str (Planner.query it)
  ++ py", reason=" ++ repr_option repr_str (Planner.reason it)
  ++ py", priority=" ++ repr_float (FNum (Planner.priority it))
  ++ py", rank=" ++ repr_option of_Z (Planner.rank it)
  ++ py", tags=" ++ repr_option (fun l => repr_list (map repr_str l)) (Planner.tags it)
  ++ py")".

Definition repr_result (r : SearchResultItem) : str :=
  py"SearchResultItem(query=" ++ repr_str (result_query r)
  ++ py", snippet=" ++ repr_str (snippet r)
  ++ py", url=" ++ repr_str (url r) ++ py")".

Fixpoint py_repr (v : Value) : str :=
  match v with
  | VNone => py"None"
  | VBool b => if b then py"True" else py"False"
  | VInt n => of_Z n
  | VFloat f => repr_float f
  | VStr s => repr_str s
  | VList l => repr_list (map py_repr l)
  | VDict d =>
      py"{" ++ join py", " (map (fun kv => repr_str (fst kv) ++ py": " ++ py_repr (snd kv)) d)
      ++ py"}"
  | VItem it => repr_item it
  | VPlan p =>
      py"WebSearchPlan(searches=" ++ repr_list (map repr_item (Planner.searches p)) ++ py")"
  | VResult r => repr_result r
  | VReport t m md =>
      py"ReportData(title=" ++ py_repr t ++ py", markdown_report=" ++ py_repr m
      ++ py", metadata=" ++ py_repr md ++ py")"
  end.

(** [str(v)]. *)
Definition py_str (v : Value) : str :=
  match v with
  | VStr s => s
  | _ => py_repr v
  end.

End Repr.

End Py.

(** ** A reference decoder for [json.loads]

    [json.loads] belongs to Python's library, not to the repository: the
    extractor below takes the decoder as a parameter. This module gives one
    decoder, following the scanner of the [json] package (strict mode), to
    evaluate the extractor on concrete texts. [None] stands for a raised
    [JSONDecodeError]. A decimal is decoded to the rational it denotes (the
    rounding to a binary float is not modelled), and an escape [\uXXXX] is
    decoded for code points below 256 only. *)

Module Json.
Import PyStr Py.

Definition is_json_space (c : ascii) : bool := mem c [" "; "009"; "010"; "013"]%char.

Fixpoint skip_ws (s : str) : str :=
  match s with
  | c :: s' => if is_json_space c then skip_ws s' else s
  | [] => []
  end.

Definition digit_val (c : ascii) : option Z :=
  if in_range 48 57 c then Some (Z.of_N (code c) - 48)%Z else None.

Definition hex_val (c : ascii) : option N :=
  if in_range 48 57 c then Some (code c - 48)%N
  else if in_range 97 102 c then Some (code c - 87)%N
  else if in_range 65 70 c then Some (code c - 55)%N
  else None.

Fixpoint take_digits (s : str) : list Z * str :=
  match s with
  | [] => ([], [])
  | c :: r =>
      match digit_val c with
      | Some d => let '(ds, r') := take_digits r in (d :: ds, r')
      | None => ([], s)
      end
  end.

Definition digits_value (ds : list Z) : Z :=
  fold_left (fun acc d => acc * 10 + d)%Z ds 0%Z.

(** The integer part: [0|[1-9]\d*]. *)
Definition int_part (s : str) : option (list Z * str) :=
  match s with
  | c :: r =>
      if eqc c "0" then Some ([0%Z], r)
      else if in_range 49 57 c then Some (take_digits s)
      else None
  | [] => None
  end.

(** The fraction [(\.\d+)?]. *)
Definition frac_part (s : str) : option (list Z) * str :=
  match s with
  | c :: r =>
      if eqc c "."
      then match take_digits r with
           | ([], _) => (None, s)
           | (ds, r') => (Some ds, r')
           end
      else (None, s)
  | [] => (None, s)
  end.

(** The exponent [([eE][-+]?\d+)?]. *)
Definition exp_part (s : str) : option Z * str :=
  match s with
  | c :: r =>
      if eqc c "e" || eqc c "E"
      then
        let '(neg, r1) :=
          match r with
          | d :: r' => if eqc d "-" then (true, r')
                       else if eqc d "+" then (false, r') else (false, r)
          | [] => (false, r)
          end in
        match take_digits r1 with
        | ([], _) => (None, s)
        | (ds, r2) => (Some (if neg then - digits_value ds else digits_value ds)%Z, r2)
        end
      else (None, s)
  | [] => (None, s)
  end.

Definition pow10 (e : Z) : Q :=
  if (0 <=? e)%Z then inject_Z (10 ^ e) else Qmake 1 (Z.to_pos (10 ^ (- e))).

Definition parse_number (s : str) : option (Value * str) :=
  let '(neg, s1) :=
    match s with
    | c :: r => if eqc c "-" then (true, r) else (false, s)
    | [] => (false, s)
    end in
  match int_part s1 with
  | None => None
  | Some (ds, r) =>
      let '(frac, r1) := frac_part r in
      let '(ex, r2) := exp_part r1 in
      match frac, ex with
      | None, None =>
          Some (VInt (if neg then - digits_value ds else digits_value ds)%Z, r2)
      | _, _ =>
          let fs := default [] frac in
          let mant := digits_value (ds ++ fs) in
          let e := (default 0 ex - Z.of_nat (length fs))%Z in
          let q := (inject_Z (if neg then - mant else mant) * pow10 e)%Q in
          Some (VFloat (FNum (Qred q)), r2)
      end
  end.

Definition escape_char (c : ascii) : option ascii :=
  if eqc c "034" then Some "034"%char
  else if eqc c "\" then Some "\"%char
  else if eqc c "/" then Some "/"%char
  else if eqc c "b" then Some "008"%char
  else if eqc c "f" then Some "012"%char
  else if eqc c "n" then Some "010"%char
  else if eqc c "r" then Some "013"%char
  else if eqc c "t" then Some "009"%char
  else None.

Definition hex4 (a b c d : ascii) : option ascii :=
  match hex_val a, hex_val b, hex_val c, hex_val d with
  | Some x, Some y, Some z, Some w =>
      let n := (((x * 16 + y) * 16 + z) * 16 + w)%N in
      if (n <? 256)%N then Some (ascii_of_N n) else None
  | _, _, _, _ => None
  end.

(** The text of a string literal, after its opening quote. *)
Fixpoint parse_string (s : str) : option (str * str) :=
  match s with
  | [] => None
  | c :: r =>
      if eqc c "034" then Some ([], r)
      else if eqc c "\" then
        match r with
        | e :: r1 =>
            if eqc e "u" then
              match r1 with
              | h1 :: h2 :: h3 :: h4 :: r2 =>
                  match hex4 h1 h2 h3 h4, parse_string r2 with
                  | Some x, Some (t, r3) => Some (x :: t, r3)
                  | _, _ => None
                  end
              | _ => None
              end
            else
              match escape_char e, parse_string r1 with
              | Some x, Some (t, r2) => Some (x :: t, r2)
              | _, _ => None
              end
        | [] => None
        end
      else if (code c <? 32)%N then None
      else
        match parse_string r with
        | Some (t, r1) => Some (c :: t, r1)
        | None => None
        end
  end.

Definition after_literal (lit : str) (v : Value) (s : str) : option (Value * str) :=
  if starts_with lit s then Some (v, drop (length lit) s) else None.

(** [scan_once] with the loops of [JSONArray] and [JSONObject]; the fuel
    bounds the number of nested calls. *)
Fixpoint parse_value (fuel : nat) (s : str) : option (Value * str) :=
  match fuel with
  | O => None
  | S fuel' =>
      match s with
      | [] => None
      | c :: r =>
          if eqc c "034" then
            match parse_string r with
            | Some (t, r1) => Some (VStr t, r1)
            | None => None
            end
          else if eqc c "{" then
            match skip_ws r with
            | d :: r1 =>
                if eqc d "}" then Some (VDict [], r1)
                else parse_members fuel' [] (d :: r1)
            | [] => None
            end
          else if eqc c "[" then
            match skip_ws r with
            | d :: r1 =>
                if eqc d "]" then Some (VList [], r1)
                else parse_elements fuel' [] (d :: r1)
            | [] => None
            end
          else if starts_with py"null" s then after_literal py"null" VNone s
          else if starts_with py"true" s then after_literal py"true" (VBool true) s
          else if starts_with py"false" s then after_literal py"false" (VBool false) s
          else
            match parse_number s with
            | Some out => Some out
            | None =>
                if starts_with py"NaN" s then after_literal py"NaN" (VFloat FNaN) s
                else if starts_with py"Infinity" s
                then after_literal py"Infinity" (VFloat FPosInf) s
                else after_literal py"-Infinity" (VFloat FNegInf) s
            end
      end
  end
with parse_elements (fuel : nat) (acc : list Value) (s : str) : option (Value * str) :=
  match fuel with
  | O => None
  | S fuel' =>
      match parse_value fuel' s with
      | Some (v, r) =>
          match skip_ws r with
          | d :: r1 =>
              if eqc d "]" then Some (VList (rev (v :: acc)), r1)
              else if eqc d "," then parse_elements fuel' (v :: acc) (skip_ws r1)
              else None
          | [] => None
          end
      | None => None
      end
  end
with parse_members (fuel : nat) (acc : list (str * Value)) (s : str) : option (Value * str) :=
  match fuel with
  | O => None
  | S fuel' =>
      match s with
      | q :: r =>
          if eqc q "034" then
            match parse_string r with
            | Some (k, r1) =>
                match skip_ws r1 with
                | col :: r2 =>
                    if eqc col ":" then
                      match parse_value fuel' (skip_ws r2) with
                      | Some (v, r3) =>
                          match skip_ws r3 with
                          | d :: r4 =>
                              if eqc d "}" then Some (VDict (dict_set k v acc), r4)
                              else if eqc d ","
                              then parse_members fuel' (dict_set k v acc) (skip_ws r4)
                              else None
                          | [] => None
                          end
                      | None => None
                      end
                    else None
                | [] => None
                end
            | None => None
            end
          else None
      | [] => None
      end
  end.

(** [json.loads(s)]: one value, whitespace around it, nothing else. *)
Definition loads (s : str) : option Value :=
  match parse_value (2 * length s + 2) (skip_ws s) with
  | Some (v, r) => match skip_ws r with [] => Some v | _ => None end
  | None => None
  end.

End Json.

(** ** [llm_local/agents.py]: [_extract_json_from_text] *)

Module Extractor.
Import PyStr Py.

(** The longest prefix of [s] that ends in [c]: what [.*c] matches at the
    front of [s] under [re.S]. *)
Fixpoint up_to_last (c : ascii) (s : str) : option str :=
  match s with
  | [] => None
  | x :: s' =>
      match up_to_last c s' with
      | Some p => Some (x :: p)
      | None => if eqc x c then Some [x] else None
      end
  end.

(** [re.search(r'(\{.*\}|\[.*\])', text, flags=re.S)]: the match at the
    leftmost position where one of the two alternatives matches. *)
Fixpoint find_span (text : str) : option str :=
  match text with
  | [] => None
  | c :: rest =>
      if eqc c "{" then
        match up_to_last "}" rest with
        | Some p => Some (c :: p)
        | None => find_span rest
        end
      else if eqc c "[" then
        match up_to_last "]" rest with
        | Some p => Some (c :: p)
        | None => find_span rest
        end
      else find_span rest
  end.

Section WithDecoder.
(** [json.loads]; [None] when it raises. *)
Variable json_loads : str -> option Value.

Definition _extract_json_from_text (text : str) : Value :=
  let candidate := match find_span text with Some m => m | None => text end in
  match json_loads candidate with
  | Some v => v
  | None =>
      let fix_ := replace_char "'" "034" candidate in
      match json_loads fix_ with
      | Some v => v
      | None => VStr text
      end
  end.

End WithDecoder.

(** The extractor as the specification words it: without a candidate span
    the text is returned as it is. *)
Definition spec_extract (json_loads : str -> option Value) (text : str) : Value :=
  match find_span text with
  | Some m =>
      match json_loads m with
      | Some v => v
      | None =>
          match json_loads (replace_char "'" "034" m) with
          | Some v => v
          | None => VStr text
          end
      end
  | None => VStr text
  end.

(** "The first greedy brace/bracket span", without reference to a scan. *)
Definition opens_span (s : str) : Prop :=
  (exists r, s = "{"%char :: r /\ "}"%char ∈ r)
  \/ (exists r, s = "["%char :: r /\ "]"%char ∈ r).

Definition first_span (text m : str) : Prop :=
  exists pre post,
    text = pre ++ m ++ post
    /\ (forall p1 c p2, pre = p1 ++ c :: p2 -> ~ opens_span (c :: p2 ++ m ++ post))
    /\ ((exists mid, m = "{"%char :: mid ++ ["}"%char] /\ "}"%char ∉ post)
        \/ (exists mid, m = "["%char :: mid ++ ["]"%char] /\ "]"%char ∉ post)).

Definition no_span (text : str) : Prop :=
  forall pre s, text = pre ++ s -> ~ opens_span s.

End Extractor.

(** ** [local/search_agent.py] *)

Module Search.
Import PyStr Py.

(** [it.query]. *)
Definition item_query (it : Value) : result str :=
  match it with
  | VItem i => Ok (Planner.query i)
  | VResult r => Ok (result_query r)
  | _ => Raise (no_attribute it py"query")
  end.

Definition simulated_result (q : str) : SearchResultItem :=
  mkResult q
    (py"Simulated snippet for '" ++ q ++ py"': key findings and summary.")
    (py"https://example.com/search?q=" ++ replace_char " " "+" q).

(** The loop [for it in items: ... results.append(...)]. *)
Fixpoint search_loop (items : list Value) : result (list Value) :=
  match items with
  | [] => Ok []
  | it :: rest =>
      q ← item_query it;
      results ← search_loop rest;
      Ok (VResult (simulated_result q) :: results)
  end.

Section Handler.
Variable repr_float : PyFloat -> str.

Definition _search_handler (payload : Value) : result Value :=
  let items :=
    match payload with
    | VList l => l
    | VPlan p => map VItem (Planner.searches p)
    | _ => [VItem (Planner.new_item (py_str repr_float payload) None)]
    end in
  results ← search_loop items;
  Ok (VList results).

End Handler.

End Search.

(** ** URL encoding, as the specification names it

    [urllib.parse.quote_plus]: letters, digits and [_.-~] stand for
    themselves, a space becomes [+], every other character is written as the
    bytes of its UTF-8 encoding, each as [%XX]. *)

Module UrlSpec.
Import PyStr Py.

Definition unreserved (c : ascii) : bool :=
  in_range 48 57 c || in_range 65 90 c || in_range 97 122 c || mem c py"_.-~".

Definition upper_hex_digit (n : N) : ascii :=
  if (n <? 10)%N then ascii_of_N (48 + n) else ascii_of_N (55 + n).

Definition percent (n : N) : str :=
  ["%"%char; upper_hex_digit (n / 16); upper_hex_digit (n mod 16)].

Definition utf8 (c : ascii) : list N :=
  if (code c <? 128)%N then [code c]
  else [(192 + code c / 64)%N; (128 + code c mod 64)%N].

Definition quote_plus_char (c : ascii) : str :=
  if unreserved c then [c]
  else if eqc c " " then py"+"
  else flat_map percent (utf8 c).

Definition quote_plus (s : str) : str := flat_map quote_plus_char s.

End UrlSpec.

(** ** [local/writer_agent.py] *)

Module Writer.
Import PyStr Py.

Definition NL : str := ["010"%char].

(** [hasattr(x, "snippet")]. *)
Definition has_snippet (v : Value) : bool :=
  match v with
  | VResult _ => true
  | _ => false
  end.

(** The four lines the loop appends for one item; the attribute reads go
    in the order [query], [snippet], [url]. *)
Definition result_lines (i : nat) (item : Value) : result (list str) :=
  match item with
  | VResult r =>
      Ok [ py"## Result " ++ of_nat i ++ py": " ++ result_query r;
           snippet r;
           py"[source](" ++ url r ++ py")";
           [] ]
  | VItem _ => Raise (no_attribute item py"snippet")
  | _ => Raise (no_attribute item py"query")
  end.

Fixpoint report_lines (i : nat) (items : list Value) : result (list str) :=
  match items with
  | [] => Ok []
  | item :: rest =>
      ls ← result_lines i item;
      more ← report_lines (S i) rest;
      Ok (ls ++ more)
  end.

Section Handler.
Variable repr_float : PyFloat -> str.

Definition _writer_handler (payload : Value) : result Value :=
  let stringified := VList [VStr (py_str repr_float payload)] in
  let findings :=
    match payload with
    | VList l => if forallb has_snippet l then payload else stringified
    | VDict d =>
        match dict_get py"search_results" d with
        | Some v => v
        | None => stringified
        end
    | _ => stringified
    end in
  let title := py"Research Report" in
  let lines := [py"# " ++ title; []] in
  lines ←
    match findings with
    | VList (first :: rest) =>
        if has_snippet first
        then more ← report_lines 1 (first :: rest); Ok (lines ++ more)
        else Ok (lines ++ [py"Findings:"; py_str repr_float findings])
    | _ => Ok (lines ++ [py"Findings:"; py_str repr_float findings])
    end;
  let md := join NL lines in
  count ← py_len findings;
  Ok (VReport (VStr title) (VStr md) (VDict [(py"count", VInt count)])).

End Handler.

End Writer.

(** ** [local/email_agent.py]

    What the handler prints is not modelled; the expressions it prints are
    evaluated, since evaluating them can raise. *)

Module Email.
Import PyStr Py.

Section Handler.
Variable repr_float : PyFloat -> str.

Definition _email_handler (payload : Value) : result Value :=
  let body :=
    match payload with
    | VReport _ markdown_report _ => markdown_report
    | VDict d =>
        match dict_get py"markdown_report" d with
        | Some v => v
        | None => VStr (py_str repr_float payload)
        end
    | _ => VStr (py_str repr_float payload)
    end in
  _ ← py_slice_to 1000 body;
  Ok (VStr py"email_sent").

End Handler.

End Email.

(** ** [local/agents.py]: agents, the handler registry, the runner

    The registry is the module-level dictionary [_AGENT_HANDLERS]; it is
    passed explicitly. [Runner.run] is modelled for the calls the manager
    makes, which give no timeout. *)

Module Agents.
Import PyStr Py.

(** The fields of [Agent] that the handlers and the runner read. *)
Record Agent := mkAgent {
  name : str;
  instructions : option str;
  model : option str
}.

Abbreviation handler := (Agent -> Value -> result Value).

Definition register_agent_handler (agent : Agent) (h : handler)
    (handlers : gmap str handler) : gmap str handler :=
  <[ name agent := h ]> handlers.

Record RunnerResult := mkRunnerResult { output : Value }.

Definition Runner_run (handlers : gmap str handler) (agent : Agent) (payload : Value)
  : result RunnerResult :=
  match handlers !! name agent with
  | None =>
      Raise (mkExn RuntimeError
               (py"No handler registered for agent '" ++ name agent ++ py"'"))
  | Some h =>
      out ← h agent payload;
      Ok (mkRunnerResult out)
  end.

(** An object used as the target of [final_output_as]: how it prints,
    what [isinstance(v, typ)] does (it answers for a class, and raises a
    [TypeError] for an object that admits no instance check, such as a
    subscripted generic), and what calling it on the unpacked mapping
    does. *)
Record PyType := mkType {
  type_repr : str;
  is_instance : Value -> result bool;
  construct : list (str * Value) -> result Value
}.

(** [f"{type(v)}"]. *)
Definition class_repr (v : Value) : str :=
  let qualified :=
    match v with
    | VItem _ | VPlan _ => py"planner_agent." ++ type_name v
    | VResult _ => py"search_agent." ++ type_name v
    | VReport _ _ _ => py"writer_agent." ++ type_name v
    | _ => type_name v
    end in
  py"<class '" ++ qualified ++ py"'>".

(** [RunnerResult.final_output_as]. Beside the outcome, the function
    reports the constructor calls it made (the target applied to the
    unpacked mapping), in order, each by the mapping it passed. The first
    [isinstance] stands outside the [try]: what it raises leaves the
    function as it is. *)
Definition final_output_as (r : RunnerResult) (typ : PyType)
  : result Value * list (list (str * Value)) :=
  match is_instance typ (output r) with
  | Raise e => (Raise e, [])
  | Ok true => (Ok (output r), [])
  | Ok false =>
      match output r with
      | VDict d =>
          (match construct typ d with
           | Ok v => Ok v
           | Raise e =>
               Raise (mkExn RuntimeError
                        (py"Cannot convert output to " ++ type_repr typ ++ py": "
                         ++ exn_msg e))
           end, [d])
      | _ =>
          (Raise (mkExn RuntimeError
                    (py"Result cannot be converted to " ++ type_repr typ
                     ++ py" (type=" ++ class_repr (output r) ++ py")")), [])
      end
  end.

End Agents.

(** ** [local/manager_agent.py] *)

Module Manager.
Import PyStr Py Agents.

Definition planner_agent : Agent :=
  mkAgent py"PlannerAgent" (Some py"Produce a WebSearchPlan for the incoming query.")
    (Some py"simulated-planner-model").

Definition search_agent : Agent :=
  mkAgent py"SearchAgent"
    (Some py"Execute each WebSearchItem and return a list of SearchResultItem.")
    (Some py"simulated-search-model").

Definition writer_agent : Agent :=
  mkAgent py"WriterAgent"
    (Some py"Compose a markdown report from search results or findings.")
    (Some py"simulated-writer-model").

Definition email_agent : Agent :=
  mkAgent py"EmailAgent"
    (Some py"Send an email containing the given markdown report (simulated).")
    (Some py"simulated-email-model").

Definition manager_agent : Agent :=
  mkAgent py"ManagerAgent" None (Some py"simulated-manager-model").

Definition REPORT_FIELDS : list str := [py"title"; py"markdown_report"; py"metadata"].

(** [ReportData] called on the unpacked mapping [d]: the generated
    [__init__] refuses a keyword that is
    no field, then a missing [title] or [markdown_report]; [metadata]
    defaults to [None]. *)
Definition construct_report (d : list (str * Value)) : result Value :=
  match find (fun k => negb (bool_decide (k ∈ REPORT_FIELDS))) (map fst d) with
  | Some k =>
      Raise (mkExn TypeError
               (py"ReportData.__init__() got an unexpected keyword argument '" ++ k ++ py"'"))
  | None =>
      match dict_get py"title" d, dict_get py"markdown_report" d with
      | Some t, Some m => Ok (VReport t m (default VNone (dict_get py"metadata" d)))
      | None, Some _ =>
          Raise (mkExn TypeError
                   py"ReportData.__init__() missing 1 required positional argument: 'title'")
      | Some _, None =>
          Raise (mkExn TypeError
                   py"ReportData.__init__() missing 1 required positional argument: 'markdown_report'")
      | None, None =>
          Raise (mkExn TypeError
                   py"ReportData.__init__() missing 2 required positional arguments: 'title' and 'markdown_report'")
      end
  end.

Section Handlers.
Variable repr_float : PyFloat -> str.

(** The registered planner handler on an arbitrary payload. *)
Definition planner_handler : handler := fun _ payload =>
  let query := match payload with VStr s => s | _ => py_str repr_float payload end in
  Ok (VPlan (Planner._planner_handler query)).

Definition search_handler : handler := fun _ payload => Search._search_handler repr_float payload.
Definition writer_handler : handler := fun _ payload => Writer._writer_handler repr_float payload.
Definition email_handler : handler := fun _ payload => Email._email_handler repr_float payload.

(** [_manager_handler]; [handlers] is the registry the runner reads. The
    trace identifier and the progress messages are not modelled, but the
    [len] calls inside the messages are evaluated. *)
Definition _manager_handler (handlers : gmap str handler) : handler := fun agent payload =>
  query ←
    match payload with
    | VStr s => Ok s
    | VDict d => Ok (py_str repr_float (default payload (dict_get py"query" d)))
    | _ => Raise (no_attribute payload py"get")
    end;
  planner_res ← Runner_run handlers planner_agent (VStr query);
  let plan := output planner_res in
  searches ←
    match plan with
    | VPlan p => Ok (VList (map VItem (Planner.searches p)))
    | VDict d =>
        match dict_get py"searches" d with
        | Some v => Ok v
        | None => Raise (mkExn RuntimeError py"Planner did not return a WebSearchPlan")
        end
    | _ => Raise (mkExn RuntimeError py"Planner did not return a WebSearchPlan")
    end;
  _ ← py_len searches;
  search_res ← Runner_run handlers search_agent searches;
  let search_results := output search_res in
  _ ← py_len search_results;
  let writer_payload := VDict [(py"search_results", search_results)] in
  writer_res ← Runner_run handlers writer_agent writer_payload;
  report ←
    match output writer_res with
    | VReport _ _ _ => Ok (output writer_res)
    | VDict d =>
        match dict_get py"markdown_report" d with
        | Some _ => construct_report d
        | None => Raise (mkExn RuntimeError py"Writer did not return a ReportData")
        end
    | _ => Raise (mkExn RuntimeError py"Writer did not return a ReportData")
    end;
  _ ← Runner_run handlers email_agent report;
  Ok report.

(** The registry once the five modules are imported. *)
Definition tool_handlers : gmap str handler :=
  register_agent_handler email_agent email_handler
    (register_agent_handler writer_agent writer_handler
       (register_agent_handler search_agent search_handler
          (register_agent_handler planner_agent planner_handler ∅))).

Definition local_handlers : gmap str handler :=
  register_agent_handler manager_agent (_manager_handler tool_handlers) tool_handlers.

(** [Manager.run(query)]. *)
Definition manager_run (query : str) : result Value :=
  res ← Runner_run local_handlers manager_agent (VStr query);
  Ok (output res).

End Handlers.

End Manager.

(** ** [llm_local/planner_agent.py]

    The outcome of [await llm_call(...)] is a parameter: the text returned,
    or the exception raised. So are [json.loads] and the conversions
    [float(s)], [int(s)] of a string. Float arithmetic is exact in the
    model. *)

Module LlmPlanner.
Import PyStr Py.

Record WebSearchItem := mkItem {
  query : Value;
  reason : Value;
  priority : PyFloat;
  rank : Z;
  tags : Value
}.

Record WebSearchPlan := mkPlan { searches : list WebSearchItem }.

Definition SPLIT_ALTS : list str :=
  [py","; py" about "; py" for "; py" on "; py" regarding "; py" and "].

Fixpoint simulated_items (i : Z) (parts : list str) : list Value :=
  match parts with
  | [] => []
  | p :: rest =>
      VDict [ (py"query", VStr (p ++ py" overview"));
              (py"reason", VStr py"overview");
              (py"priority", VFloat (FNum (Qred ((9 # 10) - inject_Z i * (1 # 10)))));
              (py"rank", VInt i) ]
        :: simulated_items (i + 1) rest
  end.

(** [_simulated_planner] on a string payload. *)
Definition _simulated_planner (payload : str) : Value :=
  let parts := Planner.re_split SPLIT_ALTS payload in
  let parts := map strip (filter (fun p => Planner.is_empty (strip p) = false) parts) in
  let out := simulated_items 1 (take 3 parts) in
  let out :=
    match out with
    | [] => [VDict [ (py"query", VStr payload); (py"reason", VStr py"keyword");
                     (py"priority", VFloat (FNum (1 # 2))); (py"rank", VInt 1) ]]
    | _ => out
    end in
  VDict [(py"searches", VList out)].

Section Handler.
Variable json_loads : str -> option Value.
Variable repr_float : PyFloat -> str.
Variable float_of_str : str -> option PyFloat.
Variable int_of_str : str -> option Z.

(** [float(v)]. *)
Definition py_float (v : Value) : result PyFloat :=
  match v with
  | VFloat f => Ok f
  | VInt n => Ok (FNum (inject_Z n))
  | VBool b => Ok (FNum (if b then 1 else 0))
  | VStr s =>
      match float_of_str s with
      | Some f => Ok f
      | None =>
          Raise (mkExn ValueError (py"could not convert string to float: " ++ repr_str s))
      end
  | _ =>
      Raise (mkExn TypeError
               (py"float() argument must be a string or a real number, not '"
                ++ type_name v ++ py"'"))
  end.

(** [int(v)]; the exception of [int(nan)] and [int(inf)] is
    [OverflowError] for the infinities, given here as [ValueError]. *)
Definition py_int (v : Value) : result Z :=
  match v with
  | VInt n => Ok n
  | VBool b => Ok (if b then 1 else 0)%Z
  | VFloat (FNum q) => Ok (Z.quot (Qnum q) (Zpos (Qden q)))
  | VFloat FNaN => Raise (mkExn ValueError py"cannot convert float NaN to integer")
  | VFloat _ => Raise (mkExn ValueError py"cannot convert float infinity to integer")
  | VStr s =>
      match int_of_str s with
      | Some n => Ok n
      | None =>
          Raise (mkExn ValueError
                   (py"invalid literal for int() with base 10: " ++ repr_str s))
      end
  | _ =>
      Raise (mkExn TypeError
               (py"int() argument must be a string, a bytes-like object or a real number, not '"
                ++ type_name v ++ py"'"))
  end.

(** The values a [for] loop draws from [v]. *)
Definition py_iter (v : Value) : result (list Value) :=
  match v with
  | VList l => Ok l
  | VDict d => Ok (map (fun kv => VStr (fst kv)) d)
  | VStr s => Ok (map (fun c => VStr [c]) s)
  | _ => Raise (mkExn TypeError (py"'" ++ type_name v ++ py"' object is not iterable"))
  end.

(** One turn of the normalising loop. *)
Definition normalize_item (i : Z) (it : Value) : result WebSearchItem :=
  match it with
  | VDict d =>
      let q := default VNone (dict_get py"query" d) in
      let r := default VNone (dict_get py"reason" d) in
      p ← py_float (default (VFloat (FNum (1 # 2))) (dict_get py"priority" d));
      k ← py_int (default (VInt i) (dict_get py"rank" d));
      Ok (mkItem q r p k (default VNone (dict_get py"tags" d)))
  | _ => Ok (mkItem (VStr (py_str repr_float it)) VNone (FNum (1 # 2)) i VNone)
  end.

Fixpoint normalize_items (i : Z) (items : list Value) : result (list WebSearchItem) :=
  match items with
  | [] => Ok []
  | it :: rest =>
      x ← normalize_item i it;
      xs ← normalize_items (i + 1) rest;
      Ok (x :: xs)
  end.

(** [_planner_handler] on a string payload; [llm] is the outcome of the
    call of the model. *)
Definition _planner_handler (llm : result str) (payload : str) : result WebSearchPlan :=
  let parsed :=
    match llm with
    | Ok text =>
        match Extractor._extract_json_from_text json_loads text with
        | VStr _ => _simulated_planner payload
        | v => v
        end
    | Raise _ => _simulated_planner payload
    end in
  listed ←
    match parsed with
    | VDict d => Ok (default (VList []) (dict_get py"searches" d))
    | _ => Raise (no_attribute parsed py"get")
    end;
  items ← py_iter listed;
  searches ← normalize_items 1 items;
  Ok (mkPlan searches).

End Handler.

End LlmPlanner.

(** ** [llm_local/search_agent.py]

    The outcome of the call of the model and [json.loads] are parameters,
    as for the planner. The handler stores in a [SearchResultItem] what
    the answer of the model holds, so the fields are values. *)

Module LlmSearch.
Import PyStr Py.

Record SearchResultItem := mkResult {
  query : Value;
  snippet : Value;
  url : Value
}.

(** An element of a list payload: an item of the LLM-backed planner, or
    any other value. *)
Inductive element :=
| EItem (it : LlmPlanner.WebSearchItem)
| EValue (v : Value).

(** The payloads: a list, a plan of the LLM-backed planner, or any other
    value. *)
Inductive payload :=
| PList (l : list element)
| PPlan (p : LlmPlanner.WebSearchPlan)
| PValue (v : Value).

(** [payload if isinstance(payload, list) else
    (payload.searches if hasattr(payload, "searches") else [payload])]. *)
Definition items_of (p : payload) : list element :=
  match p with
  | PList l => l
  | PPlan plan => map EItem (LlmPlanner.searches plan)
  | PValue (VList l) => map EValue l
  | PValue (VPlan plan) => map (fun it => EValue (VItem it)) (Planner.searches plan)
  | PValue v => [EValue v]
  end.

(** [q.replace(' ', '+')]: only a string has the method. *)
Definition replace_spaces (q : Value) : result str :=
  match q with
  | VStr s => Ok (replace_char " " "+" s)
  | _ => Raise (no_attribute q py"replace")
  end.

Section Handler.
Variable json_loads : str -> option Value.
Variable repr_float : PyFloat -> str.

(** [it.query if hasattr(it, "query") else str(it)]. *)
Definition element_query (e : element) : Value :=
  match e with
  | EItem it => LlmPlanner.query it
  | EValue (VItem it) => VStr (Planner.query it)
  | EValue (VResult r) => VStr (result_query r)
  | EValue v => VStr (py_str repr_float v)
  end.

Definition simulated_entry (e : element) : result Value :=
  let q := element_query e in
  let snippet := py"Simulated snippet for " ++ py_str repr_float q in
  plus ← replace_spaces q;
  Ok (VDict [ (py"query", q);
              (py"snippet", VStr snippet);
              (py"url", VStr (py"https://example.com/search?q=" ++ plus)) ]).

Fixpoint simulated_loop (items : list element) : result (list Value) :=
  match items with
  | [] => Ok []
  | it :: rest =>
      x ← simulated_entry it;
      out ← simulated_loop rest;
      Ok (x :: out)
  end.

Definition _simulated_search (p : payload) : result (list Value) :=
  simulated_loop (items_of p).

(** One turn of the loop over [parsed]. The default of
    [it.get("url", ...)] is evaluated whether the key is there or not. *)
Definition result_of (it : Value) : result SearchResultItem :=
  match it with
  | VDict d =>
      let q := default VNone (dict_get py"query" d) in
      let snippet :=
        default (VStr (py"Snippet for " ++ py_str repr_float q)) (dict_get py"snippet" d) in
      plus ← replace_spaces q;
      Ok (mkResult q snippet
            (default (VStr (py"https://example.com/search?q=" ++ plus))
               (dict_get py"url" d)))
  | _ => Raise (no_attribute it py"get")
  end.

Fixpoint results_loop (parsed : list Value) : result (list SearchResultItem) :=
  match parsed with
  | [] => Ok []
  | it :: rest =>
      r ← result_of it;
      results ← results_loop rest;
      Ok (r :: results)
  end.

(** [_search_handler]; [llm] is the outcome of the call of the model.
    Building the prompt reads [query] and [reason] with [getattr] and a
    default, or from the items of a plan, and does not raise. *)
Definition _search_handler (llm : result str) (p : payload)
  : result (list SearchResultItem) :=
  parsed ←
    match llm with
    | Ok text =>
        match Extractor._extract_json_from_text json_loads text with
        | VList l => Ok l
        | _ => _simulated_search p
        end
    | Raise _ => _simulated_search p
    end;
  results_loop parsed.

End Handler.

End LlmSearch.

(** ** [llm_local/writer_agent.py] *)

Module LlmWriter.
Import PyStr Py.

(** An element of the results: a [SearchResultItem] of the LLM-backed
    search, or any other value. *)
Inductive element :=
| EResult (r : LlmSearch.SearchResultItem)
| EValue (v : Value).

(** The payloads: a list; the mapping [{"search_results": results}] that
    the manager builds; any other value. *)
Inductive payload :=
| PList (l : list element)
| PResults (l : list element)
| PValue (v : Value).

(** What [results] is bound to: a list of elements, or a value. *)
Inductive results :=
| RList (l : list element)
| RValue (v : Value).

(** [payload if isinstance(payload, list) else payload.get("search_results", dflt)]. *)
Definition results_of (p : payload) (dflt : results) : result results :=
  match p with
  | PList l => Ok (RList l)
  | PResults l => Ok (RList l)
  | PValue (VList l) => Ok (RList (map EValue l))
  | PValue (VDict d) =>
      Ok (match dict_get py"search_results" d with
          | Some v => RValue v
          | None => dflt
          end)
  | PValue v => Raise (no_attribute v py"get")
  end.

(** The payload itself as the default of [get]; only met for a mapping. *)
Definition as_results (p : payload) : results :=
  match p with
  | PList l | PResults l => RList l
  | PValue v => RValue v
  end.

(** The elements a [for] loop draws from the results, and [len]. *)
Definition iter_results (r : results) : result (list element) :=
  match r with
  | RList l => Ok l
  | RValue v => l ← LlmPlanner.py_iter v; Ok (map EValue l)
  end.

Definition len_results (r : results) : result Z :=
  match r with
  | RList l => Ok (Z.of_nat (length l))
  | RValue v => py_len v
  end.

(** ["\n".join(lines)] for a list of values: every item must be a
    string. *)
Fixpoint join_items (k : nat) (lines : list Value) : result (list str) :=
  match lines with
  | [] => Ok []
  | VStr s :: rest => more ← join_items (S k) rest; Ok (s :: more)
  | v :: _ =>
      Raise (mkExn TypeError
               (py"sequence item " ++ of_nat k ++ py": expected str instance, "
                ++ type_name v ++ py" found"))
  end.

Section Handler.
Variable json_loads : str -> option Value.
Variable repr_float : PyFloat -> str.

(** The three reads [getattr(r, key, r.get(key, dflt))] and the lines of
    one result. The default is evaluated before [getattr] is called, so
    [r] must have a [get] method: only a mapping has one, and a mapping
    has no attribute [query], [snippet] or [url]. *)
Definition result_lines (i : nat) (r : element) : result (list Value) :=
  match r with
  | EValue (VDict d) =>
      let q := default (VStr (py_str repr_float (VDict d))) (dict_get py"query" d) in
      let snippet := default (VStr []) (dict_get py"snippet" d) in
      let url := default (VStr []) (dict_get py"url" d) in
      Ok [ VStr (py"## Result " ++ of_nat i ++ py": " ++ py_str repr_float q);
           snippet;
           VStr (py"[source](" ++ py_str repr_float url ++ py")");
           VStr [] ]
  | EValue v => Raise (no_attribute v py"get")
  | EResult _ =>
      Raise (mkExn AttributeError py"'SearchResultItem' object has no attribute 'get'")
  end.

Fixpoint report_lines (i : nat) (items : list element) : result (list Value) :=
  match items with
  | [] => Ok []
  | r :: rest =>
      ls ← result_lines i r;
      more ← report_lines (S i) rest;
      Ok (ls ++ more)
  end.

Definition _simulated_writer (p : payload) : result Value :=
  results ← results_of p (RList []);
  items ← iter_results results;
  more ← report_lines 1 items;
  parts ← join_items 0 (VStr (py"# Research Report" ++ ["010"%char]) :: more);
  let md := join ["010"%char] parts in
  count ← len_results results;
  Ok (VDict [ (py"title", VStr py"Research Report");
              (py"markdown_report", VStr md);
              (py"metadata", VDict [(py"count", VInt count)]) ]).

(** [_writer_handler]; [llm] is the outcome of the call of the model. The
    prompt is built before the [try]: building it iterates the results,
    reading the fields with [getattr] and a default. *)
Definition _writer_handler (llm : result str) (p : payload) : result Value :=
  results ← results_of p (as_results p);
  _ ← iter_results results;
  parsed ←
    match llm with
    | Ok text =>
        match Extractor._extract_json_from_text json_loads text with
        | VDict d => Ok (VDict d)
        | _ => _simulated_writer p
        end
    | Raise _ => _simulated_writer p
    end;
  match parsed with
  | VDict d =>
      Ok (VReport (default (VStr py"Research Report") (dict_get py"title" d))
            (default (VStr (py_str repr_float parsed)) (dict_get py"markdown_report" d))
            (default (VDict []) (dict_get py"metadata" d)))
  | _ => Raise (no_attribute parsed py"get")
  end.

End Handler.

End LlmWriter.

(** ** [llm_local/email_agent.py] *)

Module LlmEmail.
Import PyStr Py.

(** [bool(v)]. *)
Definition py_truthy (v : Value) : bool :=
  match v with
  | VNone => false
  | VBool b => b
  | VInt n => negb (n =? 0)%Z
  | VFloat (FNum q) => negb (Qeq_bool q 0)
  | VFloat _ => true
  | VStr s => negb (Planner.is_empty s)
  | VList l => match l with [] => false | _ => true end
  | VDict d => match d with [] => false | _ => true end
  | _ => true
  end.

Section Handler.
Variable json_loads : str -> option Value.
Variable repr_float : PyFloat -> str.

(** The markdown both functions read from the payload. *)
Definition markdown_of (payload : Value) : Value :=
  match payload with
  | VReport _ markdown_report _ => markdown_report
  | VDict d => default VNone (dict_get py"markdown_report" d)
  | _ => VStr (py_str repr_float payload)
  end.

Definition _simulated_email (payload : Value) : result Value :=
  _ ← py_slice_to 1000 (markdown_of payload);
  Ok (VStr py"email_sent").

(** [_email_handler]; the prompt, with [md[:2000]], is built before the
    [try]. Any exception inside the [try] leads to [_simulated_email]. *)
Definition _email_handler (llm : result str) (payload : Value) : result Value :=
  _ ← py_slice_to 2000 (markdown_of payload);
  match llm with
  | Ok text =>
      match Extractor._extract_json_from_text json_loads text with
      | VDict d =>
          let status := default VNone (dict_get py"status" d) in
          if py_truthy status then
            match py_slice_to 1000 (default VNone (dict_get py"body" d)) with
            | Ok _ => Ok status
            | Raise _ => _simulated_email payload
            end
          else _simulated_email payload
      | _ => _simulated_email payload
      end
  | Raise _ => _simulated_email payload
  end.

End Handler.

End LlmEmail.

(** ** [llm_local/manager_agent.py]

    [Runner.run] calls the handler that the module of each agent
    registered under the name of the agent when it was imported. The
    planner handler returns a [WebSearchPlan] and the writer handler a
    [ReportData], so the branches of the manager for other shapes are not
    met. The four calls of the model have an outcome each. *)

Module LlmManager.
Import PyStr Py.

Section Handlers.
Variable json_loads : str -> option Value.
Variable repr_float : PyFloat -> str.
Variable float_of_str : str -> option PyFloat.
Variable int_of_str : str -> option Z.
Variables llm_planner llm_search llm_writer llm_email : result str.

(** [payload if isinstance(payload, str) else str(payload.get("query", payload))]. *)
Definition query_of (payload : Value) : result str :=
  match payload with
  | VStr s => Ok s
  | VDict d => Ok (py_str repr_float (default payload (dict_get py"query" d)))
  | _ => Raise (no_attribute payload py"get")
  end.

Definition _manager_handler (payload : Value) : result Value :=
  query ← query_of payload;
  plan ← LlmPlanner._planner_handler json_loads repr_float float_of_str int_of_str
            llm_planner query;
  let searches := LlmPlanner.searches plan in
  search_results ←
    LlmSearch._search_handler json_loads repr_float llm_search
      (LlmSearch.PList (map LlmSearch.EItem searches));
  let writer_payload := LlmWriter.PResults (map LlmWriter.EResult search_results) in
  report ← LlmWriter._writer_handler json_loads repr_float llm_writer writer_payload;
  _ ← LlmEmail._email_handler json_loads repr_float llm_email report;
  Ok report.

End Handlers.

End LlmManager.

(** * Properties *)

Import PyStr Planner PlannerSpec.

(** ** Character tables *)

Ltac ascii_cases c := destruct c as [[] [] [] [] [] [] [] []].

Lemma is_space_lower_char c : is_space (lower_char c) = is_space c.
Proof. ascii_cases c; reflexivity. Qed.

Lemma is_word_lower_char c : is_word (lower_char c) = is_word c.
Proof. ascii_cases c; reflexivity. Qed.

Lemma space_not_word c : is_space c = true -> is_word c = false.
Proof. ascii_cases c; (reflexivity || discriminate). Qed.

Lemma space_not_punct c : is_space c = true -> is_punct c = false.
Proof. ascii_cases c; (reflexivity || discriminate). Qed.

Lemma eqc_eq a b : eqc a b = true <-> a = b.
Proof. apply Ascii.eqb_eq. Qed.

Lemma eqc_refl a : eqc a a = true.
Proof. apply Ascii.eqb_refl. Qed.

Lemma mem_elem_of c chars : mem c chars = true <-> c ∈ chars.
Proof.
  unfold mem. rewrite existsb_exists. split.
  - intros (x & Hin & Heq). apply eqc_eq in Heq. subst. by apply list_elem_of_In.
  - intros Hin. exists c. split; [by apply list_elem_of_In | apply eqc_refl].
Qed.

(** ** Stripping *)

Definition all_of (f : ascii -> bool) (s : str) : Prop := Forall (fun c => f c = true) s.

Lemma lstrip_split f s : exists pre, s = pre ++ lstrip f s /\ all_of f pre.
Proof.
  induction s as [|c s (pre & Heq & Hpre)]; simpl.
  - exists []. split; [done | constructor].
  - destruct (f c) eqn:Hc.
    + exists (c :: pre). split; [by rewrite Heq at 1 | by constructor].
    + exists []. split; [done | constructor].
Qed.

Lemma rstrip_split f s : exists post, s = rstrip f s ++ post /\ all_of f post.
Proof.
  induction s as [|c s (post & Heq & Hpost)]; simpl.
  - exists []. split; [done | constructor].
  - destruct (rstrip f s) as [|r rs] eqn:Hr.
    + destruct (f c) eqn:Hc.
      * exists (c :: post). simpl in Heq. split; [by rewrite Heq at 1 | by constructor].
      * exists post. simpl in *. by rewrite Heq at 1.
    + exists post. split; [|done]. simpl. by rewrite Heq at 1.
Qed.

Lemma strip_with_split f s :
  exists pre post, s = pre ++ strip_with f s ++ post /\ all_of f pre /\ all_of f post.
Proof.
  destruct (lstrip_split f s) as (pre & H1 & Hpre).
  destruct (rstrip_split f (lstrip f s)) as (post & H2 & Hpost).
  exists pre, post. unfold strip_with. by rewrite <- H2.
Qed.

Lemma lstrip_all f s : all_of f s -> lstrip f s = [].
Proof. induction 1 as [|c s Hc _ IH]; simpl; [done | by rewrite Hc]. Qed.

Lemma strip_with_all f s : all_of f s -> strip_with f s = [].
Proof. intros H. unfold strip_with. by rewrite lstrip_all. Qed.

Lemma rstrip_app_keep f s w c :
  f c = false -> rstrip f (s ++ w ++ [c]) = s ++ w ++ [c].
Proof.
  intros Hc. rewrite app_assoc. generalize (s ++ w). clear s w.
  intros s. induction s as [|a s IH]; simpl.
  - by rewrite Hc.
  - rewrite IH. by destruct s.
Qed.

(** ** Splitting on whitespace *)

Lemma split_aux_all_space s : all_of is_space s -> split_aux s = ([], []).
Proof. induction 1 as [|c s Hc _ IH]; simpl; [done | by rewrite IH, Hc]. Qed.

Lemma split_aux_app_space s post :
  all_of is_space post -> split_aux (s ++ post) = split_aux s.
Proof.
  intros Hpost. induction s as [|c s IH]; simpl.
  - by apply split_aux_all_space.
  - by rewrite IH.
Qed.

Lemma split_ws_cons_space c s : is_space c = true -> split_ws (c :: s) = split_ws s.
Proof.
  intros Hc. unfold split_ws. simpl. destruct (split_aux s) as [cur ws]. by rewrite Hc.
Qed.

Lemma split_ws_padded pre s post :
  all_of is_space pre -> all_of is_space post -> split_ws (pre ++ s ++ post) = split_ws s.
Proof.
  intros Hpre Hpost. induction Hpre as [|c pre Hc _ IH]; simpl.
  - unfold split_ws. by rewrite split_aux_app_space.
  - by rewrite split_ws_cons_space.
Qed.

Lemma split_ws_strip s : split_ws (strip s) = split_ws s.
Proof.
  destruct (strip_with_split is_space s) as (pre & post & Heq & Hpre & Hpost).
  rewrite Heq at 2. by rewrite split_ws_padded.
Qed.

Lemma split_ws_all_space s : all_of is_space s -> split_ws s = [].
Proof. intros H. unfold split_ws. by rewrite split_aux_all_space. Qed.

(** ** The search count *)

Lemma lower_app s t : lower (s ++ t) = lower s ++ lower t.
Proof. apply map_app. Qed.

Lemma lower_all_space s : all_of is_space s -> all_of is_space (lower s).
Proof.
  intros H. apply Forall_map. eapply Forall_impl; [exact H|].
  intros c Hc. simpl. by rewrite is_space_lower_char.
Qed.

Lemma punctuation_count_padded pre s post :
  all_of is_space pre -> all_of is_space post ->
  punctuation_count (pre ++ s ++ post) = punctuation_count s.
Proof.
  intros Hpre Hpost. unfold punctuation_count.
  assert (Hnil : forall t, all_of is_space t -> filter (fun c => is_punct c = true) t = []).
  { intros t Ht. induction Ht as [|c t Hc _ IH]; [done|].
    rewrite filter_cons_False; [done|]. by rewrite space_not_punct. }
  by rewrite !filter_app, (Hnil pre), (Hnil post), app_nil_r.
Qed.

Lemma count_char_padded a pre s post :
  is_space a = false -> all_of is_space pre -> all_of is_space post ->
  count_char a (pre ++ s ++ post) = count_char a s.
Proof.
  intros Ha Hpre Hpost. unfold count_char.
  assert (Hnil : forall t, all_of is_space t -> filter (fun x => eqc a x = true) t = []).
  { intros t Ht. induction Ht as [|c t Hc _ IH]; [done|].
    rewrite filter_cons_False; [done|]. intros Heq. apply eqc_eq in Heq. congruence. }
  by rewrite !filter_app, (Hnil pre), (Hnil post), app_nil_r.
Qed.

Lemma positive_filter_existsb (f : ascii -> bool) s :
  (1 <=? length (filter (fun c => f c = true) s)) = existsb f s.
Proof.
  induction s as [|c s IH]; [done|]. simpl. destruct (f c) eqn:Hc.
  - by rewrite filter_cons_True.
  - by rewrite filter_cons_False; [|congruence].
Qed.

(** A pattern free of whitespace is matched neither across leading nor
    across trailing whitespace. *)
Definition space_free (w : str) : Prop := Forall (fun c => is_space c = false) w.

Lemma starts_with_app_space w s post :
  space_free w -> all_of is_space post -> starts_with w (s ++ post) = starts_with w s.
Proof.
  intros Hw Hpost. revert s. induction Hw as [|a w Ha _ IH]; intros s; [by destruct s|].
  destruct s as [|b s]; simpl.
  - destruct Hpost as [|p post Hp _]; [done|]. simpl.
    destruct (eqc a p) eqn:Heq; [|done]. apply eqc_eq in Heq. congruence.
  - by rewrite IH.
Qed.

Lemma starts_with_cons_space a w c s :
  is_space a = false -> is_space c = true -> starts_with (a :: w) (c :: s) = false.
Proof.
  intros Ha Hc. simpl. destruct (eqc a c) eqn:Heq; [|done]. apply eqc_eq in Heq. congruence.
Qed.

Lemma contains_padded a w pre s post :
  space_free (a :: w) -> all_of is_space pre -> all_of is_space post ->
  contains (a :: w) (pre ++ s ++ post) = contains (a :: w) s.
Proof.
  intros Hw Hpre Hpost. induction Hpre as [|c pre Hc _ IH].
  - simpl. induction s as [|b s IH].
    + simpl. induction Hpost as [|p post Hp _ IH]; [done|].
      change (contains (a :: w) (p :: post))
        with (starts_with (a :: w) (p :: post) || contains (a :: w) post).
      rewrite starts_with_cons_space; [exact IH | by inversion Hw | done].
    + change (contains (a :: w) ((b :: s) ++ post))
        with (starts_with (a :: w) ((b :: s) ++ post) || contains (a :: w) (s ++ post)).
      rewrite starts_with_app_space by done. by rewrite IH.
  - change (contains (a :: w) ((c :: pre) ++ s ++ post))
      with (starts_with (a :: w) (c :: pre ++ s ++ post) || contains (a :: w) (pre ++ s ++ post)).
    rewrite starts_with_cons_space; [exact IH | by inversion Hw | done].
Qed.

Lemma next_is_word_app_space s post :
  all_of is_space post -> next_is_word (s ++ post) = next_is_word s.
Proof.
  intros Hpost. destruct s as [|c s]; [|done]. simpl.
  destruct Hpost as [|p post Hp _]; [done|]. simpl. by apply space_not_word.
Qed.

Lemma space_free_and : space_free py"and".
Proof. repeat constructor. Qed.

Lemma starts_with_and_space c s :
  is_space c = true -> starts_with py"and" (c :: s) = false.
Proof. intros Hc. by apply (starts_with_cons_space "a"%char py"nd" c s). Qed.

Lemma count_and_cons b c s :
  count_and b (c :: s)
  = (if negb b && starts_with py"and" (c :: s) && negb (next_is_word (drop 3 (c :: s)))
     then 1 else 0) + count_and (is_word c) s.
Proof. reflexivity. Qed.

Lemma count_and_all_space b s : all_of is_space s -> count_and b s = 0.
Proof.
  intros Hs. revert b. induction Hs as [|c s Hc _ IH]; intros b; [done|].
  rewrite count_and_cons, IH, starts_with_and_space by done.
  by rewrite andb_false_r.
Qed.

Lemma starts_with_length w s : starts_with w s = true -> length w <= length s.
Proof.
  revert s. induction w as [|a w IH]; intros s H; simpl; [lia|].
  destruct s as [|b s]; [done|]. simpl in *. apply andb_prop in H as [_ H].
  apply IH in H. lia.
Qed.

Lemma count_and_app_space b s post :
  all_of is_space post -> count_and b (s ++ post) = count_and b s.
Proof.
  intros Hpost. revert b. induction s as [|c s IH]; intros b.
  - simpl. by apply count_and_all_space.
  - rewrite <- app_comm_cons, !count_and_cons, IH. f_equal.
    rewrite app_comm_cons.
    rewrite (starts_with_app_space _ (c :: s) post space_free_and Hpost).
    destruct (starts_with py"and" (c :: s)) eqn:Hsw; [|by rewrite !andb_false_r].
    apply starts_with_length in Hsw. simpl in Hsw.
    rewrite drop_app_le by (simpl; lia).
    by rewrite next_is_word_app_space.
Qed.

Lemma count_and_padded pre s post :
  all_of is_space pre -> all_of is_space post ->
  count_and false (pre ++ s ++ post) = count_and false s.
Proof.
  intros Hpre Hpost. induction Hpre as [|c pre Hc _ IH].
  - simpl. by apply count_and_app_space.
  - rewrite <- app_comm_cons, count_and_cons, starts_with_and_space by done.
    rewrite (space_not_word c Hc). simpl. exact IH.
Qed.

Lemma existsb_agree {A} (f g : A -> bool) l :
  Forall (fun x => f x = g x) l -> existsb f l = existsb g l.
Proof. induction 1 as [|x l Hx _ IH]; simpl; [done | by rewrite Hx, IH]. Qed.

Definition pattern_ok (w : str) : Prop := w <> [] /\ space_free w.

Lemma question_words_ok : Forall pattern_ok QUESTION_WORDS.
Proof. repeat constructor; discriminate. Qed.

Lemma spec_question_words_ok : Forall pattern_ok SPEC_QUESTION_WORDS.
Proof. repeat constructor; discriminate. Qed.

Lemma contains_lower_padded w pre s post :
  pattern_ok w -> all_of is_space pre -> all_of is_space post ->
  contains w (lower (pre ++ s ++ post)) = contains w (lower s).
Proof.
  intros [Hne Hw] Hpre Hpost. destruct w as [|a w]; [done|].
  rewrite !lower_app. apply contains_padded; auto using lower_all_space.
Qed.

Lemma has_question_word_padded words pre s post :
  Forall pattern_ok words -> all_of is_space pre -> all_of is_space post ->
  has_question_word words (pre ++ s ++ post) = has_question_word words s.
Proof.
  intros Hwords Hpre Hpost. unfold has_question_word. apply existsb_agree.
  eapply Forall_impl; [exact Hwords|]. intros w Hw. simpl.
  by apply contains_lower_padded.
Qed.

Lemma mem_count_char c s : mem c s = (1 <=? count_char c s).
Proof. unfold mem, count_char. by rewrite positive_filter_existsb. Qed.

Lemma has_list_marker_padded pre s post :
  all_of is_space pre -> all_of is_space post ->
  has_list_marker (pre ++ s ++ post) = has_list_marker s.
Proof.
  intros Hpre Hpost. unfold has_list_marker, has_word_and.
  rewrite !mem_count_char, !count_char_padded by done.
  rewrite !lower_app, count_and_padded by auto using lower_all_space. done.
Qed.

Lemma signal_count_padded words pre s post :
  Forall pattern_ok words -> all_of is_space pre -> all_of is_space post ->
  signal_count words (pre ++ s ++ post) = signal_count words s.
Proof.
  intros Hwords Hpre Hpost. unfold signal_count, long_query, has_delimiter.
  rewrite split_ws_padded, has_question_word_padded, has_list_marker_padded by done.
  rewrite <- !(positive_filter_existsb is_punct).
  fold (punctuation_count (pre ++ s ++ post)). fold (punctuation_count s).
  by rewrite punctuation_count_padded.
Qed.

Lemma signal_count_strip words q :
  Forall pattern_ok words -> signal_count words (strip q) = signal_count words q.
Proof.
  intros Hwords.
  destruct (strip_with_split is_space q) as (pre & post & Heq & Hpre & Hpost).
  rewrite Heq at 2. by rewrite signal_count_padded.
Qed.

Lemma contains_nil_pattern w : w <> [] -> contains w [] = false.
Proof. by destruct w. Qed.

Lemma signal_count_nil words : Forall pattern_ok words -> signal_count words [] = 1%Z.
Proof.
  intros Hwords.
  assert (Hq : has_question_word words [] = false).
  { unfold has_question_word. apply not_true_is_false. rewrite existsb_exists.
    intros (w & Hin & Hc). rewrite Forall_forall in Hwords.
    apply list_elem_of_In in Hin.
    destruct (Hwords w Hin) as [Hne _]. change (lower []) with (@nil ascii) in Hc.
    by rewrite contains_nil_pattern in Hc. }
  unfold signal_count. by rewrite Hq.
Qed.

(** On a query that is not blank the code computes the four signals on the
    stripped query, by counting. *)
Lemma determine_search_count_stripped q lo hi :
  strip q <> [] ->
  determine_search_count q lo hi
  = Z.max lo (Z.min hi
      (1 + Z.b2z (long_query (strip q)) + Z.b2z (has_delimiter (strip q))
         + Z.b2z (has_question_word QUESTION_WORDS (strip q))
         + Z.b2z (has_list_marker (strip q)))).
Proof.
  intros Hne. unfold determine_search_count.
  assert (Hq : q <> []) by (intros ->; by apply Hne).
  rewrite !bool_decide_eq_false_2 by done. simpl orb. cbv zeta.
  unfold long_query, has_delimiter, has_question_word, has_list_marker, has_word_and.
  rewrite !mem_count_char. rewrite <- (positive_filter_existsb is_punct).
  fold (punctuation_count (strip q)).
  replace (1 <=? count_char "," (strip q) + count_char "/" (strip q)
                + count_and false (lower (strip q)))
    with ((1 <=? count_char "," (strip q)) || (1 <=? count_char "/" (strip q))
          || (1 <=? count_and false (lower (strip q)))).
  2:{ destruct (count_char "," (strip q)), (count_char "/" (strip q)),
        (count_and false (lower (strip q))); reflexivity. }
  destruct (8 <=? length (split_ws (strip q))), (1 <=? punctuation_count (strip q)),
    (existsb (fun w => contains w (lower (strip q))) QUESTION_WORDS),
    ((1 <=? count_char "," (strip q)) || (1 <=? count_char "/" (strip q))
     || (1 <=? count_and false (lower (strip q)))); reflexivity.
Qed.

(** *** What the scans decide *)

Lemma starts_with_prefix w s : starts_with w s = true <-> exists post, s = w ++ post.
Proof.
  revert s. induction w as [|a w IH]; intros s; simpl.
  - split; [intros _; by exists s | done].
  - destruct s as [|b s].
    + split; [done | intros (post & Heq); discriminate].
    + rewrite andb_true_iff, eqc_eq, IH. split.
      * intros (-> & post & ->). by exists post.
      * intros (post & Heq). injection Heq as -> ->. split; [done | by exists post].
Qed.

Lemma contains_occurs_in w s : contains w s = true <-> occurs_in w s.
Proof.
  unfold occurs_in. induction s as [|c s IH].
  - simpl. rewrite orb_false_r, starts_with_prefix. split.
    + intros (post & Heq). by exists [], post.
    + intros (pre & post & Heq). destruct pre; [by exists post | discriminate].
  - change (contains w (c :: s)) with (starts_with w (c :: s) || contains w s).
    rewrite orb_true_iff, starts_with_prefix, IH. split.
    + intros [(post & Heq) | (pre & post & Heq)].
      * by exists [], post.
      * exists (c :: pre), post. by rewrite Heq.
    + intros (pre & post & Heq). destruct pre as [|p pre].
      * left. by exists post.
      * right. injection Heq as -> ->. by exists pre, post.
Qed.

Lemma has_delimiter_spec q :
  has_delimiter q = true <-> exists c, c ∈ q /\ c ∈ py"?,;:-".
Proof.
  unfold has_delimiter, is_punct. rewrite existsb_exists. split.
  - intros (c & Hin & Hc). exists c. split; [by apply list_elem_of_In | by apply mem_elem_of].
  - intros (c & Hin & Hc). exists c. split; [by apply list_elem_of_In | by apply mem_elem_of].
Qed.

Lemma has_question_word_spec words q :
  has_question_word words q = true <-> exists w, w ∈ words /\ occurs_in w (lower q).
Proof.
  unfold has_question_word. rewrite existsb_exists. split.
  - intros (w & Hin & Hc). exists w. split; [by apply list_elem_of_In | by apply contains_occurs_in].
  - intros (w & Hin & Hc). exists w. split; [by apply list_elem_of_In | by apply contains_occurs_in].
Qed.

Definition prev_flag (b : bool) (pre : str) : bool :=
  match last pre with
  | Some c => is_word c
  | None => b
  end.

Lemma prev_flag_cons b c pre : prev_flag b (c :: pre) = prev_flag (is_word c) pre.
Proof.
  unfold prev_flag. destruct pre as [|d pre]; [done|].
  change (last (c :: d :: pre)) with (last (d :: pre)).
  by destruct (last (d :: pre)) eqn:Hl; [|apply last_None in Hl].
Qed.

Lemma count_and_occurs b s :
  1 <= count_and b s <->
  exists pre post,
    s = pre ++ py"and" ++ post /\ prev_flag b pre = false /\ next_is_word post = false.
Proof.
  revert b. induction s as [|c s IH]; intros b.
  - simpl. split; [lia|]. intros (pre & post & Heq & _). by destruct pre.
  - rewrite count_and_cons. split.
    + destruct (negb b && starts_with py"and" (c :: s)
                && negb (next_is_word (drop 3 (c :: s)))) eqn:Hcond.
      * intros _. apply andb_prop in Hcond as [Hcond Hnext].
        apply andb_prop in Hcond as [Hb Hsw].
        apply starts_with_prefix in Hsw as (post & Heq).
        exists [], post. rewrite Heq in Hnext |- *. simpl in Hnext.
        rewrite drop_0 in Hnext.
        repeat split; [by destruct b | by destruct (next_is_word post)].
      * intros Hc. simpl in Hc. apply IH in Hc as (pre & post & Heq & Hpre & Hpost).
        exists (c :: pre), post. rewrite prev_flag_cons. by rewrite Heq.
    + intros (pre & post & Heq & Hpre & Hpost). destruct pre as [|p pre].
      * change (prev_flag b []) with b in Hpre. subst b. rewrite Heq.
        assert (Hsw : starts_with py"and" (py"and" ++ post) = true)
          by (apply starts_with_prefix; by exists post).
        rewrite app_nil_l, Hsw.
        change (drop 3 (py"and" ++ post)) with post. rewrite Hpost. simpl. lia.
      * simpl in Heq. injection Heq as Hc Hs. subst p.
        rewrite prev_flag_cons in Hpre.
        assert (1 <= count_and (is_word c) s); [|lia].
        apply IH. by exists pre, post.
Qed.

Lemma has_word_and_spec q :
  has_word_and q = true <-> occurs_as_word py"and" (lower q).
Proof.
  unfold has_word_and, occurs_as_word. rewrite Nat.leb_le, count_and_occurs. done.
Qed.

Lemma has_list_marker_spec q :
  has_list_marker q = true <->
  ","%char ∈ q \/ "/"%char ∈ q \/ occurs_as_word py"and" (lower q).
Proof.
  unfold has_list_marker.
  rewrite !orb_true_iff, !mem_elem_of, has_word_and_spec. tauto.
Qed.

(** *** The claims about [determine_search_count] *)

Example count_topic :
  determine_search_count py"performance testing for microservices and load balancing" 1 6 = 2%Z.
Proof. vm_compute. reflexivity. Qed.

Example count_question : determine_search_count py"How does X work, and why?" 1 6 = 4%Z.
Proof. vm_compute. reflexivity. Qed.

(** C4, as stated, fails: with the question words the specification lists,
    the query "could" shows no signal and the rule gives 1, but the code
    also knows "whom" and "could" and returns 2. *)
Lemma search_count_listed_words_fail :
  determine_search_count py"could" MIN_SEARCHES MAX_SEARCHES = 2%Z
  /\ signal_count SPEC_QUESTION_WORDS py"could" = 1%Z.
Proof. split; vm_compute; reflexivity. Qed.

(** C4, amended: for every query, [determine_search_count] is one plus the
    number of signals present on the raw query, clamped to [[1,6]], where the
    signals are: at least eight words; a delimiter among [? , ; : -]; an
    occurrence, anywhere in the lower-cased query, of one of the fifteen
    question words of the code (the listed ones and "whom", "could"); a
    comma, a slash or the word "and". *)
Theorem determine_search_count_signals q :
  determine_search_count q MIN_SEARCHES MAX_SEARCHES = signal_count QUESTION_WORDS q.
Proof.
  destruct (decide (strip q = [])) as [Hblank | Hne].
  - rewrite <- (signal_count_strip _ q question_words_ok), Hblank.
    rewrite signal_count_nil by apply question_words_ok.
    unfold determine_search_count.
    by rewrite (bool_decide_eq_true_2 _ Hblank), orb_true_r.
  - rewrite determine_search_count_stripped by done.
    rewrite <- (signal_count_strip _ q question_words_ok). reflexivity.
Qed.

(** ** Sorting by descending priority *)

Definition key_le (a b : WebSearchItem) : Prop := (sort_key a <= sort_key b)%Q.

Lemma key_lt_false y x : key_lt y x = false <-> key_le x y.
Proof.
  unfold key_lt, key_le. rewrite negb_false_iff. apply Qle_bool_iff.
Qed.

Lemma key_lt_true y x : key_lt y x = true -> key_le y x.
Proof.
  unfold key_lt, key_le. rewrite negb_true_iff. intros H.
  apply Qlt_le_weak, Qnot_le_lt. intros Hle. apply Qle_bool_iff in Hle. congruence.
Qed.

Lemma key_le_trans a b c : key_le a b -> key_le b c -> key_le a c.
Proof. unfold key_le. apply Qle_trans. Qed.

Lemma insert_sorted_perm x l : insert_sorted x l ≡ₚ x :: l.
Proof.
  induction l as [|y l IH]; simpl; [done|].
  destruct (key_lt y x); [|done]. rewrite IH. apply Permutation_swap.
Qed.

Lemma sort_by_key_perm l : sort_by_key l ≡ₚ l.
Proof.
  induction l as [|x l IH]; simpl; [done|]. by rewrite insert_sorted_perm, IH.
Qed.

Lemma insert_sorted_sorted x l :
  StronglySorted key_le l -> StronglySorted key_le (insert_sorted x l).
Proof.
  induction 1 as [|y l Hl IH Hy]; simpl.
  - repeat constructor.
  - destruct (key_lt y x) eqn:Hlt.
    + constructor; [done|]. rewrite insert_sorted_perm.
      constructor; [by apply key_lt_true | done].
    + apply key_lt_false in Hlt. constructor; [by constructor|].
      constructor; [done|]. eapply Forall_impl; [exact Hy|].
      intros z Hz. by eapply key_le_trans.
Qed.

Lemma sort_by_key_sorted l : StronglySorted key_le (sort_by_key l).
Proof.
  induction l as [|x l IH]; simpl; [constructor | by apply insert_sorted_sorted].
Qed.

Lemma strongly_sorted_take {A} (R : relation A) n l :
  StronglySorted R l -> StronglySorted R (take n l).
Proof.
  intros H. revert n. induction H as [|x l Hl IH Hx]; intros [|n]; simpl; try constructor.
  - apply IH.
  - by apply Forall_take.
Qed.

Lemma strongly_sorted_lookup {A} (R : relation A) l i j a b :
  StronglySorted R l -> l !! i = Some a -> l !! j = Some b -> i < j -> R a b.
Proof.
  intros H. revert i j. induction H as [|x l Hl IH Hx]; intros i j Hi Hj Hlt; [done|].
  destruct j as [|j]; [lia|]. destruct i as [|i]; simpl in *.
  - injection Hi as ->. rewrite Forall_forall in Hx. apply Hx.
    by eapply list_elem_of_lookup_2.
  - eapply IH; eauto. lia.
Qed.

(** Stability: an item never passes an item of the same priority. *)
Lemma same_priority_not_lt p x y :
  same_priority p x = true -> same_priority p y = true -> key_lt y x = false.
Proof.
  unfold same_priority. intros Hx Hy. apply Qeq_bool_eq in Hx, Hy.
  apply key_lt_false. unfold key_le, sort_key. rewrite Hx, Hy. apply Qle_refl.
Qed.

Lemma filter_insert_sorted p x l :
  filter (fun z => same_priority p z = true) (insert_sorted x l)
  = filter (fun z => same_priority p z = true) (x :: l).
Proof.
  induction l as [|y l IH]; simpl; [done|].
  destruct (key_lt y x) eqn:Hlt; [|done].
  rewrite (filter_cons _ y), IH, !(filter_cons _ x), !(filter_cons _ y).
  destruct (decide (same_priority p x = true)) as [Hx|Hx],
    (decide (same_priority p y = true)) as [Hy|Hy]; try done.
  rewrite (same_priority_not_lt p x y Hx Hy) in Hlt. discriminate.
Qed.

Lemma filter_sort_by_key p l :
  filter (fun z => same_priority p z = true) (sort_by_key l)
  = filter (fun z => same_priority p z = true) l.
Proof.
  induction l as [|x l IH]; simpl; [done|].
  by rewrite filter_insert_sorted, !filter_cons, IH.
Qed.

Lemma sort_by_key_same_priority p l :
  Forall (fun x => same_priority p x = true) l -> sort_by_key l = l.
Proof.
  induction 1 as [|x l Hx Hl IH]; simpl; [done|]. rewrite IH.
  destruct Hl as [|y l Hy _]; simpl; [done|].
  by rewrite (same_priority_not_lt p x y).
Qed.

(** ** Slicing *)

Lemma slice_to_take {A} (l : list A) n : exists k, slice_to l n = take k l.
Proof. unfold slice_to. destruct (0 <=? n)%Z; eauto. Qed.

Lemma slice_to_length {A} (l : list A) n :
  (0 <= n)%Z -> length (slice_to l n) = Nat.min (Z.to_nat n) (length l).
Proof.
  intros Hn. unfold slice_to. apply Z.leb_le in Hn. rewrite Hn. apply length_take.
Qed.

(** ** The refinement loop *)

Lemma refine_loop_cons seen it rest :
  refine_loop seen (it :: rest)
  = let q_norm := normalize_query (query it) in
    if length q_norm <? 3 then refine_loop seen rest
    else if bool_decide (lower q_norm ∈ seen) then refine_loop seen rest
    else mkItem q_norm (reason it) (round3 (priority it)) None None
           :: refine_loop ({[ lower q_norm ]} ∪ seen) rest.
Proof. reflexivity. Qed.

Lemma refine_loop_keys seen items :
  NoDup (map (fun x => lower (query x)) (refine_loop seen items))
  /\ Forall (fun x => lower (query x) ∉ seen) (refine_loop seen items).
Proof.
  revert seen. induction items as [|it rest IH]; intros seen.
  - simpl. split; constructor.
  - rewrite refine_loop_cons. cbv zeta.
    destruct (length (normalize_query (query it)) <? 3); [apply IH|].
    case_bool_decide as Hseen; [apply IH|].
    destruct (IH ({[ lower (normalize_query (query it)) ]} ∪ seen)) as [Hnd Hall].
    split.
    + simpl. constructor; [|done]. rewrite list_elem_of_In, in_map_iff.
      intros (x & Hx & Hin).
      rewrite Forall_forall in Hall. apply list_elem_of_In, Hall in Hin.
      apply Hin. rewrite Hx. apply elem_of_union_l. by apply elem_of_singleton.
    + constructor; [done|]. eapply Forall_impl; [exact Hall|].
      intros x Hx Hin. apply Hx. by apply elem_of_union_r.
Qed.

Lemma refine_loop_normal seen items :
  Forall (fun x => exists s, query x = normalize_query s /\ rank x = None)
    (refine_loop seen items).
Proof.
  revert seen. induction items as [|it rest IH]; intros seen; [constructor|].
  rewrite refine_loop_cons. cbv zeta.
  destruct (length (normalize_query (query it)) <? 3); [apply IH|].
  case_bool_decide; [apply IH|]. constructor; [|apply IH]. by exists (query it).
Qed.

Lemma refine_loop_priority seen items p :
  Forall (fun x => priority x = p) items ->
  Forall (fun x => priority x = round3 p) (refine_loop seen items).
Proof.
  intros H. revert seen. induction H as [|it rest Hit _ IH]; intros seen; [constructor|].
  rewrite refine_loop_cons. cbv zeta.
  destruct (length (normalize_query (query it)) <? 3); [apply IH|].
  case_bool_decide; [apply IH|]. constructor; [|apply IH]. simpl. by rewrite Hit.
Qed.

Lemma refine_loop_first it rest :
  3 <= length (normalize_query (query it)) -> refine_loop ∅ (it :: rest) <> [].
Proof.
  intros Hlen. rewrite refine_loop_cons. cbv zeta.
  apply Nat.ltb_ge in Hlen. rewrite Hlen.
  rewrite bool_decide_eq_false_2 by set_solver. discriminate.
Qed.

(** ** Normalised query text *)

Lemma lstrip_keeps_suffix f s a w :
  f a = false -> exists x, lstrip f (s ++ a :: w) = x ++ a :: w.
Proof.
  intros Ha. induction s as [|c s [x IH]]; simpl.
  - rewrite Ha. by exists [].
  - destruct (f c); [by exists x | by exists (c :: s)].
Qed.

Lemma strip_with_keeps_suffix f s a w c :
  f a = false -> f c = false ->
  exists x, strip_with f (s ++ a :: w ++ [c]) = x ++ a :: w ++ [c].
Proof.
  intros Ha Hc. unfold strip_with.
  destruct (lstrip_keeps_suffix f s a (w ++ [c]) Ha) as [x ->].
  exists x. apply (rstrip_app_keep f x (a :: w) c Hc).
Qed.

Lemma collapse_aux_space_free b w : space_free w -> collapse_aux b w = w.
Proof.
  intros H. revert b. induction H as [|c w Hc _ IH]; intros b; simpl; [done|].
  by rewrite Hc, IH.
Qed.

Lemma collapse_aux_keeps_suffix b s w :
  space_free w -> collapse_aux b (s ++ w) = collapse_aux b s ++ w.
Proof.
  intros Hw. revert b. induction s as [|c s IH]; intros b; simpl.
  - by apply collapse_aux_space_free.
  - destruct (is_space c), b; by rewrite IH.
Qed.

(** A query that ends in a word of letters keeps that word when it is
    normalised, whatever stands before it. *)
Lemma normalize_query_keeps_suffix s a w c :
  space_free (a :: w ++ [c]) ->
  mem a py" .;,:" = false -> mem c py" .;,:" = false ->
  exists x, normalize_query (s ++ a :: w ++ [c]) = x ++ a :: w ++ [c].
Proof.
  intros Hw Ha Hc. unfold normalize_query, strip, collapse_ws, strip_chars.
  assert (Has : is_space a = false) by (by inversion Hw).
  assert (Hcs : is_space c = false).
  { rewrite app_comm_cons in Hw. apply Forall_app in Hw as [_ Hw]. by inversion Hw. }
  destruct (strip_with_keeps_suffix is_space s a w c Has Hcs) as [x ->].
  rewrite (collapse_aux_keeps_suffix false x (a :: w ++ [c]) Hw).
  apply strip_with_keeps_suffix; done.
Qed.

Lemma normalize_overview p : 3 <= length (normalize_query (p ++ py" overview")).
Proof.
  destruct (normalize_query_keeps_suffix (p ++ py" ") "o"%char py"vervie" "w"%char)
    as [x Hx]; [repeat constructor | done | done |].
  change (p ++ py" overview") with (p ++ py" " ++ py"overview").
  rewrite app_assoc.
  change (py"overview") with ("o"%char :: py"vervie" ++ ["w"%char]).
  rewrite Hx, length_app. simpl. lia.
Qed.

(** Normalising is idempotent: a normalised text has single spaces as its
    only whitespace and no character of [" .;,:"] at either end. *)
Fixpoint tidy (prev_space : bool) (s : str) : bool :=
  match s with
  | [] => true
  | c :: s' =>
      if is_space c then eqc c " "%char && negb prev_space && tidy true s'
      else tidy false s'
  end.

Lemma tidy_collapse_aux b s : tidy b (collapse_aux b s) = true.
Proof.
  revert b. induction s as [|c s IH]; intros b; simpl; [done|].
  destruct (is_space c) eqn:Hc.
  - destruct b; [apply IH|]. simpl. apply IH.
  - simpl. rewrite Hc. apply IH.
Qed.

Lemma tidy_weaken b s : tidy b s = true -> tidy false s = true.
Proof.
  destruct s as [|c s]; simpl; [done|]. destruct (is_space c); [|done].
  rewrite !andb_true_iff. intros [[-> _] ->]. done.
Qed.

Lemma tidy_drop b pre s : tidy b (pre ++ s) = true -> tidy false s = true.
Proof.
  revert b. induction pre as [|c pre IH]; intros b; simpl.
  - apply tidy_weaken.
  - destruct (is_space c); [|apply IH].
    rewrite !andb_true_iff. intros [_ H]. by eapply IH.
Qed.

Lemma tidy_take b s post : tidy b (s ++ post) = true -> tidy b s = true.
Proof.
  revert b. induction s as [|c s IH]; intros b; simpl; [done|].
  destruct (is_space c); [|apply IH].
  rewrite !andb_true_iff. intros [H1 H2]. split; [done | by eapply IH].
Qed.

Lemma tidy_space b s c : tidy b s = true -> c ∈ s -> is_space c = true -> c = " "%char.
Proof.
  revert b. induction s as [|d s IH]; intros b Ht Hin Hc; [by apply elem_of_nil in Hin|].
  simpl in Ht. apply elem_of_cons in Hin as [-> | Hin].
  - rewrite Hc in Ht. apply andb_prop in Ht as [Ht _]. apply andb_prop in Ht as [Ht _].
    by apply eqc_eq in Ht.
  - destruct (is_space d); [|by eapply IH].
    apply andb_prop in Ht as [_ Ht]. by eapply IH.
Qed.

Lemma collapse_aux_tidy b s : tidy b s = true -> collapse_aux b s = s.
Proof.
  revert b. induction s as [|c s IH]; intros b; simpl; [done|].
  destruct (is_space c).
  - rewrite !andb_true_iff. intros [[Hc Hb] Ht]. apply eqc_eq in Hc. subst c.
    destruct b; [done|]. by rewrite IH.
  - intros Ht. by rewrite IH.
Qed.

(** The two ends of a string are outside the class [f]. *)
Definition ends_outside (f : ascii -> bool) (s : str) : Prop :=
  (forall c, head s = Some c -> f c = false) /\ (forall c, last s = Some c -> f c = false).

Lemma lstrip_head f s c : head (lstrip f s) = Some c -> f c = false.
Proof.
  induction s as [|d s IH]; simpl; [done|]. destruct (f d) eqn:Hd; [done|].
  simpl. by intros [= <-].
Qed.

Lemma rstrip_head f s c : head (rstrip f s) = Some c -> head s = Some c.
Proof.
  destruct s as [|d s]; simpl; [done|].
  destruct (rstrip f s); [by destruct (f d) | done].
Qed.

Lemma rstrip_last f s c : last (rstrip f s) = Some c -> f c = false.
Proof.
  induction s as [|d s IH]; simpl; [done|].
  destruct (rstrip f s) as [|r rs] eqn:Hr.
  - destruct (f d) eqn:Hd; [done|]. simpl. by intros [= <-].
  - rewrite last_cons_cons. exact IH.
Qed.

Lemma strip_with_ends f s : ends_outside f (strip_with f s).
Proof.
  unfold strip_with. split; intros c Hc.
  - apply rstrip_head in Hc. by eapply lstrip_head.
  - by eapply rstrip_last.
Qed.

Lemma lstrip_fixed f s : (forall c, head s = Some c -> f c = false) -> lstrip f s = s.
Proof. destruct s as [|c s]; simpl; [done|]. intros H. by rewrite (H c). Qed.

Lemma rstrip_fixed f s : (forall c, last s = Some c -> f c = false) -> rstrip f s = s.
Proof.
  induction s as [|c s IH]; simpl; [done|]. intros H.
  destruct s as [|d s].
  - simpl. by rewrite (H c).
  - rewrite IH; [done|]. intros e He. apply H. by rewrite last_cons_cons.
Qed.

Lemma strip_with_fixed f s : ends_outside f s -> strip_with f s = s.
Proof.
  intros [Hh Hl]. unfold strip_with. rewrite (lstrip_fixed f s Hh). by apply rstrip_fixed.
Qed.

Lemma normalize_query_idem s : normalize_query (normalize_query s) = normalize_query s.
Proof.
  set (z := normalize_query s).
  assert (Hends : ends_outside (fun c => mem c py" .;,:") z) by apply strip_with_ends.
  assert (Htidy : tidy false z = true).
  { subst z. unfold normalize_query, strip_chars.
    destruct (strip_with_split (fun c => mem c py" .;,:") (collapse_ws (strip s)))
      as (pre & post & Heq & _ & _).
    pose proof (tidy_collapse_aux false (strip s)) as Ht.
    fold (collapse_ws (strip s)) in Ht. rewrite Heq in Ht.
    apply tidy_drop in Ht. by apply tidy_take in Ht. }
  assert (Hsp : ends_outside is_space z).
  { destruct Hends as [Hh Hl]. split; intros c Hc.
    - destruct (is_space c) eqn:Hs; [|done].
      assert (c = " "%char) as ->; [|by apply Hh in Hc].
      eapply tidy_space; [exact Htidy | by apply head_Some_elem_of | done].
    - destruct (is_space c) eqn:Hs; [|done].
      assert (c = " "%char) as ->; [|by apply Hl in Hc].
      eapply tidy_space; [exact Htidy | by apply last_Some_elem_of | done]. }
  unfold normalize_query at 1. unfold strip, collapse_ws, strip_chars.
  rewrite (strip_with_fixed is_space z Hsp), (collapse_aux_tidy false z Htidy).
  by apply strip_with_fixed.
Qed.

(** ** The heuristic plan *)

Definition refined_candidates (q : str) : list WebSearchItem :=
  refine_loop ∅ (build_candidates q).

Lemma plan_searches q :
  searches (_planner_handler q)
  = assign_ranks 1
      (slice_to (sort_by_key (refined_candidates q))
         (determine_search_count q MIN_SEARCHES MAX_SEARCHES)).
Proof. reflexivity. Qed.

Lemma plan_validated q :
  searches (_planner_handler q)
  = assign_ranks 1
      (validate_and_refine_searches (build_candidates q)
         (determine_search_count q MIN_SEARCHES MAX_SEARCHES)).
Proof. reflexivity. Qed.

Lemma search_count_range q :
  (1 <= determine_search_count q MIN_SEARCHES MAX_SEARCHES <= 6)%Z.
Proof. rewrite determine_search_count_signals. unfold signal_count, clamp. lia. Qed.

Lemma assign_ranks_length i l : length (assign_ranks i l) = length l.
Proof. revert i. induction l as [|c l IH]; intros i; simpl; [done | by rewrite IH]. Qed.

Lemma assign_ranks_query i l : map query (assign_ranks i l) = map query l.
Proof. revert i. induction l as [|c l IH]; intros i; simpl; [done | by rewrite IH]. Qed.

Lemma assign_ranks_lookup i l k a :
  assign_ranks i l !! k = Some a ->
  exists a0, l !! k = Some a0 /\ a = set_rank (Some (i + Z.of_nat k)%Z) a0.
Proof.
  revert i k. induction l as [|c l IH]; intros i k; simpl; [done|].
  destruct k as [|k]; simpl.
  - intros [= <-]. exists c. by rewrite Z.add_0_r.
  - intros H. apply IH in H as (a0 & H1 & ->). exists a0. split; [done|].
    f_equal. f_equal. lia.
Qed.

Lemma assign_ranks_of_priority p i l : of_priority p (assign_ranks i l) = of_priority p l.
Proof.
  unfold of_priority. revert i. induction l as [|c l IH]; intros i; simpl; [done|].
  rewrite !filter_cons. change (same_priority p (set_rank (Some i) c)) with (same_priority p c).
  destruct (decide (same_priority p c = true)); simpl; by rewrite IH.
Qed.

Lemma take_of_priority p k l : of_priority p (take k l) `prefix_of` of_priority p l.
Proof.
  unfold of_priority. rewrite <- (take_drop k l) at 2.
  rewrite filter_app, map_app. by apply prefix_app_r.
Qed.

(** [validate_and_refine_searches], whatever the items and their
    priorities: the outcome is sorted by descending priority, and items of
    one priority stay in the order the loop met them. *)
Lemma validate_and_refine_sorted items n :
  StronglySorted key_le (validate_and_refine_searches items n).
Proof.
  unfold validate_and_refine_searches.
  destruct (slice_to_take (sort_by_key (refine_loop ∅ items)) n) as [k ->].
  apply strongly_sorted_take, sort_by_key_sorted.
Qed.

Lemma validate_and_refine_stable items n :
  keeps_order (refine_loop ∅ items) (validate_and_refine_searches items n).
Proof.
  intros p. unfold validate_and_refine_searches.
  destruct (slice_to_take (sort_by_key (refine_loop ∅ items)) n) as [k ->].
  etrans; [apply take_of_priority|]. unfold of_priority.
  by rewrite filter_sort_by_key.
Qed.

Lemma validate_and_refine_keys items n :
  NoDup (map (fun x => lower (query x)) (validate_and_refine_searches items n)).
Proof.
  unfold validate_and_refine_searches.
  destruct (slice_to_take (sort_by_key (refine_loop ∅ items)) n) as [k ->].
  rewrite <- firstn_map. eapply sublist_NoDup; [|apply sublist_take].
  rewrite (Permutation_map (fun x => lower (query x)) (sort_by_key_perm _)).
  apply refine_loop_keys.
Qed.

Lemma validate_and_refine_normal items n :
  Forall (fun x => exists s, query x = normalize_query s /\ rank x = None)
    (validate_and_refine_searches items n).
Proof.
  unfold validate_and_refine_searches.
  destruct (slice_to_take (sort_by_key (refine_loop ∅ items)) n) as [k ->].
  apply Forall_take. rewrite sort_by_key_perm. apply refine_loop_normal.
Qed.

Lemma dedup_key_normal x :
  (exists s, query x = normalize_query s) -> dedup_key x = lower (query x).
Proof. intros [s Hs]. unfold dedup_key. by rewrite Hs, normalize_query_idem. Qed.

Lemma build_candidates_topic q p ps :
  topic_parts q = p :: ps ->
  exists rest,
    build_candidates q = new_item (p ++ py" overview") (Some py"General overview") :: rest.
Proof. intros H. unfold build_candidates. rewrite H. simpl. eauto. Qed.

Lemma refined_candidates_topic q : topic_parts q <> [] -> refined_candidates q <> [].
Proof.
  intros H. destruct (topic_parts q) as [|p ps] eqn:Hp; [done|].
  destruct (build_candidates_topic q p ps Hp) as [rest Hb].
  unfold refined_candidates. rewrite Hb. apply refine_loop_first. simpl.
  apply normalize_overview.
Qed.

Example plan_two_topics :
  map (fun x => (string_of_list_ascii (query x), rank x))
      (searches (_planner_handler py"cats, dogs and birds"))
  = [("cats overview"%string, Some 1%Z); ("cats tutorial"%string, Some 2%Z);
     ("cats recent developments"%string, Some 3%Z)].
Proof. vm_compute. reflexivity. Qed.

(** C1, as stated, fails: the query "," is not empty, yet the plan has no
    search at all (the split leaves no topic, and the only keyword, ",",
    is dropped as too short once normalised). *)
Lemma plan_nonempty_query_without_searches :
  py"," <> [] /\ searches (_planner_handler py",") = [].
Proof. split; [discriminate | vm_compute; reflexivity]. Qed.

(** C1, amended: for every query the plan holds at most
    [determine_search_count query] searches, hence at most six; no two of
    them share their lower-cased normalised query text; and the plan holds
    at least one search whenever splitting the query leaves a topic part
    that is not blank. *)
Theorem plan_searches_bounds q :
  (Z.of_nat (length (searches (_planner_handler q)))
     <= determine_search_count q MIN_SEARCHES MAX_SEARCHES <= 6)%Z
  /\ NoDup (map dedup_key (searches (_planner_handler q)))
  /\ (topic_parts q <> [] -> 1 <= length (searches (_planner_handler q))).
Proof.
  pose proof (search_count_range q) as Hn.
  rewrite plan_validated, assign_ranks_length.
  split; [|split].
  - unfold validate_and_refine_searches. rewrite slice_to_length by lia. lia.
  - rewrite <- (map_map query (fun s => lower (normalize_query s))).
    rewrite assign_ranks_query. rewrite map_map.
    replace (map (fun x => lower (normalize_query (query x)))
               (validate_and_refine_searches (build_candidates q)
                  (determine_search_count q MIN_SEARCHES MAX_SEARCHES)))
      with (map (fun x => lower (query x))
              (validate_and_refine_searches (build_candidates q)
                 (determine_search_count q MIN_SEARCHES MAX_SEARCHES)));
      [apply validate_and_refine_keys|].
    apply map_ext_Forall. eapply Forall_impl; [apply validate_and_refine_normal|].
    intros x (s & Hs & _). symmetry. apply dedup_key_normal. by exists s.
  - intros Htopic. apply refined_candidates_topic in Htopic.
    unfold validate_and_refine_searches. rewrite slice_to_length by lia.
    fold (refined_candidates q).
    assert (length (sort_by_key (refined_candidates q)) = length (refined_candidates q))
      as -> by apply Permutation_length, sort_by_key_perm.
    destruct (refined_candidates q); [done|]. simpl. lia.
Qed.

Lemma plan_searches_bounds_witness :
  topic_parts py"cats, dogs and birds" <> []
  /\ 1 <= length (searches (_planner_handler py"cats, dogs and birds")).
Proof.
  assert (H : topic_parts py"cats, dogs and birds" <> [])
    by (vm_compute; discriminate).
  split; [exact H|].
  exact (proj2 (proj2 (plan_searches_bounds py"cats, dogs and birds")) H).
Defined.

(** C2: for every query, the searches of the plan carry the ranks
    1, 2, ..., k in list order; down the list (as the rank grows) the
    priority never rises; and searches of equal priority keep the order
    they had among the refined candidates before the sort. *)
Theorem plan_ranks q :
  ranked (searches (_planner_handler q))
  /\ descending (searches (_planner_handler q))
  /\ keeps_order (refined_candidates q) (searches (_planner_handler q)).
Proof.
  rewrite plan_validated.
  split; [|split].
  - intros i a Hi. apply assign_ranks_lookup in Hi as (a0 & _ & ->). simpl.
    f_equal. lia.
  - intros i j a b Hi Hj Hlt.
    apply assign_ranks_lookup in Hi as (a0 & Hi & ->).
    apply assign_ranks_lookup in Hj as (b0 & Hj & ->). simpl.
    pose proof (strongly_sorted_lookup key_le _ i j a0 b0
                  (validate_and_refine_sorted _ _) Hi Hj Hlt) as Hle.
    unfold key_le, sort_key in Hle. lra.
  - intros p. rewrite assign_ranks_of_priority. apply validate_and_refine_stable.
Qed.

(** ** Blank queries *)

Lemma ci_eq_space p c : ci_eq p c = true -> is_space c = true -> is_space p = true.
Proof.
  unfold ci_eq. intros Heq Hc. apply eqc_eq in Heq.
  by rewrite <- is_space_lower_char, Heq, is_space_lower_char.
Qed.

Lemma ci_starts_with_space a s :
  all_of is_space s -> ci_starts_with a s = true -> forallb is_space a = true.
Proof.
  intros Hs. revert a. induction Hs as [|c s Hc _ IH]; intros [|p a]; simpl; try done.
  rewrite andb_true_iff. intros [Hp Ha]. by rewrite (ci_eq_space p c), IH.
Qed.

Lemma first_match_blank s : all_of is_space s -> first_match SPLIT_ALTS s = None.
Proof.
  intros Hs. unfold first_match.
  destruct (find (fun a => ci_starts_with a s) SPLIT_ALTS) as [a|] eqn:Hf; [|done].
  apply find_some in Hf as [Hin Ha]. apply (ci_starts_with_space a s Hs) in Ha.
  simpl in Hin. by repeat (destruct Hin as [<- | Hin]; [discriminate|]).
Qed.

Lemma re_split_go_scan alts cur c s :
  re_split_go alts 0 cur (c :: s)
  = match first_match alts (c :: s) with
    | Some a => rev cur :: re_split_go alts (length a - 1) [] s
    | None => re_split_go alts 0 (c :: cur) s
    end.
Proof. reflexivity. Qed.

Lemma re_split_go_blank cur s :
  all_of is_space s -> re_split_go SPLIT_ALTS 0 cur s = [rev cur ++ s].
Proof.
  intros Hs. revert cur. induction Hs as [|c s Hc Hs IH]; intros cur.
  - simpl. by rewrite app_nil_r.
  - rewrite re_split_go_scan, first_match_blank by (by constructor).
    rewrite IH. simpl. by rewrite <- app_assoc.
Qed.

Lemma topic_parts_blank q : all_of is_space q -> topic_parts q = [].
Proof.
  intros Hq. unfold topic_parts, re_split. rewrite re_split_go_blank by done. simpl.
  rewrite filter_cons_False; [done|]. unfold strip. by rewrite strip_with_all.
Qed.

(** C10: on an empty or whitespace-only query the heuristic handler
    returns (it is a total function: nothing in it can raise) the plan with
    no search at all, the topic split and the keyword fallback both being
    empty. *)
Theorem plan_blank_query q :
  all_of is_space q -> _planner_handler q = mkPlan [].
Proof.
  intros Hq. unfold _planner_handler, build_candidates, keyword_items.
  rewrite topic_parts_blank, split_ws_all_space by done. simpl.
  unfold validate_and_refine_searches. simpl.
  destruct (slice_to_take (@nil WebSearchItem)
              (determine_search_count q MIN_SEARCHES MAX_SEARCHES)) as [k ->].
  by rewrite take_nil.
Qed.

Lemma plan_blank_query_witness :
  all_of is_space py"  " /\ _planner_handler py"  " = mkPlan []
  /\ _planner_handler [] = mkPlan [].
Proof.
  assert (H : all_of is_space py"  ") by (repeat constructor).
  split; [exact H|]. split.
  - exact (plan_blank_query py"  " H).
  - apply plan_blank_query. constructor.
Defined.

(** ** The extractor *)

Import Py Extractor.

Lemma up_to_last_none c s : up_to_last c s = None <-> c ∉ s.
Proof.
  induction s as [|x s IH]; simpl.
  - split; [intros _; apply not_elem_of_nil | done].
  - rewrite not_elem_of_cons. destruct (up_to_last c s) as [p|].
    + split; [done|]. intros [_ Hn]. by apply IH in Hn.
    + destruct (eqc x c) eqn:Hx.
      * apply eqc_eq in Hx. split; [done | intros [Hne _]; congruence].
      * split; [|done]. intros _. split; [|by apply IH].
        intros ->. by rewrite eqc_refl in Hx.
Qed.

Lemma up_to_last_some c s p :
  up_to_last c s = Some p ->
  exists mid post, p = mid ++ [c] /\ s = p ++ post /\ c ∉ post.
Proof.
  revert p. induction s as [|x s IH]; intros p; simpl; [done|].
  destruct (up_to_last c s) as [p'|] eqn:Hp.
  - intros [= <-]. destruct (IH p' eq_refl) as (mid & post & -> & Hs & Hpost).
    exists (x :: mid), post. by rewrite Hs at 1.
  - destruct (eqc x c) eqn:Hx; [|done]. intros [= <-]. apply eqc_eq in Hx. subst x.
    exists [], s. split; [done|]. split; [done|]. by apply up_to_last_none.
Qed.

Lemma find_span_cons c rest :
  find_span (c :: rest)
  = if eqc c "{" then
      match up_to_last "}" rest with Some p => Some (c :: p) | None => find_span rest end
    else if eqc c "[" then
      match up_to_last "]" rest with Some p => Some (c :: p) | None => find_span rest end
    else find_span rest.
Proof. reflexivity. Qed.

Lemma opens_span_cons c rest :
  opens_span (c :: rest) ->
  (c = "{"%char /\ up_to_last "}" rest <> None)
  \/ (c = "["%char /\ up_to_last "]" rest <> None).
Proof.
  intros [(r & [= -> ->] & Hin) | (r & [= -> ->] & Hin)]; [left | right];
    (split; [done|]); by rewrite up_to_last_none; intros ?.
Qed.

Lemma find_span_skip c rest :
  ~ opens_span (c :: rest) -> find_span (c :: rest) = find_span rest.
Proof.
  intros Hno. rewrite find_span_cons.
  destruct (eqc c "{") eqn:H1.
  - apply eqc_eq in H1. subst c. destruct (up_to_last "}" rest) eqn:Hu; [|done].
    exfalso. apply Hno. left. exists rest. split; [done|].
    destruct (decide ("}"%char ∈ rest)) as [|Hn]; [done|].
    apply up_to_last_none in Hn. congruence.
  - destruct (eqc c "[") eqn:H2; [|done].
    apply eqc_eq in H2. subst c. destruct (up_to_last "]" rest) eqn:Hu; [|done].
    exfalso. apply Hno. right. exists rest. split; [done|].
    destruct (decide ("]"%char ∈ rest)) as [|Hn]; [done|].
    apply up_to_last_none in Hn. congruence.
Qed.

Lemma first_span_here c p rest :
  ((c = "{"%char /\ up_to_last "}" rest = Some p)
   \/ (c = "["%char /\ up_to_last "]" rest = Some p)) ->
  first_span (c :: rest) (c :: p).
Proof.
  intros H.
  assert (exists d mid post, p = mid ++ [d] /\ rest = p ++ post /\ (d ∉ post)
            /\ ((c = "{"%char /\ d = "}"%char) \/ (c = "["%char /\ d = "]"%char)))
    as (d & mid & post & -> & Hrest & Hpost & Hcd).
  { destruct H as [[-> Hu] | [-> Hu]];
      apply up_to_last_some in Hu as (mid & post & ? & ? & ?); eauto 10. }
  exists [], post. split; [by rewrite Hrest at 1|]. split.
  - intros p1 c' p2 Heq. by destruct p1.
  - destruct Hcd as [[-> ->] | [-> ->]]; [left | right]; by exists mid.
Qed.

Lemma first_span_later c rest m :
  ~ opens_span (c :: rest) -> first_span rest m -> first_span (c :: rest) m.
Proof.
  intros Hno (pre & post & Heq & Hfirst & Hshape).
  exists (c :: pre), post. split; [by rewrite Heq at 1|]. split; [|done].
  intros p1 c' p2 Hpre. destruct p1 as [|x p1]; simpl in Hpre.
  - injection Hpre as <- <-. by rewrite <- Heq.
  - injection Hpre as _ Hpre. by eapply Hfirst.
Qed.

Lemma find_span_sound text m : find_span text = Some m -> first_span text m.
Proof.
  induction text as [|c rest IH]; [done|]. rewrite find_span_cons.
  destruct (eqc c "{") eqn:H1.
  - apply eqc_eq in H1. destruct (up_to_last "}" rest) as [p|] eqn:Hu.
    + intros [= <-]. apply first_span_here. by left.
    + intros Hf. apply first_span_later; [|by apply IH].
      intros Ho. apply opens_span_cons in Ho as [[_ Ho] | [Ho _]]; [done | by subst c].
  - destruct (eqc c "[") eqn:H2.
    + apply eqc_eq in H2. destruct (up_to_last "]" rest) as [p|] eqn:Hu.
      * intros [= <-]. apply first_span_here. by right.
      * intros Hf. apply first_span_later; [|by apply IH].
        intros Ho. apply opens_span_cons in Ho as [[Ho _] | [_ Ho]]; [by subst c | done].
    + intros Hf. apply first_span_later; [|by apply IH].
      intros Ho. apply opens_span_cons in Ho as [[-> _] | [-> _]]; discriminate.
Qed.

Lemma find_span_none text : find_span text = None -> no_span text.
Proof.
  induction text as [|c rest IH]; intros Hf pre s Heq Ho.
  - destruct pre; [|done]. simpl in Heq. subst s.
    destruct Ho as [(r & ? & _) | (r & ? & _)]; discriminate.
  - destruct pre as [|x pre]; simpl in Heq.
    + subst s. rewrite find_span_cons in Hf.
      apply opens_span_cons in Ho as [[-> Ho] | [-> Ho]]; simpl in Hf.
      * by destruct (up_to_last "}" rest).
      * by destruct (up_to_last "]" rest).
    + injection Heq as _ Heq. eapply IH; [|exact Heq|exact Ho].
      rewrite find_span_cons in Hf.
      destruct (eqc c "{"); [by destruct (up_to_last "}" rest)|].
      destruct (eqc c "["); [by destruct (up_to_last "]" rest)|]. done.
Qed.

(** The three texts of the specification; [dq] is the double quote. *)
Definition dq : str := ["034"%char].

Definition text_embedded : str := py"prefix {" ++ dq ++ py"a" ++ dq ++ py": 1} suffix".

Definition object_a1 : Value := VDict [(py"a", VInt 1)].

(** C3, as stated, fails: the text "123" holds no brace or bracket span,
    so the claim has the text returned unchanged, but the code decodes the
    whole text and returns the integer 123. *)
Lemma extract_without_span_decodes_text :
  find_span py"123" = None
  /\ _extract_json_from_text Json.loads py"123" = VInt 123
  /\ spec_extract Json.loads py"123" = VStr py"123".
Proof. repeat split; vm_compute; reflexivity. Qed.

(** C3, amended: for every input text the extractor returns (it never
    raises) the value decoded from the candidate, strictly or else after
    the one repair that replaces single quotes by double quotes, and
    otherwise the input text unchanged; the candidate is the first greedy
    brace/bracket span, or the whole text when there is no such span. With
    the reference decoder the three examples of the specification hold. *)
Theorem extract_json_cases :
  (forall json_loads text,
     exists candidate,
       (first_span text candidate \/ (no_span text /\ candidate = text))
       /\ _extract_json_from_text json_loads text
          = match json_loads candidate with
            | Some v => v
            | None =>
                match json_loads (replace_char "'" "034" candidate) with
                | Some v => v
                | None => VStr text
                end
            end)
  /\ _extract_json_from_text Json.loads text_embedded = object_a1
  /\ _extract_json_from_text Json.loads py"not json at all" = VStr py"not json at all"
  /\ Json.loads py"{'a': 1}" = None
  /\ _extract_json_from_text Json.loads py"{'a': 1}" = object_a1.
Proof.
  split; [|repeat split; vm_compute; reflexivity].
  intros json_loads text. unfold _extract_json_from_text.
  destruct (find_span text) as [m|] eqn:Hf.
  - exists m. split; [left; by apply find_span_sound | done].
  - exists text. split; [right; split; [by apply find_span_none | done] | done].
Qed.

(** ** The simulated search *)

Import Search Writer Email Agents Manager.

Lemma search_loop_items items :
  search_loop (map VItem items)
  = Ok (map (fun it => VResult (simulated_result (Planner.query it))) items).
Proof.
  induction items as [|it items IH]; [done|].
  simpl. rewrite IH. reflexivity.
Qed.

Example search_two_items rf :
  _search_handler rf
    (VList [VItem (new_item py"load balancing" None); VItem (new_item py"caching" None)])
  = Ok (VList
      [VResult (mkResult py"load balancing"
         py"Simulated snippet for 'load balancing': key findings and summary."
         py"https://example.com/search?q=load+balancing");
       VResult (mkResult py"caching"
         py"Simulated snippet for 'caching': key findings and summary."
         py"https://example.com/search?q=caching")]).
Proof. reflexivity. Qed.

(** C5, as stated, fails on the url: for the query "a&b" the url ends in
    "a&b", whereas the url-encoded query is "a%26b". *)
Lemma search_url_not_url_encoded :
  (forall rf,
     _search_handler rf (VList [VItem (new_item py"a&b" None)])
     = Ok (VList [VResult (mkResult py"a&b"
             py"Simulated snippet for 'a&b': key findings and summary."
             py"https://example.com/search?q=a&b")]))
  /\ py"https://example.com/search?q=" ++ UrlSpec.quote_plus py"a&b"
     = py"https://example.com/search?q=a%26b".
Proof. split; [intros rf|]; reflexivity. Qed.

(** C5, amended: for every list of search items, the empty list included,
    the fallback search returns exactly one result per item, in the order of
    the input; the result of an item carries its query, the simulated
    snippet, and the url "https://example.com/search?q=" followed by the
    query with each space replaced by "+" (nothing else is escaped);
    [search([])] is [[]]. *)
Theorem search_one_result_per_item rf (items : list Planner.WebSearchItem) :
  _search_handler rf (VList (map VItem items))
  = Ok (VList (map (fun it =>
          VResult (mkResult (Planner.query it)
            (py"Simulated snippet for '" ++ Planner.query it
               ++ py"': key findings and summary.")
            (py"https://example.com/search?q="
               ++ replace_char " " "+" (Planner.query it)))) items))
  /\ _search_handler rf (VList []) = Ok (VList []).
Proof.
  split; [|reflexivity]. unfold _search_handler. by rewrite search_loop_items.
Qed.

(** ** The simulated report *)

Definition EMPTY_REPORT_BODY : str :=
  py"# Research Report" ++ NL ++ NL ++ py"Findings:" ++ NL ++ py"[]".

(** C9: [write([])] returns a report whose metadata is [{count: 0}] and
    whose markdown body holds the title "Research Report"; so does the
    payload the manager sends for no result, [{search_results: []}]. *)
Theorem write_empty_results rf :
  _writer_handler rf (VList [])
  = Ok (VReport (VStr py"Research Report") (VStr EMPTY_REPORT_BODY)
          (VDict [(py"count", VInt 0)]))
  /\ _writer_handler rf (VDict [(py"search_results", VList [])])
     = _writer_handler rf (VList [])
  /\ occurs_in py"Research Report" EMPTY_REPORT_BODY.
Proof.
  repeat split. exists py"# ", (NL ++ NL ++ py"Findings:" ++ NL ++ py"[]"). reflexivity.
Qed.

Lemma report_lines_results i rs :
  exists ls, report_lines i (map VResult rs) = Ok ls.
Proof.
  revert i. induction rs as [|r rs IH]; intros i; simpl; [by eexists|].
  destruct (IH (S i)) as [ls ->]. by eexists.
Qed.

(** On the results of a search the writer always produces a report, with
    text in its first two fields. *)
Lemma writer_on_results rf rs :
  exists md meta,
    _writer_handler rf (VDict [(py"search_results", VList (map VResult rs))])
    = Ok (VReport (VStr py"Research Report") (VStr md) meta).
Proof.
  destruct rs as [|r rs]; [by do 2 eexists|].
  unfold _writer_handler.
  change (dict_get py"search_results" [(py"search_results", VList (map VResult (r :: rs)))])
    with (Some (VList (map VResult (r :: rs)))).
  cbv beta iota zeta.
  change (map VResult (r :: rs)) with (VResult r :: map VResult rs).
  cbv beta iota zeta. change (has_snippet (VResult r)) with true. cbv iota.
  change (VResult r :: map VResult rs) with (map VResult (r :: rs)).
  destruct (report_lines_results 1 (r :: rs)) as [ls ->].
  by do 2 eexists.
Qed.

(** ** Typed coercion of a runner result *)

(** The class [ReportData] as a target. *)
Definition REPORT_TYPE : PyType :=
  mkType py"<class 'writer_agent.ReportData'>"
    (fun v => Ok (match v with VReport _ _ _ => true | _ => false end))
    construct_report.

(** [List[SearchResultItem]], the [output_type] of the search agent, as a
    target: a subscripted generic admits neither an instance check nor a
    call. *)
Definition LIST_OF_RESULTS : PyType :=
  mkType py"typing.List[search_agent.SearchResultItem]"
    (fun _ =>
       Raise (mkExn TypeError
                py"Subscripted generics cannot be used with class and instance checks"))
    (fun _ =>
       Raise (mkExn TypeError py"Type List cannot be instantiated; use list() instead")).

Example coerce_report_mapping :
  final_output_as
    (mkRunnerResult (VDict [(py"title", VStr py"T"); (py"markdown_report", VStr py"M")]))
    REPORT_TYPE
  = (Ok (VReport (VStr py"T") (VStr py"M") VNone),
     [[(py"title", VStr py"T"); (py"markdown_report", VStr py"M")]]).
Proof. vm_compute. reflexivity. Qed.

Example coerce_report_missing_title :
  fst (final_output_as (mkRunnerResult (VDict [(py"markdown_report", VStr py"M")])) REPORT_TYPE)
  = Raise (mkExn RuntimeError
      py"Cannot convert output to <class 'writer_agent.ReportData'>: ReportData.__init__() missing 1 required positional argument: 'title'").
Proof. vm_compute. reflexivity. Qed.

Example coerce_report_list :
  final_output_as (mkRunnerResult (VList [])) REPORT_TYPE
  = (Raise (mkExn RuntimeError
       py"Result cannot be converted to <class 'writer_agent.ReportData'> (type=<class 'list'>)"),
     []).
Proof. vm_compute. reflexivity. Qed.

(** C7, as stated, fails for a target that is no class. For the declared
    output type of the search agent, [List[SearchResultItem]], the instance
    check itself raises: the coercion neither returns the value nor fails
    with a coercion error, and on a mapping it attempts no construction. *)
Lemma final_output_as_generic_target :
  final_output_as (mkRunnerResult (VList [])) LIST_OF_RESULTS
  = (Raise (mkExn TypeError
              py"Subscripted generics cannot be used with class and instance checks"),
     [])
  /\ fst (final_output_as (mkRunnerResult (VList [])) LIST_OF_RESULTS) <> Ok (VList [])
  /\ (forall msg,
        fst (final_output_as (mkRunnerResult (VList [])) LIST_OF_RESULTS)
        <> Raise (mkExn RuntimeError msg))
  /\ snd (final_output_as (mkRunnerResult (VDict [])) LIST_OF_RESULTS) = []
  /\ (forall msg,
        fst (final_output_as (mkRunnerResult (VDict [])) LIST_OF_RESULTS)
        <> Raise (mkExn RuntimeError msg)).
Proof.
  split; [reflexivity|]. split; [discriminate|]. split; [intros msg; discriminate|].
  split; [reflexivity | intros msg; discriminate].
Qed.

(** C7, amended: for a target that admits the instance check (a class),
    [final_output_as] returns the wrapped value unchanged, calling no
    constructor, when the value is an instance of the target; otherwise,
    on a mapping, it calls the constructor exactly once, on that mapping,
    returns what the constructor returns, and when the constructor raises
    it raises a [RuntimeError] whose message names the target type; on any
    other value it raises such an error without calling the constructor.
    When the instance check itself raises, that exception leaves the
    function unchanged and no constructor is called. *)
Theorem final_output_as_cases (r : RunnerResult) (typ : PyType) :
  (is_instance typ (output r) = Ok true -> final_output_as r typ = (Ok (output r), []))
  /\ (is_instance typ (output r) = Ok false ->
      forall d, output r = VDict d ->
        snd (final_output_as r typ) = [d]
        /\ (forall v, construct typ d = Ok v -> fst (final_output_as r typ) = Ok v)
        /\ (forall e, construct typ d = Raise e ->
              exists msg, fst (final_output_as r typ) = Raise (mkExn RuntimeError msg)
                          /\ occurs_in (type_repr typ) msg))
  /\ (is_instance typ (output r) = Ok false ->
      (forall d, output r <> VDict d) ->
      exists msg, final_output_as r typ = (Raise (mkExn RuntimeError msg), [])
                  /\ occurs_in (type_repr typ) msg)
  /\ (forall e, is_instance typ (output r) = Raise e ->
      final_output_as r typ = (Raise e, [])).
Proof.
  unfold final_output_as. split; [|split; [|split]].
  - by intros ->.
  - intros -> d ->. simpl. split; [done|]. split.
    + by intros v ->.
    + intros e ->. eexists. split; [done|].
      by exists py"Cannot convert output to ", (py": " ++ exn_msg e).
  - intros -> Hnd.
    assert (exists msg,
              Raise (mkExn RuntimeError
                (py"Result cannot be converted to " ++ type_repr typ
                 ++ py" (type=" ++ class_repr (output r) ++ py")")) = @Raise Value (mkExn RuntimeError msg)
              /\ occurs_in (type_repr typ) msg) as (msg & Hmsg & Hocc).
    { eexists. split; [done|].
      by exists py"Result cannot be converted to ",
                (py" (type=" ++ class_repr (output r) ++ py")"). }
    exists msg. split; [|done]. rewrite <- Hmsg.
    destruct (output r); try done. by destruct (Hnd d).
  - by intros e ->.
Qed.

Lemma final_output_as_cases_witness :
  is_instance REPORT_TYPE (VList []) = Ok false
  /\ exists msg,
       final_output_as (mkRunnerResult (VList [])) REPORT_TYPE
       = (Raise (mkExn RuntimeError msg), [])
       /\ occurs_in (type_repr REPORT_TYPE) msg.
Proof.
  split; [reflexivity|].
  apply (proj1 (proj2 (proj2 (final_output_as_cases (mkRunnerResult (VList []))
                                REPORT_TYPE))));
    [reflexivity | discriminate].
Defined.

(** ** The manager pipeline *)

(** One run of the manager over any registry, once the outcome of each of
    the four stages is known: the report of the writer is returned, and the
    status of the email stage is dropped. *)
Lemma manager_pipeline (rf : PyFloat -> str) (handlers : gmap str handler)
    (agent : Agent) (q : str) (plan_h search_h write_h send_h : handler)
    (plan : Planner.WebSearchPlan) (results : list Value) (title md meta status : Value) :
  handlers !! name planner_agent = Some plan_h ->
  handlers !! name search_agent = Some search_h ->
  handlers !! name writer_agent = Some write_h ->
  handlers !! name email_agent = Some send_h ->
  plan_h planner_agent (VStr q) = Ok (VPlan plan) ->
  search_h search_agent (VList (map VItem (Planner.searches plan))) = Ok (VList results) ->
  write_h writer_agent (VDict [(py"search_results", VList results)])
    = Ok (VReport title md meta) ->
  send_h email_agent (VReport title md meta) = Ok status ->
  _manager_handler rf handlers agent (VStr q) = Ok (VReport title md meta).
Proof.
  intros Hp Hs Hw He Hplan Hsearch Hwrite Hsend.
  unfold _manager_handler, Runner_run.
  cbn [mbind result_bind bind]. rewrite Hp. cbn [mbind result_bind bind]. rewrite Hplan.
  cbn [mbind result_bind bind output py_len].
  rewrite Hs. cbn [mbind result_bind bind]. rewrite Hsearch.
  cbn [mbind result_bind bind output py_len].
  rewrite Hw. cbn [mbind result_bind bind]. rewrite Hwrite.
  cbn [mbind result_bind bind output].
  rewrite He. cbn [mbind result_bind bind]. by rewrite Hsend.
Qed.

Lemma tool_handlers_lookup (rf : PyFloat -> str) :
  tool_handlers rf !! name planner_agent = Some (planner_handler rf)
  /\ tool_handlers rf !! name search_agent = Some (search_handler rf)
  /\ tool_handlers rf !! name writer_agent = Some (writer_handler rf)
  /\ tool_handlers rf !! name email_agent = Some (email_handler rf).
Proof.
  unfold tool_handlers, register_agent_handler.
  repeat split; repeat (rewrite lookup_insert_ne by done); by rewrite lookup_insert_eq.
Qed.

Lemma email_on_text_report (rf : PyFloat -> str) title md meta :
  _email_handler rf (VReport title (VStr md) meta) = Ok (VStr py"email_sent").
Proof. reflexivity. Qed.

Example manager_run_two_topics (rf : PyFloat -> str) :
  exists md,
    manager_run rf py"cats and dogs"
    = Ok (VReport (VStr py"Research Report") (VStr md) (VDict [(py"count", VInt 2)])).
Proof. eexists. vm_compute. reflexivity. Qed.

(** C6: for every query, the run of the manager reaches the email stage
    and returns exactly the report the writer produced from the search
    results; the simulated email handler never raises on that report; and
    whatever handler is registered for the email stage, once it returns
    (any status) the run returns the same report. *)
Theorem manager_returns_writer_report (rf : PyFloat -> str) (q : str) :
  exists results report,
    _search_handler rf
      (VList (map VItem (Planner.searches (Planner._planner_handler q)))) = Ok results
    /\ _writer_handler rf (VDict [(py"search_results", results)]) = Ok report
    /\ _email_handler rf report = Ok (VStr py"email_sent")
    /\ manager_run rf q = Ok report
    /\ forall (send : handler) status,
         send email_agent report = Ok status ->
         _manager_handler rf
           (register_agent_handler email_agent send (tool_handlers rf))
           manager_agent (VStr q)
         = Ok report.
Proof.
  set (plan := Planner._planner_handler q).
  set (rs := map (fun it => simulated_result (Planner.query it)) (Planner.searches plan)).
  assert (Hsearch :
    _search_handler rf (VList (map VItem (Planner.searches plan))) = Ok (VList (map VResult rs))).
  { unfold _search_handler. rewrite search_loop_items. subst rs. by rewrite map_map. }
  destruct (writer_on_results rf rs) as (md & meta & Hwrite).
  destruct (tool_handlers_lookup rf) as (Hp & Hs & Hw & He).
  exists (VList (map VResult rs)), (VReport (VStr py"Research Report") (VStr md) meta).
  split; [done|]. split; [done|]. split; [done|]. split.
  - unfold manager_run, Runner_run, local_handlers, register_agent_handler.
    rewrite lookup_insert_eq. simpl.
    cbn [mbind result_bind bind].
    by rewrite (manager_pipeline rf (tool_handlers rf) manager_agent q
                  _ _ _ _ plan (map VResult rs) (VStr py"Research Report") (VStr md) meta
                  (VStr py"email_sent") Hp Hs Hw He).
  - intros send status Hsend.
    apply (manager_pipeline rf _ manager_agent q
             (planner_handler rf) (search_handler rf) (writer_handler rf) send
             plan (map VResult rs) _ _ _ status);
      try done;
      unfold register_agent_handler;
      by (rewrite lookup_insert_eq || (rewrite lookup_insert_ne by done)).
Qed.

(** ** The LLM-backed planner *)

Lemma normalize_simulated_items rf fos ios i j parts :
  exists xs,
    LlmPlanner.normalize_items rf fos ios i (LlmPlanner.simulated_items j parts) = Ok xs.
Proof.
  revert i j. induction parts as [|p parts IH]; intros i j; simpl; [by eexists|].
  destruct (IH (i + 1)%Z (j + 1)%Z) as [xs ->]. by eexists.
Qed.

(** When the call of the model raises, the handler falls back on the
    simulated plan and returns a plan. *)
Lemma llm_planner_falls_back loads rf fos ios e payload :
  exists plan, LlmPlanner._planner_handler loads rf fos ios (Raise e) payload = Ok plan.
Proof.
  unfold LlmPlanner._planner_handler, LlmPlanner._simulated_planner.
  cbn [mbind result_bind bind dict_get]. simpl default.
  set (parts := take 3 _).
  destruct (LlmPlanner.simulated_items 1 parts) as [|x xs] eqn:Hitems.
  - by eexists.
  - rewrite <- Hitems. cbn [LlmPlanner.py_iter mbind result_bind bind].
    destruct (normalize_simulated_items rf fos ios 1 1 parts) as [ys ->].
    by eexists.
Qed.

(** C8 fails on the code: when the model answers with the JSON array
    "[1, 2]", the extractor returns a list, which is no string, so no
    fallback is taken, and [parsed.get] raises [AttributeError] to the
    caller, whatever the payload. *)
Theorem llm_planner_raises_on_json_array rf fos ios payload :
  LlmPlanner._planner_handler Json.loads rf fos ios (Ok py"[1, 2]") payload
  = Raise (mkExn AttributeError py"'list' object has no attribute 'get'").
Proof. reflexivity. Qed.

(** * Further properties of the code *)

(** ** [validate_and_refine_searches] on arbitrary items *)

Lemma refine_loop_origin seen items :
  Forall (fun x =>
            3 <= length (Planner.query x)
            /\ Planner.rank x = None /\ Planner.tags x = None
            /\ exists it, it ∈ items
                 /\ Planner.query x = normalize_query (Planner.query it)
                 /\ Planner.reason x = Planner.reason it
                 /\ Planner.priority x = round3 (Planner.priority it))
    (refine_loop seen items).
Proof.
  revert seen. induction items as [|it rest IH]; intros seen; [constructor|].
  assert (Hrest : forall seen',
    Forall (fun x =>
              3 <= length (Planner.query x)
              /\ Planner.rank x = None /\ Planner.tags x = None
              /\ exists it', it' ∈ it :: rest
                   /\ Planner.query x = normalize_query (Planner.query it')
                   /\ Planner.reason x = Planner.reason it'
                   /\ Planner.priority x = round3 (Planner.priority it'))
      (refine_loop seen' rest)).
  { intros seen'. eapply Forall_impl; [apply IH|].
    intros x (H1 & H2 & H3 & it' & Hin & H4). repeat split; try done.
    exists it'. split; [by apply list_elem_of_further | done]. }
  rewrite refine_loop_cons. cbv zeta.
  destruct (length (normalize_query (Planner.query it)) <? 3) eqn:Hlen; [apply Hrest|].
  case_bool_decide; [apply Hrest|]. constructor; [|apply Hrest].
  apply Nat.ltb_ge in Hlen. simpl. repeat split; try done.
  exists it. split; [apply list_elem_of_here | done].
Qed.

(** X1: every item that [validate_and_refine_searches] returns comes from
    an input item: its query is the normalised query of that item, is at
    least three characters long and is left unchanged by a further
    normalisation; it keeps the reason, carries the priority rounded to
    three decimals, and has neither rank nor tags. *)
Theorem validated_items_are_normalised items n :
  Forall (fun x =>
            3 <= length (Planner.query x)
            /\ normalize_query (Planner.query x) = Planner.query x
            /\ Planner.rank x = None /\ Planner.tags x = None
            /\ exists it, it ∈ items
                 /\ Planner.query x = normalize_query (Planner.query it)
                 /\ Planner.reason x = Planner.reason it
                 /\ Planner.priority x = round3 (Planner.priority it))
    (validate_and_refine_searches items n).
Proof.
  unfold validate_and_refine_searches.
  destruct (slice_to_take (sort_by_key (refine_loop ∅ items)) n) as [k ->].
  apply Forall_take. rewrite sort_by_key_perm.
  eapply Forall_impl; [apply refine_loop_origin|].
  intros x (H1 & H2 & H3 & it & Hin & H4 & H5 & H6). repeat split; try done.
  - rewrite H4. apply normalize_query_idem.
  - by exists it.
Qed.

(** X2: for items whose priorities are finite numbers (the priorities of
    the model are rationals: a NaN, which the sort of Python does not
    order, stands outside it), [validate_and_refine_searches] returns the
    items by descending priority, and the items of one priority stand in
    the order in which the loop kept them (the sort is stable); no two of
    them share a lower-cased query. *)
Theorem validated_items_sorted_stable items n :
  descending (validate_and_refine_searches items n)
  /\ keeps_order (refine_loop ∅ items) (validate_and_refine_searches items n)
  /\ NoDup (map (fun x => lower (Planner.query x)) (validate_and_refine_searches items n)).
Proof.
  split; [|split].
  - intros i j a b Hi Hj Hlt.
    pose proof (strongly_sorted_lookup key_le _ i j a b
                  (validate_and_refine_sorted items n) Hi Hj Hlt) as Hle.
    unfold key_le, sort_key in Hle. lra.
  - apply validate_and_refine_stable.
  - apply validate_and_refine_keys.
Qed.

(** X3: the size of the outcome of [validate_and_refine_searches]. With
    [k] the number of items the loop keeps, a bound [n >= 0] gives
    [min n k] items, and a negative bound does not fail: as a Python slice
    it drops the last [-n] items, leaving [k - (-n)] of them (none when
    [-n >= k]). *)
Theorem validated_items_count items n :
  length (validate_and_refine_searches items n)
  = if (0 <=? n)%Z then Nat.min (Z.to_nat n) (length (refine_loop ∅ items))
    else length (refine_loop ∅ items) - Z.to_nat (- n).
Proof.
  unfold validate_and_refine_searches, slice_to.
  assert (Hlen : length (sort_by_key (refine_loop ∅ items)) = length (refine_loop ∅ items))
    by apply Permutation_length, sort_by_key_perm.
  destruct (0 <=? n)%Z; rewrite length_take, Hlen; lia.
Qed.

(** ** [determine_search_count] *)

(** X4: for arbitrary bounds, [determine_search_count] never returns less
    than [min_searches]; it stays within [[min_searches, max_searches]]
    when the bounds are ordered; and since at most four signals are added
    to the base of one it never exceeds five unless [min_searches] does:
    with the default bounds 1 and 6 the result lies between 1 and 5. *)
Theorem determine_search_count_bounds q lo hi :
  (lo <= determine_search_count q lo hi)%Z
  /\ ((lo <= hi)%Z -> (determine_search_count q lo hi <= hi)%Z)
  /\ (determine_search_count q lo hi <= Z.max lo 5)%Z
  /\ (1 <= determine_search_count q MIN_SEARCHES MAX_SEARCHES <= 5)%Z.
Proof.
  assert (H : (lo <= determine_search_count q lo hi)%Z
              /\ ((lo <= hi)%Z -> (determine_search_count q lo hi <= hi)%Z)
              /\ (determine_search_count q lo hi <= Z.max lo 5)%Z).
  { destruct (decide (strip q = [])) as [Hblank | Hne].
    - unfold determine_search_count.
      rewrite (bool_decide_eq_true_2 _ Hblank), orb_true_r. lia.
    - rewrite determine_search_count_stripped by done.
      destruct (long_query (strip q)), (has_delimiter (strip q)),
        (has_question_word QUESTION_WORDS (strip q)), (has_list_marker (strip q));
        simpl Z.b2z; lia. }
  destruct H as (H1 & H2 & H3). repeat split; try done.
  - apply (proj1 (search_count_range q)).
  - clear H1 H2 H3.
    destruct (decide (strip q = [])) as [Hblank | Hne].
    + unfold determine_search_count, MIN_SEARCHES.
      rewrite (bool_decide_eq_true_2 _ Hblank), orb_true_r. lia.
    + rewrite determine_search_count_stripped by done. unfold MIN_SEARCHES, MAX_SEARCHES.
      destruct (long_query (strip q)), (has_delimiter (strip q)),
        (has_question_word QUESTION_WORDS (strip q)), (has_list_marker (strip q));
        simpl Z.b2z; lia.
Qed.

Lemma determine_search_count_bounds_witness :
  (1 <= 6)%Z /\ (determine_search_count py"why, and how?" 1 6 <= 6)%Z.
Proof.
  assert (H : (1 <= 6)%Z) by lia. split; [exact H|].
  exact (proj1 (proj2 (determine_search_count_bounds py"why, and how?" 1 6)) H).
Defined.

Lemma lower_char_idem c : lower_char (lower_char c) = lower_char c.
Proof. ascii_cases c; reflexivity. Qed.

Lemma is_punct_lower_char c : is_punct (lower_char c) = is_punct c.
Proof. ascii_cases c; reflexivity. Qed.

Lemma lower_idem s : lower (lower s) = lower s.
Proof. unfold lower. rewrite map_map. apply map_ext. apply lower_char_idem. Qed.

Lemma split_aux_lower s :
  split_aux (lower s) = (lower (fst (split_aux s)), map lower (snd (split_aux s))).
Proof.
  induction s as [|c s IH]; [done|]. simpl. rewrite IH, is_space_lower_char.
  destruct (split_aux s) as [cur ws]. simpl.
  destruct (is_space c); [|done]. by destruct cur.
Qed.

Lemma split_ws_lower s : split_ws (lower s) = map lower (split_ws s).
Proof.
  unfold split_ws. rewrite split_aux_lower. destruct (split_aux s) as [cur ws].
  simpl. by destruct cur.
Qed.

Lemma existsb_map {A B} (f : B -> bool) (g : A -> B) l :
  existsb f (map g l) = existsb (fun x => f (g x)) l.
Proof. induction l as [|x l IH]; simpl; [done | by rewrite IH]. Qed.

Lemma mem_lower_fixed a s : lower_char a = a -> (forall c, lower_char c = a -> c = a) ->
  mem a (lower s) = mem a s.
Proof.
  intros Ha Hinj. unfold mem, lower. rewrite existsb_map.
  apply existsb_agree, Forall_forall. intros c _.
  destruct (eqc a c) eqn:H1.
  - apply eqc_eq in H1. subst c. rewrite Ha. apply eqc_refl.
  - destruct (eqc a (lower_char c)) eqn:H2; [|done]. apply eqc_eq in H2.
    symmetry in H2. apply Hinj in H2. subst c. by rewrite eqc_refl in H1.
Qed.

Lemma signal_count_lower words q : signal_count words (lower q) = signal_count words q.
Proof.
  unfold signal_count, long_query, has_delimiter, has_question_word, has_list_marker,
    has_word_and.
  rewrite split_ws_lower, length_map, lower_idem.
  rewrite (mem_lower_fixed ","%char), (mem_lower_fixed "/"%char);
    try reflexivity; try (intros c; ascii_cases c; (reflexivity || discriminate)).
  unfold lower at 1. rewrite existsb_map.
  by rewrite (existsb_agree (fun x => is_punct (lower_char x)) is_punct)
    by (apply Forall_forall; intros c _; apply is_punct_lower_char).
Qed.

(** X5: [determine_search_count] looks neither at the whitespace around
    the query nor at the case of its letters: padding the query with
    whitespace on either side, or lower-casing it, leaves the count
    unchanged. *)
Theorem determine_search_count_padding_and_case pre q post :
  all_of is_space pre -> all_of is_space post ->
  determine_search_count (pre ++ q ++ post) MIN_SEARCHES MAX_SEARCHES
  = determine_search_count q MIN_SEARCHES MAX_SEARCHES
  /\ determine_search_count (lower q) MIN_SEARCHES MAX_SEARCHES
     = determine_search_count q MIN_SEARCHES MAX_SEARCHES.
Proof.
  intros Hpre Hpost. rewrite !determine_search_count_signals. split.
  - apply signal_count_padded; [apply question_words_ok | done..].
  - apply signal_count_lower.
Qed.

Lemma determine_search_count_padding_and_case_witness :
  determine_search_count py"  What IS Rust?  " MIN_SEARCHES MAX_SEARCHES
  = determine_search_count py"What IS Rust?" MIN_SEARCHES MAX_SEARCHES
  /\ determine_search_count py"what is rust?" MIN_SEARCHES MAX_SEARCHES
     = determine_search_count py"What IS Rust?" MIN_SEARCHES MAX_SEARCHES.
Proof.
  apply (determine_search_count_padding_and_case py"  " py"What IS Rust?" py"  ");
    repeat constructor.
Defined.

(** ** The heuristic plan, in full *)

Lemma same_priority_half x : Planner.priority x = (1 # 2)%Q -> same_priority (1 # 2) x = true.
Proof. unfold same_priority. by intros ->. Qed.

Lemma build_candidates_priority q :
  Forall (fun x => Planner.priority x = DEFAULT_PRIORITY) (build_candidates q).
Proof.
  unfold build_candidates.
  assert (H : Forall (fun x => Planner.priority x = DEFAULT_PRIORITY)
                (flat_map expand_topic (topic_parts q))).
  { apply Forall_flat_map, Forall_forall. intros p _. by repeat constructor. }
  destruct (flat_map expand_topic (topic_parts q)); [|done].
  unfold keyword_items. by apply Forall_map, Forall_forall.
Qed.

Lemma assign_ranks_preserves (P : Planner.WebSearchItem -> Prop) i l :
  (forall r x, P x -> P (set_rank r x)) -> Forall P l -> Forall P (assign_ranks i l).
Proof.
  intros HP Hl. revert i. induction Hl as [|x l Hx _ IH]; intros i; simpl; [constructor|].
  constructor; [by apply HP | apply IH].
Qed.

(** X6: the sort changes nothing in the heuristic plan, every candidate
    having the default priority: the searches are the first [n] refined
    candidates in the order in which they were generated, ranked from 1,
    where [n] is the search count of the query; each has priority 1/2 and
    no tags. *)
Theorem plan_is_prefix_of_candidates q :
  searches (_planner_handler q)
  = assign_ranks 1
      (take (Z.to_nat (determine_search_count q MIN_SEARCHES MAX_SEARCHES))
         (refined_candidates q))
  /\ Forall (fun x => Planner.priority x = (1 # 2)%Q /\ Planner.tags x = None)
       (searches (_planner_handler q)).
Proof.
  assert (Hprio : Forall (fun x => Planner.priority x = (1 # 2)%Q) (refined_candidates q)).
  { apply (refine_loop_priority ∅ (build_candidates q) DEFAULT_PRIORITY).
    apply build_candidates_priority. }
  assert (Hsort : sort_by_key (refined_candidates q) = refined_candidates q).
  { apply (sort_by_key_same_priority (1 # 2)).
    eapply Forall_impl; [exact Hprio|]. intros x. apply same_priority_half. }
  assert (Heq : searches (_planner_handler q)
                = assign_ranks 1
                    (take (Z.to_nat (determine_search_count q MIN_SEARCHES MAX_SEARCHES))
                       (refined_candidates q))).
  { rewrite plan_searches, Hsort. unfold slice_to.
    pose proof (search_count_range q) as Hn.
    by rewrite (proj2 (Z.leb_le 0 _)) by lia. }
  split; [exact Heq|]. rewrite Heq.
  assert (Htags : Forall (fun x => Planner.priority x = (1 # 2)%Q /\ Planner.tags x = None)
                    (refined_candidates q)).
  { apply Forall_and. split; [done|].
    eapply Forall_impl; [apply (refine_loop_origin ∅ (build_candidates q))|].
    by intros x (_ & _ & H & _). }
  apply assign_ranks_preserves; [done|]. by apply Forall_take.
Qed.

(** ** The topic split *)

Lemma first_match_comma s : first_match SPLIT_ALTS (","%char :: s) = Some py",".
Proof. reflexivity. Qed.

Lemma re_split_go_no_comma skip cur s :
  ","%char ∉ cur ->
  Forall (fun p => ","%char ∉ p) (re_split_go SPLIT_ALTS skip cur s).
Proof.
  revert skip cur. induction s as [|c s IH]; intros skip cur Hcur.
  - simpl. constructor; [|constructor]. by rewrite list_elem_of_In, <- in_rev, <- list_elem_of_In.
  - destruct skip as [|k]; [|by apply IH].
    rewrite re_split_go_scan. destruct (first_match SPLIT_ALTS (c :: s)) as [a|] eqn:Hm.
    + constructor; [|apply IH; apply not_elem_of_nil].
      by rewrite list_elem_of_In, <- in_rev, <- list_elem_of_In.
    + apply IH. rewrite not_elem_of_cons. split; [|done].
      intros <-. by rewrite first_match_comma in Hm.
Qed.

Lemma strip_with_elem f s c : c ∈ strip_with f s -> c ∈ s.
Proof.
  destruct (strip_with_split f s) as (pre & post & Heq & _). intros Hc.
  rewrite Heq, !elem_of_app. auto.
Qed.

(** X7: every topic part that the handler expands is non-empty, has no
    whitespace at either end, and holds no comma (the split consumes every
    comma). *)
Theorem topic_parts_clean q :
  Forall (fun p => p <> [] /\ ends_outside is_space p /\ ","%char ∉ p) (topic_parts q).
Proof.
  unfold topic_parts. apply Forall_map, Forall_forall. intros p Hp.
  apply list_elem_of_filter in Hp as [Hne Hin]. simpl. split; [|split].
  - intros Heq. by rewrite Heq in Hne.
  - apply strip_with_ends.
  - intros Hc. apply strip_with_elem in Hc.
    pose proof (re_split_go_no_comma 0 [] q (not_elem_of_nil _)) as Hall.
    rewrite Forall_forall in Hall. by apply (Hall p Hin).
Qed.

(** ** The extractor on embedded values *)

Lemma up_to_last_closing c mid post :
  c ∉ post -> up_to_last c (mid ++ [c] ++ post) = Some (mid ++ [c]).
Proof.
  intros Hpost. induction mid as [|x mid IH]; simpl.
  - apply up_to_last_none in Hpost. by rewrite Hpost, eqc_refl.
  - simpl in IH. by rewrite IH.
Qed.

Lemma find_span_skip_prefix pre s :
  "{"%char ∉ pre -> "["%char ∉ pre -> find_span (pre ++ s) = find_span s.
Proof.
  induction pre as [|c pre IH]; [done|].
  rewrite !not_elem_of_cons. intros [H1 H1'] [H2 H2'].
  simpl app. rewrite find_span_cons.
  destruct (eqc c "{") eqn:E1; [apply eqc_eq in E1; congruence|].
  destruct (eqc c "[") eqn:E2; [apply eqc_eq in E2; congruence|].
  by apply IH.
Qed.

(** X8: a JSON object or array embedded in prose is found and decoded.
    When the text before the value holds neither "{" nor "[", the value
    opens with "{" and closes with "}" (or opens with "[" and closes with
    "]"), and the text after it does not hold the closing character again,
    then the extractor returns what the decoder makes of the value. *)
Theorem extract_embedded_value json_loads pre opening closing mid post v :
  (opening = "{"%char /\ closing = "}"%char) \/ (opening = "["%char /\ closing = "]"%char) ->
  "{"%char ∉ pre -> "["%char ∉ pre -> closing ∉ post ->
  json_loads (opening :: mid ++ [closing]) = Some v ->
  _extract_json_from_text json_loads (pre ++ (opening :: mid ++ [closing]) ++ post) = v.
Proof.
  intros Hshape Hpre1 Hpre2 Hpost Hv.
  assert (Hspan : find_span (pre ++ (opening :: mid ++ [closing]) ++ post)
                  = Some (opening :: mid ++ [closing])).
  { rewrite find_span_skip_prefix by done. simpl app. rewrite find_span_cons.
    rewrite <- app_assoc.
    destruct Hshape as [[-> ->] | [-> ->]]; simpl eqc; cbv iota;
      by rewrite up_to_last_closing. }
  unfold _extract_json_from_text. by rewrite Hspan, Hv.
Qed.

Lemma extract_embedded_value_witness :
  _extract_json_from_text Json.loads
    (py"Here is the plan: " ++ ("["%char :: py"1, 2" ++ ["]"%char]) ++ py" as asked.")
  = VList [VInt 1; VInt 2].
Proof.
  apply (extract_embedded_value Json.loads py"Here is the plan: " "[" "]" py"1, 2"
           py" as asked." (VList [VInt 1; VInt 2])).
  - right. split; reflexivity.
  - vm_compute. intros H. by repeat (apply elem_of_cons in H as [H | H]; [discriminate|]);
      apply elem_of_nil in H.
  - vm_compute. intros H. by repeat (apply elem_of_cons in H as [H | H]; [discriminate|]);
      apply elem_of_nil in H.
  - vm_compute. intros H. by repeat (apply elem_of_cons in H as [H | H]; [discriminate|]);
      apply elem_of_nil in H.
  - vm_compute. reflexivity.
Defined.

Lemma replace_char_absent a b s : a ∉ s -> replace_char a b s = s.
Proof.
  induction s as [|c s IH]; [done|]. rewrite not_elem_of_cons. intros [Hne Hs].
  simpl. rewrite IH by done. destruct (eqc c a) eqn:E; [|done].
  apply eqc_eq in E. congruence.
Qed.

(** X9: the repair pass only touches single quotes. On a text without
    any single quote, if the decoder rejects the candidate (the first span,
    or the whole text when there is none), the extractor returns the input
    text unchanged. *)
Theorem extract_rejected_without_quotes json_loads text :
  "'"%char ∉ text ->
  json_loads (default text (find_span text)) = None ->
  _extract_json_from_text json_loads text = VStr text.
Proof.
  intros Hq Hrej. unfold _extract_json_from_text.
  destruct (find_span text) as [m|] eqn:Hf; simpl in Hrej.
  - assert (Hm : "'"%char ∉ m).
    { destruct (find_span_sound text m Hf) as (pre & post & Heq & _).
      intros Hin. apply Hq. rewrite Heq, !elem_of_app. auto. }
    by rewrite Hrej, (replace_char_absent _ _ m Hm), Hrej.
  - by rewrite Hrej, (replace_char_absent _ _ text Hq), Hrej.
Qed.

Lemma extract_rejected_without_quotes_witness :
  _extract_json_from_text Json.loads py"{not json}" = VStr py"{not json}".
Proof.
  apply extract_rejected_without_quotes.
  - vm_compute. intros H. by repeat (apply elem_of_cons in H as [H | H]; [discriminate|]);
      apply elem_of_nil in H.
  - vm_compute. reflexivity.
Defined.

(** ** The simulated search, on any list *)

Definition has_query (v : Value) : bool :=
  match v with
  | VItem _ | VResult _ => true
  | _ => false
  end.

Lemma search_loop_ok items :
  Forall (fun v => has_query v = true) items ->
  exists rs, search_loop items = Ok rs /\ length rs = length items.
Proof.
  induction 1 as [|it items Hit _ (rs & IH & Hlen)]; simpl; [by exists []|].
  rewrite IH. destruct it; try done; simpl; eexists; split; try done; simpl; by rewrite Hlen.
Qed.

Lemma search_loop_raises pre bad rest :
  Forall (fun v => has_query v = true) pre -> has_query bad = false ->
  search_loop (pre ++ bad :: rest) = Raise (no_attribute bad py"query").
Proof.
  intros Hpre Hbad. induction Hpre as [|it pre Hit _ IH]; simpl.
  - by destruct bad.
  - rewrite IH. by destruct it.
Qed.

(** X10: on a list payload the search handler reads [it.query] of every
    element. If every element is a [WebSearchItem] or a
    [SearchResultItem], it returns a list of the same length; otherwise it
    raises the [AttributeError] of the first element without a [query]
    attribute and returns no result at all. *)
Theorem search_handler_list_outcome rf items :
  (Forall (fun v => has_query v = true) items ->
   exists rs, _search_handler rf (VList items) = Ok (VList rs)
              /\ length rs = length items)
  /\ (forall pre bad rest,
        items = pre ++ bad :: rest ->
        Forall (fun v => has_query v = true) pre -> has_query bad = false ->
        _search_handler rf (VList items)
        = Raise (mkExn AttributeError
                   (py"'" ++ type_name bad ++ py"' object has no attribute 'query'"))).
Proof.
  split.
  - intros Hall. destruct (search_loop_ok items Hall) as (rs & Hrs & Hlen).
    exists rs. unfold _search_handler. by rewrite Hrs.
  - intros pre bad rest -> Hpre Hbad. unfold _search_handler.
    by rewrite search_loop_raises.
Qed.

Lemma search_handler_list_outcome_witness :
  _search_handler (fun _ => []) (VList [VItem (new_item py"a" None); VStr py"b"])
  = Raise (mkExn AttributeError py"'str' object has no attribute 'query'").
Proof.
  apply (proj2 (search_handler_list_outcome (fun _ => [])
                  [VItem (new_item py"a" None); VStr py"b"])
           [VItem (new_item py"a" None)] (VStr py"b") []);
    [reflexivity | by repeat constructor | reflexivity].
Defined.

Lemma replace_char_no_old a b s : a <> b -> a ∉ replace_char a b s.
Proof.
  intros Hne. induction s as [|c s IH]; simpl; [apply not_elem_of_nil|].
  rewrite not_elem_of_cons. split; [|done].
  destruct (eqc c a) eqn:E; [done|]. intros ->. by rewrite eqc_refl in E.
Qed.

Lemma replace_char_back a b s : b ∉ s -> replace_char b a (replace_char a b s) = s.
Proof.
  induction s as [|c s IH]; [done|]. rewrite not_elem_of_cons. intros [Hne Hs].
  simpl. rewrite IH by done. f_equal.
  destruct (eqc c a) eqn:E.
  - apply eqc_eq in E. by rewrite eqc_refl.
  - destruct (eqc c b) eqn:E'; [|done]. apply eqc_eq in E'. congruence.
Qed.

(** X11: the url of a simulated result holds no space and is 29
    characters (the fixed prefix) longer than the query; reading "+" back
    as a space recovers the query from the url when the query itself holds
    no "+" (otherwise the query cannot be told from the url: the code does
    not escape "+"). *)
Theorem simulated_url_shape q :
  (" "%char ∉ url (simulated_result q))
  /\ length (url (simulated_result q)) = 29 + length q
  /\ take 29 (url (simulated_result q)) = py"https://example.com/search?q="
  /\ ("+"%char ∉ q -> replace_char "+" " " (drop 29 (url (simulated_result q))) = q).
Proof.
  change (url (simulated_result q))
    with (py"https://example.com/search?q=" ++ replace_char " " "+" q).
  repeat split.
  - intros H. apply elem_of_app in H as [H | H].
    + vm_compute in H.
      by repeat (apply elem_of_cons in H as [H | H]; [discriminate|]); apply elem_of_nil in H.
    + by apply (replace_char_no_old " " "+" q).
  - rewrite length_app. unfold replace_char. by rewrite length_map.
  - intros Hplus. apply (replace_char_back " " "+" q Hplus).
Qed.

Lemma simulated_url_shape_witness :
  replace_char "+" " " (drop 29 (url (simulated_result py"load balancing"))) = py"load balancing".
Proof.
  apply (proj2 (proj2 (proj2 (simulated_url_shape py"load balancing")))).
  vm_compute. intros H.
  by repeat (apply elem_of_cons in H as [H | H]; [discriminate|]); apply elem_of_nil in H.
Defined.

(** ** The simulated report, on results and on other payloads *)

(** The section of one result and the sections of a list of results,
    numbered from [i]. *)
Definition section_of (i : nat) (r : SearchResultItem) : list str :=
  [ py"## Result " ++ of_nat i ++ py": " ++ result_query r;
    snippet r;
    py"[source](" ++ url r ++ py")";
    [] ].

Fixpoint sections_from (i : nat) (rs : list SearchResultItem) : list str :=
  match rs with
  | [] => []
  | r :: rs' => section_of i r ++ sections_from (S i) rs'
  end.

Lemma report_lines_sections i rs :
  report_lines i (map VResult rs) = Ok (sections_from i rs).
Proof.
  revert i. induction rs as [|r rs IH]; intros i; [done|].
  simpl. by rewrite IH.
Qed.

Lemma writer_handler_on_results rf (rs : list SearchResultItem) :
  rs <> [] ->
  _writer_handler rf (VList (map VResult rs))
  = Ok (VReport (VStr py"Research Report")
          (VStr (join NL ([py"# Research Report"; []] ++ sections_from 1 rs)))
          (VDict [(py"count", VInt (Z.of_nat (length rs)))]))
  /\ _writer_handler rf (VDict [(py"search_results", VList (map VResult rs))])
     = _writer_handler rf (VList (map VResult rs)).
Proof.
  intros Hne. destruct rs as [|r rs]; [done|].
  assert (Hall : forallb has_snippet (map VResult (r :: rs)) = true).
  { apply forallb_forall. intros x Hx. apply in_map_iff in Hx as (y & <- & _). done. }
  assert (Hdict :
    _writer_handler rf (VDict [(py"search_results", VList (map VResult (r :: rs)))])
    = Ok (VReport (VStr py"Research Report")
            (VStr (join NL ([py"# Research Report"; []] ++ sections_from 1 (r :: rs))))
            (VDict [(py"count", VInt (Z.of_nat (length (r :: rs))))]))).
  { unfold _writer_handler.
    change (dict_get py"search_results"
              [(py"search_results", VList (map VResult (r :: rs)))])
      with (Some (VList (map VResult (r :: rs)))).
    cbv beta iota zeta.
    change (map VResult (r :: rs)) with (VResult r :: map VResult rs).
    cbv beta iota zeta. change (has_snippet (VResult r)) with true. cbv iota.
    change (VResult r :: map VResult rs) with (map VResult (r :: rs)).
    rewrite report_lines_sections. cbn [mbind result_bind bind py_len].
    by rewrite length_map. }
  assert (Hlist :
    _writer_handler rf (VList (map VResult (r :: rs)))
    = Ok (VReport (VStr py"Research Report")
            (VStr (join NL ([py"# Research Report"; []] ++ sections_from 1 (r :: rs))))
            (VDict [(py"count", VInt (Z.of_nat (length (r :: rs))))]))).
  { unfold _writer_handler. rewrite Hall.
    change (map VResult (r :: rs)) with (VResult r :: map VResult rs).
    cbv beta iota zeta. change (has_snippet (VResult r)) with true. cbv iota.
    change (VResult r :: map VResult rs) with (map VResult (r :: rs)).
    rewrite report_lines_sections. cbn [mbind result_bind bind py_len].
    by rewrite length_map. }
  split; [exact Hlist | by rewrite Hdict, Hlist].
Qed.

(** X12: from a non-empty list of search results the writer builds the
    title line, an empty line, and for each result in order one section of
    four lines (the heading "## Result i: query" numbered from 1, the
    snippet, the source link, an empty line), joined by newlines; the
    metadata count is the number of results. The payload may be the list
    itself or the mapping [{search_results: list}]. *)
Theorem write_results_sections rf (rs : list SearchResultItem) :
  rs <> [] ->
  _writer_handler rf (VList (map VResult rs))
  = Ok (VReport (VStr py"Research Report")
          (VStr (join NL ([py"# Research Report"; []] ++ sections_from 1 rs)))
          (VDict [(py"count", VInt (Z.of_nat (length rs)))]))
  /\ _writer_handler rf (VDict [(py"search_results", VList (map VResult rs))])
     = _writer_handler rf (VList (map VResult rs)).
Proof. apply writer_handler_on_results. Qed.

Lemma write_results_sections_witness :
  exists md,
    _writer_handler (fun _ => []) (VList (map VResult [simulated_result py"x"]))
    = Ok (VReport (VStr py"Research Report") (VStr md) (VDict [(py"count", VInt 1)])).
Proof.
  eexists.
  apply (proj1 (write_results_sections (fun _ => []) [simulated_result py"x"]
                  ltac:(discriminate))).
Defined.

(** X13: a list payload in which some element is not a search result is
    not read element by element: the writer turns the whole payload into
    one text, reports it under "Findings:" as a one-element list, and the
    metadata count is 1 whatever the length of the payload. *)
Theorem write_mixed_list_is_one_finding rf (l : list Value) :
  forallb has_snippet l = false ->
  _writer_handler rf (VList l)
  = Ok (VReport (VStr py"Research Report")
          (VStr (join NL [py"# Research Report"; []; py"Findings:";
                          py_str rf (VList [VStr (py_str rf (VList l))])]))
          (VDict [(py"count", VInt 1)])).
Proof. intros H. unfold _writer_handler. by rewrite H. Qed.

Lemma write_mixed_list_is_one_finding_witness :
  exists md,
    _writer_handler (fun _ => [])
      (VList [VResult (simulated_result py"x"); VInt 3; VInt 4])
    = Ok (VReport (VStr py"Research Report") (VStr md) (VDict [(py"count", VInt 1)])).
Proof.
  eexists.
  apply (write_mixed_list_is_one_finding (fun _ => [])
           [VResult (simulated_result py"x"); VInt 3; VInt 4]).
  reflexivity.
Defined.

(** The values [len] accepts. *)
Definition sized (v : Value) : bool :=
  match v with
  | VStr _ | VList _ | VDict _ => true
  | _ => false
  end.

(** X14: how the writer fails on the mapping payload. When
    [search_results] is neither a string, a list nor a mapping, the writer
    raises the [TypeError] of [len]; when it is a list that starts with a
    search result but holds, after results only, an element that is none,
    the writer raises the [AttributeError] of that element (only the first
    element is checked before the loop). *)
Theorem write_mapping_failures rf :
  (forall v, sized v = false ->
     _writer_handler rf (VDict [(py"search_results", v)])
     = Raise (mkExn TypeError (py"object of type '" ++ type_name v ++ py"' has no len()")))
  /\ (forall r rs bad rest, has_snippet bad = false ->
        exists attr,
          _writer_handler rf
            (VDict [(py"search_results",
                     VList (map VResult (r :: rs) ++ bad :: rest))])
          = Raise (no_attribute bad attr)).
Proof.
  split.
  - intros v Hv. unfold _writer_handler.
    change (dict_get py"search_results" [(py"search_results", v)]) with (Some v).
    cbv beta iota zeta. by destruct v.
  - intros r rs bad rest Hbad.
    assert (Hlines : forall i l,
              exists attr, report_lines i (map VResult l ++ bad :: rest)
                           = Raise (no_attribute bad attr)).
    { intros i l. revert i. induction l as [|x l IH]; intros i.
      - simpl. destruct bad; try done; by eexists.
      - simpl. destruct (IH (S i)) as [attr ->]. by exists attr. }
    destruct (Hlines 1 (r :: rs)) as [attr Hattr]. exists attr.
    unfold _writer_handler.
    change (dict_get py"search_results"
              [(py"search_results", VList (map VResult (r :: rs) ++ bad :: rest))])
      with (Some (VList (map VResult (r :: rs) ++ bad :: rest))).
    cbv beta iota zeta.
    change (map VResult (r :: rs) ++ bad :: rest)
      with (VResult r :: (map VResult rs ++ bad :: rest)).
    cbv beta iota zeta. change (has_snippet (VResult r)) with true. cbv iota.
    change (VResult r :: (map VResult rs ++ bad :: rest))
      with (map VResult (r :: rs) ++ bad :: rest).
    by rewrite Hattr.
Qed.

Lemma write_mapping_failures_witness :
  _writer_handler (fun _ => []) (VDict [(py"search_results", VNone)])
  = Raise (mkExn TypeError py"object of type 'NoneType' has no len()").
Proof.
  apply (proj1 (write_mapping_failures (fun _ => [])) VNone). reflexivity.
Defined.

(** ** The simulated email *)

(** The values a slice accepts. *)
Definition sliceable (v : Value) : bool :=
  match v with
  | VStr _ | VList _ => true
  | _ => false
  end.

(** The body the email handler takes from its payload. *)
Definition email_body rf (payload : Value) : Value :=
  match payload with
  | VReport _ m _ => m
  | VDict d => default (VStr (py_str rf payload)) (dict_get py"markdown_report" d)
  | _ => VStr (py_str rf payload)
  end.

(** X15: the email handler returns "email_sent" when the body it takes
    from the payload is a text or a list, and raises otherwise: for a body
    that is no mapping either, the [TypeError] saying that its type is not
    subscriptable. The body is a text for every payload that is neither a
    [ReportData] nor a mapping with the key [markdown_report], so only
    such a payload, with a body that is neither text nor list, makes the
    handler raise. *)
Theorem email_handler_outcome rf payload :
  (sliceable (email_body rf payload) = true ->
   _email_handler rf payload = Ok (VStr py"email_sent"))
  /\ (sliceable (email_body rf payload) = false ->
      (exists e, _email_handler rf payload = Raise e)
      /\ ((forall d, email_body rf payload <> VDict d) ->
          _email_handler rf payload
          = Raise (mkExn TypeError
                     (py"'" ++ type_name (email_body rf payload)
                      ++ py"' object is not subscriptable"))))
  /\ ((forall t m md, payload <> VReport t m md) ->
      (forall d, payload = VDict d -> dict_get py"markdown_report" d = None) ->
      _email_handler rf payload = Ok (VStr py"email_sent")).
Proof.
  assert (Hbody : _email_handler rf payload
                  = (_ ← py_slice_to 1000 (email_body rf payload); Ok (VStr py"email_sent"))).
  { unfold _email_handler, email_body. by destruct payload. }
  rewrite Hbody. split; [|split].
  - intros H. by destruct (email_body rf payload).
  - intros H. destruct (email_body rf payload) as [| | | | | |d| | | |];
      try done; (split; [by eexists|]); try done.
    intros Hd. by destruct (Hd d).
  - intros Hrep Hdict. unfold email_body. destruct payload; try done.
    + by rewrite (Hdict d eq_refl).
    + by destruct (Hrep payload1 payload2 payload3).
Qed.

Lemma email_handler_outcome_witness :
  _email_handler (fun _ => []) (VReport (VStr py"T") VNone VNone)
  = Raise (mkExn TypeError py"'NoneType' object is not subscriptable").
Proof.
  apply (proj2 (proj1 (proj2 (email_handler_outcome (fun _ => [])
                                (VReport (VStr py"T") VNone VNone)))
                  eq_refl)).
  intros d. discriminate.
Defined.

(** ** The registry and the runner *)

(** X16: registering and running. After [register_agent_handler agent h],
    running any agent of the same name calls [h] (so the last registration
    for a name wins) and wraps what it returns, an exception of the handler
    passing through unchanged; agents of other names are run as before;
    and running an agent without a registered handler raises a
    [RuntimeError] whose message holds the name of the agent. *)
Theorem runner_register_lookup (handlers : gmap str handler) (agent agent' : Agent)
    (h : handler) (payload : Value) :
  (name agent' = name agent ->
   Runner_run (register_agent_handler agent h handlers) agent' payload
   = match h agent' payload with
     | Ok out => Ok (mkRunnerResult out)
     | Raise e => Raise e
     end)
  /\ (name agent' <> name agent ->
      Runner_run (register_agent_handler agent h handlers) agent' payload
      = Runner_run handlers agent' payload)
  /\ (handlers !! name agent' = None ->
      exists msg, Runner_run handlers agent' payload = Raise (mkExn RuntimeError msg)
                  /\ occurs_in (name agent') msg).
Proof.
  unfold Runner_run, register_agent_handler. repeat split.
  - intros ->. rewrite lookup_insert_eq. by destruct (h agent' payload).
  - intros Hne. by rewrite lookup_insert_ne.
  - intros ->. eexists. split; [done|].
    by exists py"No handler registered for agent '", py"'".
Qed.

Lemma runner_register_lookup_witness :
  exists msg,
    Runner_run (∅ : gmap str handler) planner_agent (VStr py"q")
    = Raise (mkExn RuntimeError msg)
    /\ occurs_in (name planner_agent) msg.
Proof.
  apply (proj2 (proj2 (runner_register_lookup ∅ planner_agent planner_agent
                         (fun _ v => Ok v) (VStr py"q")))).
  reflexivity.
Defined.

(** ** The manager, stage by stage *)

Lemma Runner_run_found (handlers : gmap str handler) agent h payload :
  handlers !! name agent = Some h ->
  Runner_run handlers agent payload = (out ← h agent payload; Ok (mkRunnerResult out)).
Proof. intros H. unfold Runner_run. by rewrite H. Qed.

(** The stages before the email stage, over any registry. *)
Lemma manager_until_email (rf : PyFloat -> str) (handlers : gmap str handler)
    (agent : Agent) (q : str) (plan_h search_h write_h : handler)
    (plan : Planner.WebSearchPlan) (results : list Value) (title md meta : Value) :
  handlers !! name planner_agent = Some plan_h ->
  handlers !! name search_agent = Some search_h ->
  handlers !! name writer_agent = Some write_h ->
  plan_h planner_agent (VStr q) = Ok (VPlan plan) ->
  search_h search_agent (VList (map VItem (Planner.searches plan))) = Ok (VList results) ->
  write_h writer_agent (VDict [(py"search_results", VList results)])
    = Ok (VReport title md meta) ->
  _manager_handler rf handlers agent (VStr q)
  = (_ ← Runner_run handlers email_agent (VReport title md meta);
     Ok (VReport title md meta)).
Proof.
  intros Hp Hs Hw Hplan Hsearch Hwrite.
  unfold _manager_handler.
  cbn [mbind result_bind bind]. rewrite (Runner_run_found _ _ _ _ Hp), Hplan.
  cbn [mbind result_bind bind output py_len].
  rewrite (Runner_run_found _ _ _ _ Hs), Hsearch.
  cbn [mbind result_bind bind output py_len].
  rewrite (Runner_run_found _ _ _ _ Hw), Hwrite.
  cbn [mbind result_bind bind output]. reflexivity.
Qed.

(** X17: a planner outcome of the wrong shape is fatal. Over any
    registry, if the planner handler returns a value that is neither a
    [WebSearchPlan] nor a mapping with the key [searches], the manager
    raises [RuntimeError("Planner did not return a WebSearchPlan")],
    whatever the other handlers are. *)
Theorem manager_rejects_planner_shape (rf : PyFloat -> str)
    (handlers : gmap str handler) (agent : Agent) (q : str) (plan_h : handler)
    (out : Value) :
  handlers !! name planner_agent = Some plan_h ->
  plan_h planner_agent (VStr q) = Ok out ->
  match out with
  | VPlan _ => False
  | VDict d => dict_get py"searches" d = None
  | _ => True
  end ->
  _manager_handler rf handlers agent (VStr q)
  = Raise (mkExn RuntimeError py"Planner did not return a WebSearchPlan").
Proof.
  intros Hp Hout Hshape. unfold _manager_handler.
  cbn [mbind result_bind bind]. rewrite (Runner_run_found _ _ _ _ Hp), Hout.
  cbn [mbind result_bind bind output].
  destruct out; try done. by rewrite Hshape.
Qed.

Lemma manager_rejects_planner_shape_witness :
  _manager_handler (fun _ => [])
    (register_agent_handler planner_agent (fun _ _ => Ok (VStr py"no plan")) ∅)
    manager_agent (VStr py"q")
  = Raise (mkExn RuntimeError py"Planner did not return a WebSearchPlan").
Proof.
  apply (manager_rejects_planner_shape (fun _ => []) _ manager_agent py"q"
           (fun _ _ => Ok (VStr py"no plan")) (VStr py"no plan"));
    [apply lookup_insert_eq | reflexivity | exact I].
Defined.

Lemma local_stages rf q :
  let plan := Planner._planner_handler q in
  let rs := map (fun it => simulated_result (Planner.query it)) (Planner.searches plan) in
  exists md,
    planner_handler rf planner_agent (VStr q) = Ok (VPlan plan)
    /\ search_handler rf search_agent (VList (map VItem (Planner.searches plan)))
       = Ok (VList (map VResult rs))
    /\ writer_handler rf writer_agent (VDict [(py"search_results", VList (map VResult rs))])
       = Ok (VReport (VStr py"Research Report") (VStr md)
               (VDict [(py"count", VInt (Z.of_nat (length (Planner.searches plan))))])).
Proof.
  intros plan rs.
  assert (Hs : search_handler rf search_agent (VList (map VItem (Planner.searches plan)))
               = Ok (VList (map VResult rs))).
  { unfold search_handler, _search_handler. rewrite search_loop_items. subst rs.
    by rewrite map_map. }
  assert (Hlen : length rs = length (Planner.searches plan)) by (subst rs; apply length_map).
  destruct rs as [|r rs'] eqn:Hrs.
  - eexists. split; [done|]. split; [done|]. rewrite <- Hlen. reflexivity.
  - eexists. split; [done|]. split; [done|]. unfold writer_handler.
    rewrite (proj2 (writer_handler_on_results rf (r :: rs') ltac:(discriminate))).
    rewrite (proj1 (writer_handler_on_results rf (r :: rs') ltac:(discriminate))).
    by rewrite Hlen.
Qed.

(** X18: the email stage is not isolated. For every query, with the
    planner, search and writer handlers of the local modules and any
    handler registered for the email agent: if that handler raises, the
    run of the manager raises the same exception and returns no report;
    and if no handler is registered for the email agent at all, the run
    raises the [RuntimeError] of the runner. *)
Theorem manager_email_failure_fails_run (rf : PyFloat -> str) (q : str) :
  exists report,
    (forall (send : handler) e,
       send email_agent report = Raise e ->
       _manager_handler rf
         (register_agent_handler email_agent send (tool_handlers rf))
         manager_agent (VStr q)
       = Raise e)
    /\ _manager_handler rf (delete (name email_agent) (tool_handlers rf))
         manager_agent (VStr q)
       = Raise (mkExn RuntimeError py"No handler registered for agent 'EmailAgent'").
Proof.
  destruct (local_stages rf q) as (md & Hplan & Hsearch & Hwrite).
  destruct (tool_handlers_lookup rf) as (Hp & Hs & Hw & He).
  eexists. split.
  - intros send e Hsend.
    assert (Hp' : register_agent_handler email_agent send (tool_handlers rf)
                    !! name planner_agent = Some (planner_handler rf))
      by (unfold register_agent_handler; by rewrite lookup_insert_ne).
    assert (Hs' : register_agent_handler email_agent send (tool_handlers rf)
                    !! name search_agent = Some (search_handler rf))
      by (unfold register_agent_handler; by rewrite lookup_insert_ne).
    assert (Hw' : register_agent_handler email_agent send (tool_handlers rf)
                    !! name writer_agent = Some (writer_handler rf))
      by (unfold register_agent_handler; by rewrite lookup_insert_ne).
    rewrite (manager_until_email rf _ manager_agent q _ _ _ _ _ _ _ _
               Hp' Hs' Hw' Hplan Hsearch Hwrite).
    unfold Runner_run, register_agent_handler. rewrite lookup_insert_eq.
    cbn [mbind result_bind bind]. by rewrite Hsend.
  - assert (Hp' : delete (name email_agent) (tool_handlers rf)
                    !! name planner_agent = Some (planner_handler rf))
      by (by rewrite lookup_delete_ne).
    assert (Hs' : delete (name email_agent) (tool_handlers rf)
                    !! name search_agent = Some (search_handler rf))
      by (by rewrite lookup_delete_ne).
    assert (Hw' : delete (name email_agent) (tool_handlers rf)
                    !! name writer_agent = Some (writer_handler rf))
      by (by rewrite lookup_delete_ne).
    rewrite (manager_until_email rf _ manager_agent q _ _ _ _ _ _ _ _
               Hp' Hs' Hw' Hplan Hsearch Hwrite).
    unfold Runner_run. by rewrite lookup_delete_eq.
Qed.

(** X19: the writer may answer with a mapping. Over any registry in
    which the planner returns a plan and the search returns a list, if the
    writer handler returns a mapping that has the key [markdown_report],
    the manager builds the report from the mapping: the run returns that
    report once the email handler returns, and raises the [TypeError] of
    the constructor when the mapping lacks [title] or holds a key that is
    no field; a mapping without [markdown_report] makes the run raise
    [RuntimeError("Writer did not return a ReportData")]. *)
Theorem manager_coerces_writer_mapping (rf : PyFloat -> str)
    (handlers : gmap str handler) (agent : Agent) (q : str)
    (plan_h search_h write_h send_h : handler)
    (plan : Planner.WebSearchPlan) (results : list Value) (d : list (str * Value)) :
  handlers !! name planner_agent = Some plan_h ->
  handlers !! name search_agent = Some search_h ->
  handlers !! name writer_agent = Some write_h ->
  handlers !! name email_agent = Some send_h ->
  plan_h planner_agent (VStr q) = Ok (VPlan plan) ->
  search_h search_agent (VList (map VItem (Planner.searches plan))) = Ok (VList results) ->
  write_h writer_agent (VDict [(py"search_results", VList results)]) = Ok (VDict d) ->
  (dict_get py"markdown_report" d = None ->
   _manager_handler rf handlers agent (VStr q)
   = Raise (mkExn RuntimeError py"Writer did not return a ReportData"))
  /\ (dict_get py"markdown_report" d <> None ->
      (forall e, construct_report d = Raise e ->
         _manager_handler rf handlers agent (VStr q) = Raise e)
      /\ (forall report status,
            construct_report d = Ok report -> send_h email_agent report = Ok status ->
            _manager_handler rf handlers agent (VStr q) = Ok report)).
Proof.
  intros Hp Hs Hw He Hplan Hsearch Hwrite.
  assert (Hrun : _manager_handler rf handlers agent (VStr q)
                 = (report ← match dict_get py"markdown_report" d with
                             | Some _ => construct_report d
                             | None =>
                                 Raise (mkExn RuntimeError py"Writer did not return a ReportData")
                             end;
                    _ ← Runner_run handlers email_agent report;
                    Ok report)).
  { unfold _manager_handler.
    cbn [mbind result_bind bind]. rewrite (Runner_run_found _ _ _ _ Hp), Hplan.
    cbn [mbind result_bind bind output py_len].
    rewrite (Runner_run_found _ _ _ _ Hs), Hsearch.
    cbn [mbind result_bind bind output py_len].
    rewrite (Runner_run_found _ _ _ _ Hw), Hwrite.
    cbn [mbind result_bind bind output]. reflexivity. }
  rewrite Hrun. split.
  - by intros ->.
  - intros Hsome. destruct (dict_get py"markdown_report" d); [|done]. split.
    + by intros e ->.
    + intros report status -> Hsend. cbn [mbind result_bind bind].
      unfold Runner_run. rewrite He. cbn [mbind result_bind bind]. by rewrite Hsend.
Qed.

Definition mapping_writer : handler :=
  fun _ _ => Ok (VDict [(py"markdown_report", VStr py"M")]).

Lemma manager_coerces_writer_mapping_witness :
  _manager_handler (fun _ => [])
    (register_agent_handler writer_agent mapping_writer (tool_handlers (fun _ => [])))
    manager_agent (VStr py"x")
  = Raise (mkExn TypeError
             py"ReportData.__init__() missing 1 required positional argument: 'title'").
Proof.
  refine (proj1 (proj2 (manager_coerces_writer_mapping (fun _ => [])
            (register_agent_handler writer_agent mapping_writer (tool_handlers (fun _ => [])))
            manager_agent py"x"
            (planner_handler (fun _ => [])) (search_handler (fun _ => [])) mapping_writer
            (email_handler (fun _ => []))
            (Planner._planner_handler py"x")
            (map (fun it => VResult (simulated_result (Planner.query it)))
               (Planner.searches (Planner._planner_handler py"x")))
            [(py"markdown_report", VStr py"M")] _ _ _ _ _ _ _) _) _ _);
    try (unfold register_agent_handler, tool_handlers;
         repeat (rewrite lookup_insert_ne by done); by rewrite lookup_insert_eq);
    try reflexivity.
  discriminate.
Defined.

(** X20: the whole run, for every query. The report that [Manager.run]
    returns is titled "Research Report", its metadata count is the number
    of searches of the plan, which is at most five, and it is the report
    the writer gives for the simulated results of these searches in the
    order of the plan. *)
Theorem manager_run_report (rf : PyFloat -> str) (q : str) :
  exists md,
    manager_run rf q
    = Ok (VReport (VStr py"Research Report") (VStr md)
            (VDict [(py"count",
                     VInt (Z.of_nat (length (Planner.searches (Planner._planner_handler q)))))]))
    /\ manager_run rf q
       = _writer_handler rf
           (VList (map (fun it => VResult (simulated_result (Planner.query it)))
                     (Planner.searches (Planner._planner_handler q))))
    /\ length (Planner.searches (Planner._planner_handler q)) <= 5.
Proof.
  destruct (local_stages rf q) as (md & Hplan & Hsearch & Hwrite).
  destruct (tool_handlers_lookup rf) as (Hp & Hs & Hw & He).
  exists md.
  assert (Hrun : manager_run rf q
                 = Ok (VReport (VStr py"Research Report") (VStr md)
                         (VDict [(py"count",
                            VInt (Z.of_nat (length (Planner.searches
                                                      (Planner._planner_handler q)))))]))).
  { unfold manager_run, local_handlers.
    rewrite (Runner_run_found _ manager_agent (_manager_handler rf (tool_handlers rf)))
      by (unfold register_agent_handler; apply lookup_insert_eq).
    rewrite (manager_until_email rf _ manager_agent q _ _ _ _ _ _ _ _
               Hp Hs Hw Hplan Hsearch Hwrite).
    by rewrite (Runner_run_found _ _ _ _ He). }
  split; [exact Hrun|]. split.
  - rewrite Hrun. unfold writer_handler in Hwrite. rewrite <- Hwrite.
    rewrite <- (map_map (fun it => simulated_result (Planner.query it)) VResult).
    generalize (map (fun it => simulated_result (Planner.query it))
                  (Planner.searches (Planner._planner_handler q))).
    intros [|r rs']; [reflexivity|].
    apply (proj2 (writer_handler_on_results rf (r :: rs') ltac:(discriminate))).
  - rewrite plan_validated, assign_ranks_length.
    unfold validate_and_refine_searches.
    assert (Hn : (1 <= determine_search_count q MIN_SEARCHES MAX_SEARCHES <= 5)%Z).
    { rewrite determine_search_count_signals. unfold signal_count, clamp.
      destruct (long_query q), (has_delimiter q), (has_question_word QUESTION_WORDS q),
        (has_list_marker q); simpl Z.b2z; lia. }
    rewrite slice_to_length by lia. lia.
Qed.

(** ** The LLM-backed planner, by the shape of the answer *)

Lemma normalize_simulated_items_ranks rf fos ios i parts :
  exists xs,
    LlmPlanner.normalize_items rf fos ios i (LlmPlanner.simulated_items i parts) = Ok xs
    /\ length xs = length parts
    /\ forall k x, xs !! k = Some x ->
         LlmPlanner.rank x = (i + Z.of_nat k)%Z /\ exists s, LlmPlanner.query x = VStr s.
Proof.
  revert i. induction parts as [|p parts IH]; intros i.
  - exists []. by repeat split.
  - destruct (IH (i + 1)%Z) as (xs & Hxs & Hlen & Hrank).
    simpl. rewrite Hxs. eexists. split; [reflexivity|]. split; [simpl; by rewrite Hlen|].
    intros [|k] x Hx; simpl in Hx.
    + injection Hx as <-. simpl. split; [lia | by eexists].
    + destruct (Hrank k x Hx) as [Hr Hq]. split; [lia | done].
Qed.

(** The list under [searches] in the outcome of [_simulated_planner]. *)
Definition simulated_searches (payload : str) : list Value :=
  let parts := Planner.re_split LlmPlanner.SPLIT_ALTS payload in
  let parts := map strip (filter (fun p => Planner.is_empty (strip p) = false) parts) in
  let out := LlmPlanner.simulated_items 1 (take 3 parts) in
  match out with
  | [] => [VDict [ (py"query", VStr payload); (py"reason", VStr py"keyword");
                   (py"priority", VFloat (FNum (1 # 2))); (py"rank", VInt 1) ]]
  | _ => out
  end.

Lemma simulated_planner_searches payload :
  LlmPlanner._simulated_planner payload = VDict [(py"searches", VList (simulated_searches payload))].
Proof. reflexivity. Qed.

Lemma normalize_simulated_searches rf fos ios payload :
  exists xs,
    LlmPlanner.normalize_items rf fos ios 1 (simulated_searches payload) = Ok xs
    /\ 1 <= length xs <= 3
    /\ forall k x, xs !! k = Some x ->
         LlmPlanner.rank x = (1 + Z.of_nat k)%Z /\ exists s, LlmPlanner.query x = VStr s.
Proof.
  unfold simulated_searches. set (parts := take 3 _).
  assert (Hparts : length parts <= 3) by (subst parts; rewrite length_take; lia).
  destruct parts as [|p parts'].
  - eexists. split; [reflexivity|]. split; [simpl; lia|].
    intros [|k] x Hx; [|done]. injection Hx as <-. simpl. split; [done | by eexists].
  - destruct (normalize_simulated_items_ranks rf fos ios 1 (p :: parts'))
      as (xs & Hxs & Hlen & Hrank).
    exists xs. split; [exact Hxs|]. split; [|done]. rewrite Hlen. simpl in *. lia.
Qed.

Lemma llm_planner_fallback_items json_loads rf fos ios llm payload :
  match llm with
  | Raise _ => True
  | Ok text => exists s, _extract_json_from_text json_loads text = VStr s
  end ->
  exists items,
    LlmPlanner._planner_handler json_loads rf fos ios llm payload
    = Ok (LlmPlanner.mkPlan items)
    /\ 1 <= length items <= 3
    /\ forall k x, items !! k = Some x ->
         LlmPlanner.rank x = (1 + Z.of_nat k)%Z /\ exists s, LlmPlanner.query x = VStr s.
Proof.
  intros Hllm.
  assert (Hrun :
    LlmPlanner._planner_handler json_loads rf fos ios llm payload
    = (searches ← LlmPlanner.normalize_items rf fos ios 1 (simulated_searches payload);
       Ok (LlmPlanner.mkPlan searches))).
  { unfold LlmPlanner._planner_handler. destruct llm as [text|e].
    - destruct Hllm as [s ->]. by rewrite simulated_planner_searches.
    - by rewrite simulated_planner_searches. }
  rewrite Hrun.
  destruct (normalize_simulated_searches rf fos ios payload) as (xs & -> & Hlen & Hrank).
  by exists xs.
Qed.

(** X21: the fallback of the LLM-backed planner. When the call of the
    model raises, or when the extractor returns a string for its answer,
    the handler returns a plan (it does not raise) with at least one and
    at most three searches, whose ranks are 1, 2, ... in order and whose
    queries are texts. *)
Theorem llm_planner_fallback_plan json_loads rf fos ios llm payload :
  match llm with
  | Raise _ => True
  | Ok text => exists s, _extract_json_from_text json_loads text = VStr s
  end ->
  exists items,
    LlmPlanner._planner_handler json_loads rf fos ios llm payload
    = Ok (LlmPlanner.mkPlan items)
    /\ 1 <= length items <= 3
    /\ forall k x, items !! k = Some x ->
         LlmPlanner.rank x = (1 + Z.of_nat k)%Z /\ exists s, LlmPlanner.query x = VStr s.
Proof. apply llm_planner_fallback_items. Qed.

Lemma llm_planner_fallback_plan_witness :
  exists items,
    LlmPlanner._planner_handler Json.loads (fun _ => []) (fun _ => None) (fun _ => None)
      (Ok py"I cannot answer that.") py"rust and go"
    = Ok (LlmPlanner.mkPlan items)
    /\ 1 <= length items <= 3
    /\ forall k x, items !! k = Some x ->
         LlmPlanner.rank x = (1 + Z.of_nat k)%Z /\ exists s, LlmPlanner.query x = VStr s.
Proof.
  apply (llm_planner_fallback_plan Json.loads (fun _ => []) (fun _ => None) (fun _ => None)
           (Ok py"I cannot answer that.") py"rust and go").
  exists py"I cannot answer that.". vm_compute. reflexivity.
Defined.

(** X22: an answer that decodes to a JSON object without the key
    [searches] gives an empty plan: the handler returns a [WebSearchPlan]
    with no search (the default of [parsed.get("searches", [])]), below the
    "1..6 items" the prompt asks for, and does not fall back. *)
Theorem llm_planner_object_without_searches json_loads rf fos ios text payload d :
  _extract_json_from_text json_loads text = VDict d ->
  dict_get py"searches" d = None ->
  LlmPlanner._planner_handler json_loads rf fos ios (Ok text) payload
  = Ok (LlmPlanner.mkPlan []).
Proof.
  intros Hd Hs. unfold LlmPlanner._planner_handler. rewrite Hd.
  cbn [mbind result_bind bind]. by rewrite Hs.
Qed.

Lemma llm_planner_object_without_searches_witness :
  LlmPlanner._planner_handler Json.loads (fun _ => []) (fun _ => None) (fun _ => None)
    (Ok py"{}") py"rust"
  = Ok (LlmPlanner.mkPlan []).
Proof.
  apply (llm_planner_object_without_searches Json.loads _ _ _ py"{}" py"rust" []);
    reflexivity.
Defined.

(** X23: whenever the extractor returns, for the answer of the model, a
    value that is neither a string nor a mapping (a list, a number, a
    boolean, [None]), the handler raises the [AttributeError] of
    [parsed.get], naming the type of that value, whatever the payload:
    the check before the normalisation only looks for a string. *)
Theorem llm_planner_raises_on_other_shapes json_loads rf fos ios text payload :
  match _extract_json_from_text json_loads text with
  | VStr _ | VDict _ => False
  | _ => True
  end ->
  LlmPlanner._planner_handler json_loads rf fos ios (Ok text) payload
  = Raise (mkExn AttributeError
             (py"'" ++ type_name (_extract_json_from_text json_loads text)
              ++ py"' object has no attribute 'get'")).
Proof.
  intros H. unfold LlmPlanner._planner_handler.
  by destruct (_extract_json_from_text json_loads text).
Qed.

Lemma llm_planner_raises_on_other_shapes_witness :
  LlmPlanner._planner_handler Json.loads (fun _ => []) (fun _ => None) (fun _ => None)
    (Ok py"42") py"rust"
  = Raise (mkExn AttributeError py"'int' object has no attribute 'get'").
Proof.
  apply (llm_planner_raises_on_other_shapes Json.loads (fun _ => []) (fun _ => None)
           (fun _ => None) py"42" py"rust").
  exact I.
Defined.

(** ** The LLM-backed writer ([llm_local/writer_agent.py]) *)

(** The name of the class of an element of the results. *)
Definition element_type (e : LlmWriter.element) : str :=
  match e with
  | LlmWriter.EResult _ => py"SearchResultItem"
  | LlmWriter.EValue v => type_name v
  end.

Definition no_get (e : LlmWriter.element) : exn :=
  mkExn AttributeError (py"'" ++ element_type e ++ py"' object has no attribute 'get'").

Definition is_mapping (e : LlmWriter.element) : bool :=
  match e with
  | LlmWriter.EValue (VDict _) => true
  | _ => false
  end.

(** The model does not answer with a JSON object. *)
Definition no_object json_loads (llm : result str) : Prop :=
  match llm with
  | Raise _ => True
  | Ok text =>
      match _extract_json_from_text json_loads text with VDict _ => False | _ => True end
  end.

Lemma llm_report_lines_needs_get rf i e rest :
  is_mapping e = false ->
  LlmWriter.report_lines rf i (e :: rest) = Raise (no_get e).
Proof. intros He. destruct e as [r|v]; [done|]. by destruct v. Qed.

Lemma llm_simulated_writer_needs_get rf e rest :
  is_mapping e = false ->
  LlmWriter._simulated_writer rf (LlmWriter.PList (e :: rest)) = Raise (no_get e)
  /\ LlmWriter._simulated_writer rf (LlmWriter.PResults (e :: rest)) = Raise (no_get e).
Proof.
  intros He. unfold LlmWriter._simulated_writer, LlmWriter.results_of.
  cbn [mbind result_bind bind LlmWriter.iter_results].
  by rewrite (llm_report_lines_needs_get rf 1 e rest He).
Qed.

Lemma llm_writer_handler_fallback json_loads rf llm p l :
  no_object json_loads llm ->
  LlmWriter.results_of p (LlmWriter.as_results p) = Ok (LlmWriter.RList l) ->
  LlmWriter._writer_handler json_loads rf llm p
  = (parsed ← LlmWriter._simulated_writer rf p;
     match parsed with
     | VDict d =>
         Ok (VReport (default (VStr py"Research Report") (dict_get py"title" d))
               (default (VStr (py_str rf parsed)) (dict_get py"markdown_report" d))
               (default (VDict []) (dict_get py"metadata" d)))
     | _ => Raise (no_attribute parsed py"get")
     end).
Proof.
  intros Hllm Hres. unfold LlmWriter._writer_handler. rewrite Hres.
  cbn [mbind result_bind bind LlmWriter.iter_results].
  destruct llm as [text|e]; [|done].
  unfold no_object in Hllm.
  by destruct (_extract_json_from_text json_loads text).
Qed.

(** X24: the fallback of the LLM-backed writer cannot read search result
    objects. [getattr(r, "query", r.get(...))] evaluates [r.get] first, so
    on results whose first element is not a mapping (a [SearchResultItem],
    a string, ...) [_simulated_writer] raises the [AttributeError] on
    [get]; and whenever the call of the model raises or its answer is not
    a JSON object, [_writer_handler] raises it too, for the list and for
    the mapping [{search_results: list}] that the manager sends. *)
Theorem llm_writer_fallback_rejects_objects json_loads rf llm e rest :
  is_mapping e = false ->
  no_object json_loads llm ->
  LlmWriter._simulated_writer rf (LlmWriter.PList (e :: rest)) = Raise (no_get e)
  /\ LlmWriter._writer_handler json_loads rf llm (LlmWriter.PList (e :: rest))
     = Raise (no_get e)
  /\ LlmWriter._writer_handler json_loads rf llm (LlmWriter.PResults (e :: rest))
     = Raise (no_get e).
Proof.
  intros He Hllm.
  destruct (llm_simulated_writer_needs_get rf e rest He) as [Hlist Hdict].
  split; [exact Hlist|]. split.
  - rewrite (llm_writer_handler_fallback json_loads rf llm
               (LlmWriter.PList (e :: rest)) (e :: rest) Hllm eq_refl).
    by rewrite Hlist.
  - rewrite (llm_writer_handler_fallback json_loads rf llm
               (LlmWriter.PResults (e :: rest)) (e :: rest) Hllm eq_refl).
    by rewrite Hdict.
Qed.

Lemma llm_writer_fallback_rejects_objects_witness :
  LlmWriter._writer_handler Json.loads (fun _ => [])
    (Raise (mkExn RuntimeError py"OPENAI_API_KEY not configured in environment."))
    (LlmWriter.PResults
       [LlmWriter.EResult (LlmSearch.mkResult (VStr py"x") (VStr py"s") (VStr py"u"))])
  = Raise (mkExn AttributeError py"'SearchResultItem' object has no attribute 'get'").
Proof.
  apply (llm_writer_fallback_rejects_objects Json.loads (fun _ => [])
           (Raise (mkExn RuntimeError py"OPENAI_API_KEY not configured in environment."))
           (LlmWriter.EResult (LlmSearch.mkResult (VStr py"x") (VStr py"s") (VStr py"u")))
           []); [reflexivity | exact I].
Defined.

(** The lines [_simulated_writer] builds for results that are mappings,
    numbered from [i]. *)
Definition llm_heading rf (i : nat) (d : list (str * Value)) : str :=
  py"## Result " ++ of_nat i ++ py": "
  ++ py_str rf (default (VStr (py_str rf (VDict d))) (dict_get py"query" d)).

Definition llm_snippet (d : list (str * Value)) : Value :=
  default (VStr []) (dict_get py"snippet" d).

Definition llm_link rf (d : list (str * Value)) : str :=
  py"[source](" ++ py_str rf (default (VStr []) (dict_get py"url" d)) ++ py")".

Fixpoint llm_sections rf (i : nat) (ds : list (list (str * Value))) : list Value :=
  match ds with
  | [] => []
  | d :: ds' =>
      [VStr (llm_heading rf i d); llm_snippet d; VStr (llm_link rf d); VStr []]
      ++ llm_sections rf (S i) ds'
  end.

Definition text_snippet (d : list (str * Value)) : Prop :=
  exists s, llm_snippet d = VStr s.

(** A list of mappings as a list of results. *)
Definition mappings (ds : list (list (str * Value))) : list LlmWriter.element :=
  map (fun d => LlmWriter.EValue (VDict d)) ds.

Lemma llm_report_lines_mappings rf i ds :
  LlmWriter.report_lines rf i (mappings ds) = Ok (llm_sections rf i ds).
Proof.
  revert i. induction ds as [|d ds IH]; intros i; [done|].
  simpl. unfold mappings in IH. by rewrite IH.
Qed.

Lemma join_items_texts k texts rest :
  LlmWriter.join_items k (map VStr texts ++ rest)
  = (more ← LlmWriter.join_items (k + length texts) rest; Ok (texts ++ more)).
Proof.
  revert k. induction texts as [|t texts IH]; intros k.
  - simpl. rewrite Nat.add_0_r. by destruct (LlmWriter.join_items k rest).
  - simpl. rewrite IH. replace (S k + length texts) with (k + S (length texts)) by lia.
    by destruct (LlmWriter.join_items _ rest).
Qed.

Lemma join_items_all k texts : LlmWriter.join_items k (map VStr texts) = Ok texts.
Proof.
  rewrite <- (app_nil_r (map VStr texts)), join_items_texts.
  cbn [mbind result_bind bind LlmWriter.join_items]. by rewrite app_nil_r.
Qed.

Lemma llm_sections_texts rf i ds :
  Forall text_snippet ds ->
  exists texts, llm_sections rf i ds = map VStr texts /\ length texts = 4 * length ds.
Proof.
  intros H. revert i. induction H as [|d ds [s Hs] _ IH]; intros i.
  - by exists [].
  - destruct (IH (S i)) as (texts & Ht & Hlen).
    exists ([llm_heading rf i d; s; llm_link rf d; []] ++ texts). split.
    + simpl. by rewrite Hs, Ht.
    + simpl in *. lia.
Qed.

Lemma llm_sections_app rf i ds1 ds2 :
  llm_sections rf i (ds1 ++ ds2)
  = llm_sections rf i ds1 ++ llm_sections rf (i + length ds1) ds2.
Proof.
  revert i. induction ds1 as [|d ds1 IH]; intros i.
  - simpl. by rewrite Nat.add_0_r.
  - simpl. rewrite IH. by replace (S i + length ds1) with (i + S (length ds1)) by lia.
Qed.

(** X25: on results that are mappings whose [snippet] is a text (or is
    missing), the fallback of the LLM-backed writer returns: the markdown
    is the title line followed by four lines for each result in order,
    joined by newlines, and the metadata count is the number of results.
    When the call of the model raises or its answer is not a JSON object,
    [_writer_handler] returns that report. *)
Theorem llm_writer_fallback_on_mappings json_loads rf llm ds :
  Forall text_snippet ds ->
  no_object json_loads llm ->
  exists texts,
    map VStr texts = llm_sections rf 1 ds
    /\ length texts = 4 * length ds
    /\ LlmWriter._simulated_writer rf (LlmWriter.PList (mappings ds))
       = Ok (VDict [ (py"title", VStr py"Research Report");
                     (py"markdown_report",
                      VStr (join ["010"%char]
                              ((py"# Research Report" ++ ["010"%char]) :: texts)));
                     (py"metadata", VDict [(py"count", VInt (Z.of_nat (length ds)))]) ])
    /\ LlmWriter._writer_handler json_loads rf llm (LlmWriter.PList (mappings ds))
       = Ok (VReport (VStr py"Research Report")
               (VStr (join ["010"%char]
                        ((py"# Research Report" ++ ["010"%char]) :: texts)))
               (VDict [(py"count", VInt (Z.of_nat (length ds)))])).
Proof.
  intros Hds Hllm.
  destruct (llm_sections_texts rf 1 ds Hds) as (texts & Ht & Hlen).
  exists texts. split; [done|]. split; [done|].
  assert (Hsim :
    LlmWriter._simulated_writer rf (LlmWriter.PList (mappings ds))
    = Ok (VDict [ (py"title", VStr py"Research Report");
                  (py"markdown_report",
                   VStr (join ["010"%char]
                           ((py"# Research Report" ++ ["010"%char]) :: texts)));
                  (py"metadata", VDict [(py"count", VInt (Z.of_nat (length ds)))]) ])).
  { unfold LlmWriter._simulated_writer, LlmWriter.results_of.
    cbn [mbind result_bind bind LlmWriter.iter_results].
    rewrite llm_report_lines_mappings, Ht.
    cbn [mbind result_bind bind].
    change (VStr (py"# Research Report" ++ ["010"%char]) :: map VStr texts)
      with (map VStr ((py"# Research Report" ++ ["010"%char]) :: texts)).
    rewrite join_items_all.
    cbn [mbind result_bind bind LlmWriter.len_results].
    unfold mappings. by rewrite length_map. }
  split; [exact Hsim|].
  rewrite (llm_writer_handler_fallback json_loads rf llm
             (LlmWriter.PList (mappings ds)) (mappings ds) Hllm eq_refl).
  by rewrite Hsim.
Qed.

Lemma llm_writer_fallback_on_mappings_witness :
  exists texts,
    length texts = 4
    /\ LlmWriter._writer_handler Json.loads (fun _ => [])
         (Ok py"no report today") (LlmWriter.PList (mappings [[(py"query", VStr py"x")]]))
       = Ok (VReport (VStr py"Research Report")
               (VStr (join ["010"%char]
                        ((py"# Research Report" ++ ["010"%char]) :: texts)))
               (VDict [(py"count", VInt 1)])).
Proof.
  destruct (llm_writer_fallback_on_mappings Json.loads (fun _ => [])
              (Ok py"no report today") [[(py"query", VStr py"x")]])
    as (texts & _ & Hlen & _ & Hrun).
  - constructor; [by exists [] | constructor].
  - vm_compute. exact I.
  - exists texts. split; [exact Hlen | exact Hrun].
Defined.

(** X26: a result whose [snippet] is not a text makes the fallback of the
    LLM-backed writer raise at the join. If the results are mappings, the
    first [k] with text snippets and the next with a snippet of another
    type, [_simulated_writer] raises the [TypeError] of [str.join] for
    the item [4k + 2] of the lines, naming that type. *)
Theorem llm_writer_fallback_snippet_type rf pre d post :
  Forall text_snippet pre ->
  match llm_snippet d with VStr _ => False | _ => True end ->
  LlmWriter._simulated_writer rf (LlmWriter.PList (mappings (pre ++ d :: post)))
  = Raise (mkExn TypeError
             (py"sequence item " ++ of_nat (4 * length pre + 2)
              ++ py": expected str instance, " ++ type_name (llm_snippet d) ++ py" found")).
Proof.
  intros Hpre Hd.
  destruct (llm_sections_texts rf 1 pre Hpre) as (texts & Ht & Hlen).
  unfold LlmWriter._simulated_writer, LlmWriter.results_of.
  cbn [mbind result_bind bind LlmWriter.iter_results].
  rewrite llm_report_lines_mappings, llm_sections_app, Ht.
  cbn [mbind result_bind bind].
  assert (Hl :
    VStr (py"# Research Report" ++ ["010"%char])
      :: map VStr texts ++ llm_sections rf (1 + length pre) (d :: post)
    = map VStr ((py"# Research Report" ++ ["010"%char])
                :: texts ++ [llm_heading rf (1 + length pre) d])
      ++ llm_snippet d :: VStr (llm_link rf d) :: VStr []
         :: llm_sections rf (S (1 + length pre)) post).
  { cbn [map llm_sections app]. rewrite map_app. cbn [map app].
    by rewrite <- app_assoc. }
  rewrite Hl.
  rewrite join_items_texts.
  replace (0 + length ((py"# Research Report" ++ ["010"%char])
                       :: texts ++ [llm_heading rf (1 + length pre) d]))
    with (4 * length pre + 2) by (simpl; rewrite length_app; simpl; lia).
  destruct (llm_snippet d); try done.
Qed.

Lemma llm_writer_fallback_snippet_type_witness :
  LlmWriter._simulated_writer (fun _ => [])
    (LlmWriter.PList
       (mappings ([[(py"query", VStr py"x")]]
                  ++ [(py"query", VStr py"y"); (py"snippet", VInt 7)] :: [])))
  = Raise (mkExn TypeError py"sequence item 6: expected str instance, int found").
Proof.
  apply (llm_writer_fallback_snippet_type (fun _ => [])
           [[(py"query", VStr py"x")]]
           [(py"query", VStr py"y"); (py"snippet", VInt 7)] []).
  - constructor; [by exists [] | constructor].
  - exact I.
Defined.

(** ** The LLM-backed email handler ([llm_local/email_agent.py]) *)

Lemma llm_simulated_email_sliceable rf payload :
  sliceable (LlmEmail.markdown_of rf payload) = true ->
  LlmEmail._simulated_email rf payload = Ok (VStr py"email_sent").
Proof.
  intros H. unfold LlmEmail._simulated_email.
  by destruct (LlmEmail.markdown_of rf payload).
Qed.

(** X27: the outcome of the LLM-backed email handler. When the markdown
    it takes from the payload can be sliced, the handler returns whatever
    the model does: either "email_sent", or the truthy [status] of the
    JSON object the model answered with. When the markdown cannot be
    sliced the handler raises before the model is called, for a markdown
    that is no mapping either the [TypeError] saying that its type is not
    subscriptable; this is so for a mapping payload without the key
    [markdown_report], whose markdown is [None]. *)
Theorem llm_email_handler_outcome json_loads rf llm payload :
  (sliceable (LlmEmail.markdown_of rf payload) = true ->
   exists status,
     LlmEmail._email_handler json_loads rf llm payload = Ok status
     /\ (status = VStr py"email_sent"
         \/ exists text d,
              llm = Ok text
              /\ _extract_json_from_text json_loads text = VDict d
              /\ dict_get py"status" d = Some status
              /\ LlmEmail.py_truthy status = true))
  /\ (sliceable (LlmEmail.markdown_of rf payload) = false ->
      (exists e, LlmEmail._email_handler json_loads rf llm payload = Raise e)
      /\ ((forall d, LlmEmail.markdown_of rf payload <> VDict d) ->
          LlmEmail._email_handler json_loads rf llm payload
          = Raise (mkExn TypeError
                     (py"'" ++ type_name (LlmEmail.markdown_of rf payload)
                      ++ py"' object is not subscriptable"))))
  /\ (forall d, payload = VDict d -> dict_get py"markdown_report" d = None ->
      LlmEmail._email_handler json_loads rf llm payload
      = Raise (mkExn TypeError py"'NoneType' object is not subscriptable")).
Proof.
  split; [|split].
  - intros Hmd. pose proof (llm_simulated_email_sliceable rf payload Hmd) as Hsim.
    assert (Hpre : exists v, py_slice_to 2000 (LlmEmail.markdown_of rf payload) = Ok v).
    { destruct (LlmEmail.markdown_of rf payload); try done; by eexists. }
    destruct Hpre as [v Hpre].
    unfold LlmEmail._email_handler. rewrite Hpre. cbn [mbind result_bind bind].
    destruct llm as [text|e]; [|exists (VStr py"email_sent"); by split; [|left]].
    destruct (_extract_json_from_text json_loads text) as [| | | | | |d| | | |] eqn:Hx;
      try (exists (VStr py"email_sent"); by split; [|left]).
    cbv zeta.
    destruct (dict_get py"status" d) as [st|] eqn:Hst;
      [|exists (VStr py"email_sent"); by split; [|left]].
    cbn [default from_option id].
    destruct (LlmEmail.py_truthy st) eqn:Htruthy;
      [|exists (VStr py"email_sent"); by split; [|left]].
    destruct (py_slice_to 1000 (default VNone (dict_get py"body" d)));
      [|exists (VStr py"email_sent"); by split; [|left]].
    exists st. split; [done|]. right. by exists text, d.
  - intros Hmd. unfold LlmEmail._email_handler.
    destruct (LlmEmail.markdown_of rf payload) as [| | | | | |d| | | |];
      try done; (split; [by eexists|]); try done.
    intros Hd. by destruct (Hd d).
  - intros d -> Hd. unfold LlmEmail._email_handler, LlmEmail.markdown_of.
    by rewrite Hd.
Qed.

Lemma llm_email_handler_outcome_witness :
  LlmEmail._email_handler Json.loads (fun _ => []) (Ok py"{}")
    (VDict [(py"title", VStr py"T")])
  = Raise (mkExn TypeError py"'NoneType' object is not subscriptable").
Proof.
  apply (proj2 (proj2 (llm_email_handler_outcome Json.loads (fun _ => []) (Ok py"{}")
                         (VDict [(py"title", VStr py"T")])))
           [(py"title", VStr py"T")]); reflexivity.
Defined.

(** ** The LLM-backed search handler ([llm_local/search_agent.py]) *)

(** An entry of the answer that the handler can read: a mapping whose
    [query] is a text. *)
Definition readable (it : Value) : bool :=
  match it with
  | VDict d => match dict_get py"query" d with Some (VStr _) => true | _ => false end
  | _ => false
  end.

(** The result the handler builds from a readable entry. *)
Definition read_as (it : Value) (r : LlmSearch.SearchResultItem) : Prop :=
  exists d q,
    it = VDict d
    /\ dict_get py"query" d = Some (VStr q)
    /\ LlmSearch.query r = VStr q
    /\ LlmSearch.snippet r = default (VStr (py"Snippet for " ++ q)) (dict_get py"snippet" d)
    /\ LlmSearch.url r
       = default (VStr (py"https://example.com/search?q=" ++ replace_char " " "+" q))
           (dict_get py"url" d).

Lemma llm_result_of_readable rf it :
  readable it = true ->
  exists r, LlmSearch.result_of rf it = Ok r /\ read_as it r.
Proof.
  intros H. destruct it as [| | | | | |d| | | |]; try done. unfold readable in H.
  destruct (dict_get py"query" d) as [[| | | |q| | | | | |]|] eqn:Hq; try done.
  unfold LlmSearch.result_of. rewrite Hq. eexists. split; [reflexivity|].
  by exists d, q.
Qed.

Lemma llm_result_of_unreadable rf it :
  readable it = false ->
  exists msg, LlmSearch.result_of rf it = Raise (mkExn AttributeError msg).
Proof.
  intros H. destruct it as [| | | | | |d| | | |]; try (by eexists). unfold readable in H.
  unfold LlmSearch.result_of.
  destruct (dict_get py"query" d) as [[| | | |q| | | | | |]|] eqn:Hq;
    try done; by eexists.
Qed.

Lemma llm_results_loop_readable rf l :
  forallb readable l = true ->
  exists rs, LlmSearch.results_loop rf l = Ok rs /\ Forall2 read_as l rs.
Proof.
  induction l as [|it l IH]; intros H.
  - exists []. by split.
  - simpl in H. apply andb_true_iff in H as [Hit Hl].
    destruct (llm_result_of_readable rf it Hit) as (r & Hr & Hread).
    destruct (IH Hl) as (rs & Hrs & Hall).
    exists (r :: rs). split; [|by constructor].
    simpl. by rewrite Hr, Hrs.
Qed.

Lemma llm_results_loop_unreadable rf l :
  forallb readable l = false ->
  exists msg, LlmSearch.results_loop rf l = Raise (mkExn AttributeError msg).
Proof.
  induction l as [|it l IH]; intros H; [done|].
  simpl in H. destruct (readable it) eqn:Hit.
  - destruct (llm_result_of_readable rf it Hit) as (r & Hr & _).
    destruct (IH H) as (msg & Hmsg). exists msg. simpl. by rewrite Hr, Hmsg.
  - destruct (llm_result_of_unreadable rf it Hit) as (msg & Hmsg).
    exists msg. simpl. by rewrite Hmsg.
Qed.

(** X28: when the answer of the model decodes to a JSON list, the
    LLM-backed search handler builds its results from that list alone,
    whatever the payload. It returns exactly when every entry is a mapping
    whose [query] is a text, with one result per entry in order (the
    snippet and the url of the entry, or their defaults); as soon as an
    entry is not a mapping, or has no text under [query], the handler
    raises an [AttributeError], even for an entry that gives its url. *)
Theorem llm_search_answer_list json_loads rf text l p :
  _extract_json_from_text json_loads text = VList l ->
  (forallb readable l = true ->
   exists rs,
     LlmSearch._search_handler json_loads rf (Ok text) p = Ok rs
     /\ Forall2 read_as l rs)
  /\ (forallb readable l = false ->
      exists msg,
        LlmSearch._search_handler json_loads rf (Ok text) p
        = Raise (mkExn AttributeError msg)).
Proof.
  intros Hx. unfold LlmSearch._search_handler. rewrite Hx.
  cbn [mbind result_bind bind]. split.
  - apply llm_results_loop_readable.
  - apply llm_results_loop_unreadable.
Qed.

Definition text_url_only : str := py"[{" ++ dq ++ py"url" ++ dq ++ py": 1}]".

Lemma llm_search_answer_list_witness :
  exists msg,
    LlmSearch._search_handler Json.loads (fun _ => []) (Ok text_url_only)
      (LlmSearch.PList [])
    = Raise (mkExn AttributeError msg).
Proof.
  apply (proj2 (llm_search_answer_list Json.loads (fun _ => []) text_url_only
                  [VDict [(py"url", VInt 1)]] (LlmSearch.PList [])
                  ltac:(vm_compute; reflexivity))).
  reflexivity.
Defined.

(** The entry [_simulated_search] makes for a text query, and the result
    the handler builds from it. *)
Definition simulated_entry_of (q : str) : Value :=
  VDict [ (py"query", VStr q);
          (py"snippet", VStr (py"Simulated snippet for " ++ q));
          (py"url", VStr (py"https://example.com/search?q=" ++ replace_char " " "+" q)) ].

Definition simulated_result_of (q : str) : LlmSearch.SearchResultItem :=
  LlmSearch.mkResult (VStr q)
    (VStr (py"Simulated snippet for " ++ q))
    (VStr (py"https://example.com/search?q=" ++ replace_char " " "+" q)).

(** The model does not answer with a JSON list. *)
Definition no_list json_loads (llm : result str) : Prop :=
  match llm with
  | Raise _ => True
  | Ok text =>
      match _extract_json_from_text json_loads text with VList _ => False | _ => True end
  end.

Definition text_query rf (e : LlmSearch.element) : Prop :=
  exists q, LlmSearch.element_query rf e = VStr q.

Lemma llm_simulated_loop_texts rf items qs :
  map (LlmSearch.element_query rf) items = map VStr qs ->
  LlmSearch.simulated_loop rf items = Ok (map simulated_entry_of qs).
Proof.
  revert qs. induction items as [|e items IH]; intros [|q qs] H; try done.
  simpl in H. injection H as Hq Hrest.
  cbn [LlmSearch.simulated_loop]. rewrite (IH qs Hrest).
  unfold LlmSearch.simulated_entry. rewrite Hq. done.
Qed.

Lemma llm_simulated_loop_stops rf pre e post :
  Forall (text_query rf) pre ->
  match LlmSearch.element_query rf e with VStr _ => False | _ => True end ->
  LlmSearch.simulated_loop rf (pre ++ e :: post)
  = Raise (no_attribute (LlmSearch.element_query rf e) py"replace").
Proof.
  intros Hpre He. induction Hpre as [|x pre [q Hq] _ IH].
  - cbn [app LlmSearch.simulated_loop]. unfold LlmSearch.simulated_entry.
    by destruct (LlmSearch.element_query rf e).
  - cbn [app LlmSearch.simulated_loop]. rewrite IH.
    unfold LlmSearch.simulated_entry. by rewrite Hq.
Qed.

Lemma llm_results_loop_simulated rf qs :
  LlmSearch.results_loop rf (map simulated_entry_of qs) = Ok (map simulated_result_of qs).
Proof.
  induction qs as [|q qs IH]; [done|].
  cbn [map LlmSearch.results_loop]. by rewrite IH.
Qed.

Lemma llm_search_handler_fallback json_loads rf llm p :
  no_list json_loads llm ->
  LlmSearch._search_handler json_loads rf llm p
  = (parsed ← LlmSearch.simulated_loop rf (LlmSearch.items_of p);
     LlmSearch.results_loop rf parsed).
Proof.
  intros Hllm. unfold LlmSearch._search_handler, LlmSearch._simulated_search.
  destruct llm as [text|e]; [|done]. unfold no_list in Hllm.
  by destruct (_extract_json_from_text json_loads text).
Qed.

(** X29: the fallback of the LLM-backed search. When the call of the
    model raises or its answer is not a JSON list, the handler answers
    from the payload: if the query of every item is a text, it returns one
    result per item in order, holding the query, the snippet "Simulated
    snippet for <query>" and the url with every space of the query
    replaced by "+"; if some item has a query that is not a text (as
    [None], which the planner stores for an entry without [query]), it
    raises the [AttributeError] of [replace] for the first such item. *)
Theorem llm_search_fallback json_loads rf llm p :
  no_list json_loads llm ->
  (forall qs,
     map (LlmSearch.element_query rf) (LlmSearch.items_of p) = map VStr qs ->
     LlmSearch._search_handler json_loads rf llm p = Ok (map simulated_result_of qs))
  /\ (forall pre e post,
        LlmSearch.items_of p = pre ++ e :: post ->
        Forall (text_query rf) pre ->
        match LlmSearch.element_query rf e with VStr _ => False | _ => True end ->
        LlmSearch._search_handler json_loads rf llm p
        = Raise (no_attribute (LlmSearch.element_query rf e) py"replace")).
Proof.
  intros Hllm. rewrite (llm_search_handler_fallback json_loads rf llm p Hllm). split.
  - intros qs Hqs. rewrite (llm_simulated_loop_texts rf _ qs Hqs).
    cbn [mbind result_bind bind]. apply llm_results_loop_simulated.
  - intros pre e post Hitems Hpre He.
    by rewrite Hitems, (llm_simulated_loop_stops rf pre e post Hpre He).
Qed.

Lemma llm_search_fallback_witness :
  LlmSearch._search_handler Json.loads (fun _ => []) (Ok py"no results")
    (LlmSearch.PList
       [LlmSearch.EItem
          (LlmPlanner.mkItem (VStr py"rust overview") (VStr py"overview")
             (FNum (4 # 5)) 1 VNone)])
  = Ok [simulated_result_of py"rust overview"].
Proof.
  apply (proj1 (llm_search_fallback Json.loads (fun _ => []) (Ok py"no results")
                  (LlmSearch.PList
                     [LlmSearch.EItem
                        (LlmPlanner.mkItem (VStr py"rust overview") (VStr py"overview")
                           (FNum (4 # 5)) 1 VNone)])
                  ltac:(vm_compute; exact I))
           [py"rust overview"]).
  reflexivity.
Defined.

(** ** The LLM-backed manager without a model *)

Lemma llm_text_queries rf (items : list LlmPlanner.WebSearchItem) :
  (forall k x, items !! k = Some x -> exists s, LlmPlanner.query x = VStr s) ->
  exists qs,
    map (LlmSearch.element_query rf) (map LlmSearch.EItem items) = map VStr qs
    /\ length qs = length items.
Proof.
  induction items as [|x items IH]; intros H.
  - by exists [].
  - destruct (H 0 x eq_refl) as [s Hs].
    destruct IH as (qs & Hqs & Hlen); [intros k y Hy; exact (H (S k) y Hy)|].
    exists (s :: qs). split; [|simpl; by rewrite Hlen].
    cbn [map LlmSearch.element_query]. by rewrite Hs, Hqs.
Qed.

(** X30: without a model the LLM-backed pipeline cannot produce a
    report. If the planner, the search and the writer all fall back (the
    call of the model raises, or its answer has not the shape the stage
    looks for), then for every payload with a query the manager raises
    the [AttributeError] of the writer's fallback on [get]: the planner's
    fallback always plans at least one search, the search's fallback
    returns one [SearchResultItem] for each, and the writer's fallback
    cannot read such an object. The email stage is not reached. *)
Theorem llm_manager_without_model json_loads rf fos ios
    llm_planner llm_search llm_writer llm_email payload query :
  match llm_planner with
  | Raise _ => True
  | Ok text => exists s, _extract_json_from_text json_loads text = VStr s
  end ->
  no_list json_loads llm_search ->
  no_object json_loads llm_writer ->
  LlmManager.query_of rf payload = Ok query ->
  LlmManager._manager_handler json_loads rf fos ios
    llm_planner llm_search llm_writer llm_email payload
  = Raise (mkExn AttributeError py"'SearchResultItem' object has no attribute 'get'").
Proof.
  intros Hplanner Hsearch Hwriter Hquery.
  destruct (llm_planner_fallback_items json_loads rf fos ios llm_planner query Hplanner)
    as (items & Hplan & Hlen & Hitems).
  destruct (llm_text_queries rf items) as (qs & Hqs & Hqlen).
  { intros k x Hx. exact (proj2 (Hitems k x Hx)). }
  unfold LlmManager._manager_handler. rewrite Hquery.
  cbn [mbind result_bind bind]. rewrite Hplan.
  cbn [mbind result_bind bind LlmPlanner.searches].
  rewrite (llm_search_handler_fallback json_loads rf llm_search _ Hsearch).
  cbn [LlmSearch.items_of].
  rewrite (llm_simulated_loop_texts rf _ qs Hqs).
  cbn [mbind result_bind bind]. rewrite llm_results_loop_simulated.
  cbn [mbind result_bind bind].
  destruct qs as [|q qs]; [simpl in Hqlen; lia|].
  cbn [map].
  rewrite (llm_writer_handler_fallback json_loads rf llm_writer
             (LlmWriter.PResults
                (LlmWriter.EResult (simulated_result_of q)
                 :: map LlmWriter.EResult (map simulated_result_of qs)))
             (LlmWriter.EResult (simulated_result_of q)
              :: map LlmWriter.EResult (map simulated_result_of qs)) Hwriter eq_refl).
  by rewrite (proj2 (llm_simulated_writer_needs_get rf
                       (LlmWriter.EResult (simulated_result_of q))
                       (map LlmWriter.EResult (map simulated_result_of qs)) eq_refl)).
Qed.

Lemma llm_manager_without_model_witness :
  LlmManager._manager_handler Json.loads (fun _ => []) (fun _ => None) (fun _ => None)
    (Raise (mkExn RuntimeError py"OPENAI_API_KEY not configured in environment."))
    (Raise (mkExn RuntimeError py"OPENAI_API_KEY not configured in environment."))
    (Raise (mkExn RuntimeError py"OPENAI_API_KEY not configured in environment."))
    (Raise (mkExn RuntimeError py"OPENAI_API_KEY not configured in environment."))
    (VStr py"rust and go")
  = Raise (mkExn AttributeError py"'SearchResultItem' object has no attribute 'get'").
Proof.
  apply (llm_manager_without_model Json.loads (fun _ => []) (fun _ => None) (fun _ => None)
           (Raise (mkExn RuntimeError py"OPENAI_API_KEY not configured in environment."))
           (Raise (mkExn RuntimeError py"OPENAI_API_KEY not configured in environment."))
           (Raise (mkExn RuntimeError py"OPENAI_API_KEY not configured in environment."))
           (Raise (mkExn RuntimeError py"OPENAI_API_KEY not configured in environment."))
           (VStr py"rust and go") py"rust and go"); (exact I || reflexivity).
Defined.
